(** * ReserveX: booking, availability, rating and favourite engine

    A shallow embedding of the data layer of the ReserveX front end:

    - [Database]       the localStorage-backed class of [lib/database.ts];
    - [MockDatabase]   the in-memory class of the same file;
    - [Service]        the interfaces of the service layer and the
      localStorage keys its fallback branches use;
    - [DemoData]       the bundled seed records of [services/demo-data.ts];
    - [BookingService], [ReviewService], [FavouriteService],
      [RestaurantService]   the service classes, whose methods try the
      remote API first and run their [catch] branch when the request throws.

    The definitions come first; the specification-side definitions, the
    sample states and the theorems follow them.

    Conventions of the embedding.  A JavaScript [number] that the code only
    ever uses as a count (seats, guests, star ratings, lengths, epoch
    milliseconds) is a [Z]; a [number] that can be fractional (a restaurant's
    average rating, [Math.random()]) is an exact rational [Q].  The rating
    average is computed in exact rationals; the products of the random
    availability draw are rounded to the nearest double as the language
    does ([binary64], [times]).  An ISO
    timestamp string produced by [new Date(..).toISOString()] is represented
    by its epoch milliseconds, which is what [new Date(s).getTime()] reads
    back.  The wall clock is not part of the state: every reading of
    [Date.now()] or [new Date()] is an explicit argument, in the order in
    which the code takes the readings.  A thrown [Error] is the [Throw]
    branch of [Result], carrying the message. *)

From Stdlib Require Import QArith Qabs Qround Lqa SpecFloat.
From stdpp Require Import numbers pretty strings sorting relations list.

Local Open Scope Z_scope.

(** ** JavaScript runtime helpers *)

Inductive Result (A : Type) : Type :=
  | Ok (value : A)
  | Throw (message : string).
Arguments Ok {A} value.
Arguments Throw {A} message.

(** [arr.reduce((acc, x) => f(acc, x), init)] *)
Definition reduce {A B : Type} (f : B → A → B) (init : B) (arr : list A) : B :=
  foldl f init arr.

(** [arr.find(p)] and [arr.findIndex(p)]; [None] stands for [undefined] and
    for the index [-1]. *)
Definition find {A : Type} (P : A → Prop) `{∀ x, Decision (P x)}
    (arr : list A) : option A :=
  snd <$> list_find P arr.

Definition findIndex {A : Type} (P : A → Prop) `{∀ x, Decision (P x)}
    (arr : list A) : option nat :=
  fst <$> list_find P arr.

(** [arr.some(p)] *)
Definition some {A : Type} (P : A → Prop) `{∀ x, Decision (P x)}
    (arr : list A) : bool :=
  bool_decide (Exists P arr).

(** [arr.push(x)] *)
Definition push {A : Type} (arr : list A) (x : A) : list A := arr ++ [x].

(** [Math.round(x)]: the nearest integer, a tie going up. *)
Definition Math_round (x : Q) : Z := Qfloor (x + (1 # 2)).

(** [Math.floor(x)] *)
Definition Math_floor (x : Q) : Z := Qfloor x.

(** The nearest whole number, a tie going to the even one. *)
Definition roundHalfEven (y : Q) : Z :=
  let f := Qfloor y in
  match (y - inject_Z f ?= 1 # 2)%Q with
  | Lt => f
  | Gt => f + 1
  | Eq => if Z.even f then f else f + 1
  end.

(** The IEEE 754 double nearest to the real number [x], a tie going to the
    even significand: the value of a [number] operation whose exact result
    is [x].  On the scale of 2^-1074, the smallest positive double, [x] is
    rounded to a whole number of units 2^E, where the unit leaves 53 bits
    to the significand and is never below 1 (the subnormal range).  Results
    of magnitude 2^1024 and more, which the language gives as [Infinity],
    are outside the model; no operation below comes near them. *)
Definition binary64 (x : Q) : Q :=
  let X := (Qabs x * inject_Z (2 ^ 1074))%Q in
  let E := Z.max 0 (Z.log2 (Qfloor X) - 52) in
  let m := roundHalfEven (X / inject_Z (2 ^ E)) in
  let y := (inject_Z (m * 2 ^ E) / inject_Z (2 ^ 1074))%Q in
  if Qlt_le_dec x 0 then (- y)%Q else y.

(** [a * b] on two numbers, and the number a decimal literal such as [0.9]
    denotes. *)
Definition times (a b : Q) : Q := binary64 (a * b).

Definition literal (decimal : Q) : Q := binary64 decimal.

(** [arr.sort(cmp)] for a comparator of the form [key(b) - key(a)]: the
    language requires the sort to be stable, so the result is the one a
    stable insertion sort yields, larger keys first. *)
Fixpoint insertDesc {A : Type} (key : A → Z) (x : A) (sorted : list A) : list A :=
  match sorted with
  | [] => [x]
  | y :: rest =>
      if decide (key y - key x ≤ 0) then x :: y :: rest
      else y :: insertDesc key x rest
  end.

Definition sortDesc {A : Type} (key : A → Z) (arr : list A) : list A :=
  foldr (insertDesc key) [] arr.

(** ** Types shared by the data layers *)

Inductive BookingStatus : Type := pending | confirmed | completed | cancelled.

Global Instance BookingStatus_eq_dec : EqDecision BookingStatus.
Proof. solve_decision. Defined.

(** The string a [Booking['status']] value is at run time. *)
Definition statusName (s : BookingStatus) : string :=
  match s with
  | pending => "pending"
  | confirmed => "confirmed"
  | completed => "completed"
  | cancelled => "cancelled"
  end.

Inductive RestaurantStatus : Type := active | awaiting | blocked.

Inductive Role : Type := customer | manager | admin.

(** [interface Restaurant], declared with the same fields in
    [lib/database.ts] and in the restaurant service. *)
Record Restaurant : Type := mkRestaurant {
  rst_id : string;
  rst_name : string;
  rst_cuisine : string;
  rst_location : string;
  rst_city : string;
  rst_division : string;
  rst_country : string;
  rst_description : string;
  rst_image : string;
  rst_rating : Q;
  rst_totalReviews : Z;
  rst_openingTime : string;
  rst_closingTime : string;
  rst_totalSeats : Z;
  rst_priceRange : string;
  rst_phone : string;
  rst_managerId : option string;
  rst_status : RestaurantStatus;
  rst_createdAt : Z
}.

(** ** [class Database] of [lib/database.ts] *)

Module Database.

Record Booking : Type := mkBooking {
  bk_id : string;
  bk_restaurantId : string;
  bk_userId : string;
  bk_date : string;
  bk_timeSlot : string;
  bk_seats : Z;
  bk_status : BookingStatus;
  bk_customerName : string;
  bk_customerEmail : string;
  bk_customerPhone : string;
  bk_specialRequests : option string;
  bk_createdAt : Z;
  bk_updatedAt : Z
}.

(** [Omit<Booking, 'id' | 'createdAt' | 'updatedAt'>] *)
Record BookingInput : Type := mkBookingInput {
  bi_restaurantId : string;
  bi_userId : string;
  bi_date : string;
  bi_timeSlot : string;
  bi_seats : Z;
  bi_status : BookingStatus;
  bi_customerName : string;
  bi_customerEmail : string;
  bi_customerPhone : string;
  bi_specialRequests : option string
}.

Record Review : Type := mkReview {
  rv_id : string;
  rv_restaurantId : string;
  rv_userId : string;
  rv_userName : string;
  rv_rating : Z;
  rv_comment : string;
  rv_createdAt : Z
}.

(** [Omit<Review, 'id' | 'createdAt'>] *)
Record ReviewInput : Type := mkReviewInput {
  ri_restaurantId : string;
  ri_userId : string;
  ri_userName : string;
  ri_rating : Z;
  ri_comment : string
}.

Record Favourite : Type := mkFavourite {
  fav_id : string;
  fav_userId : string;
  fav_restaurantId : string;
  fav_createdAt : Z
}.

(** The localStorage collections the class reads and writes.  [getData]
    parses the array stored under a key and yields the empty array when the
    key is absent; [setData] replaces the array.  Each field is the array
    [getData] returns for its key. *)
Record Store : Type := mkStore {
  RESTAURANTS : list Restaurant;
  BOOKINGS : list Booking;
  REVIEWS : list Review;
  FAVOURITES : list Favourite
}.

Definition setRestaurants (st : Store) (data : list Restaurant) : Store :=
  mkStore data (BOOKINGS st) (REVIEWS st) (FAVOURITES st).
Definition setBookings (st : Store) (data : list Booking) : Store :=
  mkStore (RESTAURANTS st) data (REVIEWS st) (FAVOURITES st).
Definition setReviews (st : Store) (data : list Review) : Store :=
  mkStore (RESTAURANTS st) (BOOKINGS st) data (FAVOURITES st).
Definition setFavourites (st : Store) (data : list Favourite) : Store :=
  mkStore (RESTAURANTS st) (BOOKINGS st) (REVIEWS st) data.

(** *** Restaurant methods *)

Definition getRestaurants (st : Store) : list Restaurant := RESTAURANTS st.

Definition getRestaurantById (st : Store) (id : string) : option Restaurant :=
  find (λ r, rst_id r = id) (getRestaurants st).

(** *** Booking methods *)

Definition getBookings (st : Store) : list Booking := BOOKINGS st.

Definition getBookingById (st : Store) (id : string) : option Booking :=
  find (λ b, bk_id b = id) (getBookings st).

Definition getBookingsByRestaurant (st : Store) (restaurantId : string)
    : list Booking :=
  filter (λ b, bk_restaurantId b = restaurantId) (getBookings st).

(** [createBooking]: three clock readings, for the id, for [createdAt]
    and for [updatedAt]. *)
Definition createBooking (st : Store) (tId tCreated tUpdated : Z)
    (booking : BookingInput) : Booking * Store :=
  let bookings := getBookings st in
  let newBooking :=
    {| bk_id := "booking-" +:+ pretty tId;
       bk_restaurantId := bi_restaurantId booking;
       bk_userId := bi_userId booking;
       bk_date := bi_date booking;
       bk_timeSlot := bi_timeSlot booking;
       bk_seats := bi_seats booking;
       bk_status := bi_status booking;
       bk_customerName := bi_customerName booking;
       bk_customerEmail := bi_customerEmail booking;
       bk_customerPhone := bi_customerPhone booking;
       bk_specialRequests := bi_specialRequests booking;
       bk_createdAt := tCreated;
       bk_updatedAt := tUpdated |} in
  (newBooking, setBookings st (push bookings newBooking)).

Definition getAvailableSeats (st : Store) (restaurantId date timeSlot : string)
    : Z :=
  match getRestaurantById st restaurantId with
  | None => 0
  | Some restaurant =>
      let confirmedBookings :=
        filter (λ b, bk_restaurantId b = restaurantId ∧
                     bk_date b = date ∧
                     bk_timeSlot b = timeSlot ∧
                     (bk_status b = confirmed ∨ bk_status b = pending))
               (getBookings st) in
      let bookedSeats :=
        reduce (λ sum b, sum + bk_seats b) 0 confirmedBookings in
      rst_totalSeats restaurant - bookedSeats
  end.

(** *** Review methods *)

Definition getReviews (st : Store) : list Review := REVIEWS st.

Definition getReviewsByRestaurant (st : Store) (restaurantId : string)
    : list Review :=
  filter (λ r, rv_restaurantId r = restaurantId) (getReviews st).

(** The two assignments [restaurants[i].rating = ..] and
    [restaurants[i].totalReviews = ..]. *)
Definition assignDerived (rating : Q) (totalReviews : Z) (r : Restaurant)
    : Restaurant :=
  {| rst_id := rst_id r;
     rst_name := rst_name r;
     rst_cuisine := rst_cuisine r;
     rst_location := rst_location r;
     rst_city := rst_city r;
     rst_division := rst_division r;
     rst_country := rst_country r;
     rst_description := rst_description r;
     rst_image := rst_image r;
     rst_rating := rating;
     rst_totalReviews := totalReviews;
     rst_openingTime := rst_openingTime r;
     rst_closingTime := rst_closingTime r;
     rst_totalSeats := rst_totalSeats r;
     rst_priceRange := rst_priceRange r;
     rst_phone := rst_phone r;
     rst_managerId := rst_managerId r;
     rst_status := rst_status r;
     rst_createdAt := rst_createdAt r |}.

Definition updateRestaurantRating (st : Store) (restaurantId : string) : Store :=
  let reviews := getReviewsByRestaurant st restaurantId in
  let restaurants := getRestaurants st in
  match findIndex (λ r, rst_id r = restaurantId) restaurants with
  | Some restaurantIndex =>
      let totalReviews := Z.of_nat (length reviews) in
      let ratingSum := reduce (λ sum r, sum + rv_rating r) 0 reviews in
      let avgRating : Q :=
        if decide (totalReviews > 0)
        then (inject_Z ratingSum / inject_Z totalReviews)%Q
        else 0%Q in
      let rating := (inject_Z (Math_round (avgRating * 10)) / 10)%Q in
      setRestaurants st
        (alter (assignDerived rating totalReviews) restaurantIndex restaurants)
  | None => st
  end.

(** [createReview]: two clock readings, for the id and for [createdAt]. *)
Definition createReview (st : Store) (tId tCreated : Z) (review : ReviewInput)
    : Review * Store :=
  let reviews := getReviews st in
  let newReview :=
    {| rv_id := "review-" +:+ pretty tId;
       rv_restaurantId := ri_restaurantId review;
       rv_userId := ri_userId review;
       rv_userName := ri_userName review;
       rv_rating := ri_rating review;
       rv_comment := ri_comment review;
       rv_createdAt := tCreated |} in
  let st1 := setReviews st (push reviews newReview) in
  (newReview, updateRestaurantRating st1 (ri_restaurantId review)).

Definition deleteReview (st : Store) (id : string) : bool * Store :=
  let reviews := getReviews st in
  match find (λ r, rv_id r = id) reviews with
  | None => (false, st)
  | Some review =>
      let filtered := filter (λ r, rv_id r ≠ id) reviews in
      let st1 := setReviews st filtered in
      (true, updateRestaurantRating st1 (rv_restaurantId review))
  end.

(** *** Favourite methods *)

Definition getFavourites (st : Store) : list Favourite := FAVOURITES st.

Definition isFavourite (st : Store) (userId restaurantId : string) : bool :=
  some (λ f, fav_userId f = userId ∧ fav_restaurantId f = restaurantId)
       (getFavourites st).

(** [toggleFavourite]: the clock is read (for the id, then for [createdAt])
    only on the branch that adds a record. *)
Definition toggleFavourite (st : Store) (tId tCreated : Z)
    (userId restaurantId : string) : bool * Store :=
  let favourites := getFavourites st in
  match findIndex (λ f, fav_userId f = userId ∧ fav_restaurantId f = restaurantId)
                  favourites with
  | Some existingIndex =>
      (false, setFavourites st (delete existingIndex favourites))
  | None =>
      let newFavourite :=
        {| fav_id := "fav-" +:+ pretty tId;
           fav_userId := userId;
           fav_restaurantId := restaurantId;
           fav_createdAt := tCreated |} in
      (true, setFavourites st (push favourites newFavourite))
  end.

(** *** Further booking methods *)

Definition getBookingsByUser (st : Store) (userId : string) : list Booking :=
  filter (λ b, bk_userId b = userId) (getBookings st).

(** [Partial<Booking>]: a field is [None] when the update object does not
    carry it.  [specialRequests] is optional in [Booking] itself, so an
    update can carry it as [undefined]. *)
Record BookingUpdates : Type := mkBookingUpdates {
  bu_id : option string;
  bu_restaurantId : option string;
  bu_userId : option string;
  bu_date : option string;
  bu_timeSlot : option string;
  bu_seats : option Z;
  bu_status : option BookingStatus;
  bu_customerName : option string;
  bu_customerEmail : option string;
  bu_customerPhone : option string;
  bu_specialRequests : option (option string);
  bu_createdAt : option Z;
  bu_updatedAt : option Z
}.

(** [{ ...booking, ...updates, updatedAt: new Date().toISOString() }] *)
Definition mergeBooking (b : Booking) (updates : BookingUpdates) (tUpdated : Z)
    : Booking :=
  {| bk_id := default (bk_id b) (bu_id updates);
     bk_restaurantId := default (bk_restaurantId b) (bu_restaurantId updates);
     bk_userId := default (bk_userId b) (bu_userId updates);
     bk_date := default (bk_date b) (bu_date updates);
     bk_timeSlot := default (bk_timeSlot b) (bu_timeSlot updates);
     bk_seats := default (bk_seats b) (bu_seats updates);
     bk_status := default (bk_status b) (bu_status updates);
     bk_customerName := default (bk_customerName b) (bu_customerName updates);
     bk_customerEmail := default (bk_customerEmail b) (bu_customerEmail updates);
     bk_customerPhone := default (bk_customerPhone b) (bu_customerPhone updates);
     bk_specialRequests :=
       default (bk_specialRequests b) (bu_specialRequests updates);
     bk_createdAt := default (bk_createdAt b) (bu_createdAt updates);
     bk_updatedAt := tUpdated |}.

(** [updateBooking] returns [Booking | undefined]; [list_find] yields the
    index [findIndex] returns together with the element stored there. *)
Definition updateBooking (st : Store) (tUpdated : Z) (id : string)
    (updates : BookingUpdates) : option Booking * Store :=
  let bookings := getBookings st in
  match list_find (λ b, bk_id b = id) bookings with
  | Some (index, found) =>
      let merged := mergeBooking found updates tUpdated in
      (Some merged, setBookings st (<[index := merged]> bookings))
  | None => (None, st)
  end.

(** *** Further review and favourite methods *)

Definition getReviewsByUser (st : Store) (userId : string) : list Review :=
  filter (λ r, rv_userId r = userId) (getReviews st).

Definition getFavouritesByUser (st : Store) (userId : string) : list Favourite :=
  filter (λ f, fav_userId f = userId) (getFavourites st).

(** [favourites.map(f => restaurants.find(..)).filter(r => r !== undefined)] *)
Definition getFavouriteRestaurants (st : Store) (userId : string)
    : list Restaurant :=
  let favourites := getFavouritesByUser st userId in
  let restaurants := getRestaurants st in
  omap (λ f, find (λ r, rst_id r = fav_restaurantId f) restaurants) favourites.

End Database.

(** ** The user and session methods of [class Database]

    These methods read and write two localStorage keys of their own, the
    user collection and the current user, so they are modelled over a store
    of their own.  [String.prototype.toLowerCase] is a parameter: nothing is
    assumed about it. *)

Module DatabaseUsers.

Record User : Type := mkUser {
  usr_id : string;
  usr_email : string;
  usr_password : string;
  usr_name : string;
  usr_role : Role;
  usr_profileImage : option string;
  usr_createdAt : Z
}.

(** [Omit<User, 'id' | 'createdAt'>] *)
Record UserInput : Type := mkUserInput {
  ui_email : string;
  ui_password : string;
  ui_name : string;
  ui_role : Role;
  ui_profileImage : option string
}.

Record Accounts : Type := mkAccounts {
  USERS : list User;
  CURRENT_USER : option User
}.

Section Methods.

Variable toLowerCase : string → string.

Definition getUsers (acc : Accounts) : list User := USERS acc.

Definition getUserById (acc : Accounts) (id : string) : option User :=
  find (λ u, usr_id u = id) (getUsers acc).

Definition getUserByEmail (acc : Accounts) (email : string) : option User :=
  find (λ u, toLowerCase (usr_email u) = toLowerCase email) (getUsers acc).

(** [createUser]: two clock readings, for the id and for [createdAt]. *)
Definition createUser (acc : Accounts) (tId tCreated : Z) (user : UserInput)
    : User * Accounts :=
  let users := getUsers acc in
  let newUser :=
    {| usr_id := "user-" +:+ pretty tId;
       usr_email := ui_email user;
       usr_password := ui_password user;
       usr_name := ui_name user;
       usr_role := ui_role user;
       usr_profileImage := ui_profileImage user;
       usr_createdAt := tCreated |} in
  (newUser, mkAccounts (push users newUser) (CURRENT_USER acc)).

(** [login] returns [User | null]. *)
Definition login (acc : Accounts) (email password : string)
    : option User * Accounts :=
  match getUserByEmail acc email with
  | Some user =>
      if decide (usr_password user = password) then
        (Some user, mkAccounts (USERS acc) (Some user))
      else (None, acc)
  | None => (None, acc)
  end.

Definition logout (acc : Accounts) : Accounts := mkAccounts (USERS acc) None.

Definition getCurrentUser (acc : Accounts) : option User := CURRENT_USER acc.

End Methods.

End DatabaseUsers.

(** ** [class MockDatabase] of [lib/database.ts]

    The in-memory data layer: its arrays live in the object, and
    [cancelBooking] writes the status into the array element it found. *)

Module MockDatabase.

Inductive ApprovalStatus : Type := approved | unapproved.

Record Restaurant : Type := mkRestaurant {
  rst_id : string;
  rst_ownerId : string;
  rst_name : string;
  rst_division : string;
  rst_city : string;
  rst_country : string;
  rst_address : string;
  rst_description : string;
  rst_image : string;
  rst_cuisine : string;
  rst_totalSeats : Z;
  rst_rating : Q;
  rst_price : string;
  rst_status : ApprovalStatus;
  rst_available : bool;
  rst_location : string
}.

Record Booking : Type := mkBooking {
  bk_id : string;
  bk_userId : string;
  bk_restaurantId : string;
  bk_date : string;
  bk_timeSlot : string;
  bk_guests : Z;
  bk_status : BookingStatus;
  bk_createdAt : Z;
  bk_restaurantName : option string;
  bk_restaurantImage : option string;
  bk_time : option string
}.

(** [Omit<Booking, 'id' | 'createdAt' | 'status'>] *)
Record BookingInput : Type := mkBookingInput {
  bi_userId : string;
  bi_restaurantId : string;
  bi_date : string;
  bi_timeSlot : string;
  bi_guests : Z;
  bi_restaurantName : option string;
  bi_restaurantImage : option string;
  bi_time : option string
}.

Record Store : Type := mkStore {
  restaurants : list Restaurant;
  bookings : list Booking
}.

Definition getRestaurant (st : Store) (id : string) : option Restaurant :=
  find (λ r, rst_id r = id) (restaurants st).

Definition getBookings (st : Store) : list Booking := bookings st.

Definition getAvailableSeats (st : Store) (restaurantId date timeSlot : string)
    : Z :=
  match getRestaurant st restaurantId with
  | None => 0
  | Some restaurant =>
      let existingBookings :=
        filter (λ b, bk_restaurantId b = restaurantId ∧
                     bk_date b = date ∧
                     bk_timeSlot b = timeSlot ∧
                     bk_status b = confirmed)
               (bookings st) in
      let bookedSeats := reduce (λ sum b, sum + bk_guests b) 0 existingBookings in
      Z.max 0 (rst_totalSeats restaurant - bookedSeats)
  end.

(** [createBooking] returns [Booking | { error: string }]: the right
    injection is the error object.  [randomId] is the string
    [Math.random().toString(36).substr(2, 9)], [tCreated] the clock
    reading. *)
Definition createBooking (st : Store) (randomId : string) (tCreated : Z)
    (booking : BookingInput) : (Booking + string) * Store :=
  let available :=
    getAvailableSeats st (bi_restaurantId booking) (bi_date booking)
                      (bi_timeSlot booking) in
  if decide (available < bi_guests booking) then
    (inr "Not enough seats available.", st)
  else
    let restaurant := getRestaurant st (bi_restaurantId booking) in
    let newBooking :=
      {| bk_id := randomId;
         bk_userId := bi_userId booking;
         bk_restaurantId := bi_restaurantId booking;
         bk_date := bi_date booking;
         bk_timeSlot := bi_timeSlot booking;
         bk_guests := bi_guests booking;
         bk_status := confirmed;
         bk_createdAt := tCreated;
         bk_restaurantName := rst_name <$> restaurant;
         bk_restaurantImage := rst_image <$> restaurant;
         bk_time := Some (bi_timeSlot booking) |} in
    (inl newBooking, mkStore (restaurants st) (push (bookings st) newBooking)).

Definition assignStatus (status : BookingStatus) (b : Booking) : Booking :=
  {| bk_id := bk_id b;
     bk_userId := bk_userId b;
     bk_restaurantId := bk_restaurantId b;
     bk_date := bk_date b;
     bk_timeSlot := bk_timeSlot b;
     bk_guests := bk_guests b;
     bk_status := status;
     bk_createdAt := bk_createdAt b;
     bk_restaurantName := bk_restaurantName b;
     bk_restaurantImage := bk_restaurantImage b;
     bk_time := bk_time b |}.

(** [cancelBooking] returns nothing; the booking object it found is an
    element of [this.bookings], so the assignment shows in the array. *)
Definition cancelBooking (st : Store) (bookingId : string) : Store :=
  match findIndex (λ b, bk_id b = bookingId) (bookings st) with
  | Some index =>
      mkStore (restaurants st) (alter (assignStatus cancelled) index (bookings st))
  | None => st
  end.

End MockDatabase.

(** ** Interfaces of the service layer and the local overlay

    The records of [booking.service.ts], [review.service.ts], the favourite
    service and [auth.service.ts], and the localStorage keys the fallback
    branches read and write.  A key holds [None] until it is first written;
    the private [getAllLocal..] helpers read an absent key as the empty
    array. *)

Module Service.

Record User : Type := mkUser {
  usr_id : string;
  usr_email : string;
  usr_name : string;
  usr_role : Role;
  usr_profileImage : option string;
  usr_phone : option string;
  usr_createdAt : Z
}.

(** The populated [restaurant] object of a booking. *)
Record BookingRestaurant : Type := mkBookingRestaurant {
  br_id : string;
  br_name : string;
  br_image : string;
  br_location : string
}.

Record Booking : Type := mkBooking {
  bk_id : string;
  bk_restaurantId : string;
  bk_userId : string;
  bk_date : string;
  bk_timeSlot : string;
  bk_seats : Z;
  bk_status : BookingStatus;
  bk_customerName : string;
  bk_customerEmail : string;
  bk_customerPhone : string;
  bk_specialRequests : option string;
  bk_createdAt : Z;
  bk_updatedAt : Z;
  bk_restaurant : option BookingRestaurant
}.

Record CreateBookingData : Type := mkCreateBookingData {
  cb_restaurantId : string;
  cb_date : string;
  cb_timeSlot : string;
  cb_seats : Z;
  cb_customerName : string;
  cb_customerEmail : string;
  cb_customerPhone : string;
  cb_specialRequests : option string
}.

(** The populated [restaurant] object of a review. *)
Record ReviewRestaurant : Type := mkReviewRestaurant {
  rr_id : string;
  rr_name : string;
  rr_image : string
}.

Record Review : Type := mkReview {
  rv_id : string;
  rv_restaurantId : string;
  rv_userId : string;
  rv_userName : string;
  rv_userImage : option string;
  rv_rating : Z;
  rv_comment : string;
  rv_createdAt : Z;
  rv_restaurant : option ReviewRestaurant
}.

(** [rating] is a whole number of stars, which is what the pages pass (a
    star picker, [parseInt] of a select value); [NaN] is outside the
    model. *)
Record CreateReviewData : Type := mkCreateReviewData {
  cr_restaurantId : string;
  cr_rating : Z;
  cr_comment : string
}.

(** The populated [restaurant] object of a favourite. *)
Record FavouriteRestaurant : Type := mkFavouriteRestaurant {
  fr_id : string;
  fr_name : string;
  fr_cuisine : string;
  fr_image : string;
  fr_rating : Q;
  fr_location : string;
  fr_priceRange : string
}.

Record Favourite : Type := mkFavourite {
  fav_id : string;
  fav_userId : string;
  fav_restaurantId : string;
  fav_createdAt : Z;
  fav_restaurant : option FavouriteRestaurant
}.

Record LocalStorage : Type := mkLocalStorage {
  reservex_current_user : option User;
  reservex_demo_bookings : option (list Booking);
  reservex_demo_reviews : option (list Review);
  reservex_demo_favourites : option (list Favourite)
}.

(** [authService.getStoredUser()] *)
Definition getStoredUser (ls : LocalStorage) : option User :=
  reservex_current_user ls.

End Service.

(** ** Seed records of [services/demo-data.ts] *)

Module DemoData.

Import Service.

Definition DEMO_RESTAURANTS : list Restaurant := [
  {| rst_id := "rest-1"; rst_name := "Aurora"; rst_cuisine := "Continental";
     rst_location := "Shaheb Bazar, Rajshahi";
     rst_city := "Rajshahi"; rst_division := "Rajshahi"; rst_country := "Bangladesh";
     rst_description := "Aurora is a premium continental dining restaurant in Rajshahi offering fine dining experience with modern ambiance and fresh ingredients.";
     rst_image := "https://images.unsplash.com/photo-1517248135467-4c7edcad34c4?w=800&q=80";
     rst_rating := (24 # 5); rst_totalReviews := 124;
     rst_openingTime := "11:00 AM"; rst_closingTime := "11:00 PM";
     rst_totalSeats := 50; rst_priceRange := "৳৳৳";
     rst_phone := "+880 1711-123456"; rst_managerId := Some "user-manager-1";
     rst_status := active; rst_createdAt := 1698796800000 |};
  {| rst_id := "rest-2"; rst_name := "Helium"; rst_cuisine := "Fusion";
     rst_location := "Alokar Mor, Rajshahi";
     rst_city := "Rajshahi"; rst_division := "Rajshahi"; rst_country := "Bangladesh";
     rst_description := "Helium brings you an innovative fusion dining experience, combining Asian and Western cuisines in a contemporary setting.";
     rst_image := "https://images.unsplash.com/photo-1552566626-52f8b828add9?w=800&q=80";
     rst_rating := (23 # 5); rst_totalReviews := 89;
     rst_openingTime := "12:00 PM"; rst_closingTime := "10:30 PM";
     rst_totalSeats := 40; rst_priceRange := "৳৳";
     rst_phone := "+880 1711-123457"; rst_managerId := Some "user-manager-1";
     rst_status := active; rst_createdAt := 1700006400000 |};
  {| rst_id := "rest-3"; rst_name := "Calisto"; rst_cuisine := "Italian";
     rst_location := "Laxmipur, Rajshahi";
     rst_city := "Rajshahi"; rst_division := "Rajshahi"; rst_country := "Bangladesh";
     rst_description := "Authentic Italian cuisine in the heart of Rajshahi. Calisto offers handmade pasta, wood-fired pizzas, and classic Italian desserts.";
     rst_image := "https://images.unsplash.com/photo-1414235077428-338989a2e8c0?w=800&q=80";
     rst_rating := (47 # 10); rst_totalReviews := 156;
     rst_openingTime := "1:00 PM"; rst_closingTime := "11:00 PM";
     rst_totalSeats := 45; rst_priceRange := "৳৳৳";
     rst_phone := "+880 1711-123458"; rst_managerId := None;
     rst_status := active; rst_createdAt := 1697760000000 |};
  {| rst_id := "rest-4"; rst_name := "Chillox"; rst_cuisine := "Fast Food";
     rst_location := "Ghoda Mara, Rajshahi";
     rst_city := "Rajshahi"; rst_division := "Rajshahi"; rst_country := "Bangladesh";
     rst_description := "Your favorite fast food destination! Chillox serves up delicious burgers, wraps, and shakes in a vibrant, casual setting.";
     rst_image := "https://images.unsplash.com/photo-1555939594-58d7cb561ad1?w=800&q=80";
     rst_rating := (43 # 10); rst_totalReviews := 201;
     rst_openingTime := "10:00 AM"; rst_closingTime := "12:00 AM";
     rst_totalSeats := 60; rst_priceRange := "৳";
     rst_phone := "+880 1711-123459"; rst_managerId := None;
     rst_status := active; rst_createdAt := 1704412800000 |};
  {| rst_id := "rest-5"; rst_name := "Pizza Burg"; rst_cuisine := "Pizza & Burger";
     rst_location := "C&B Mor, Rajshahi";
     rst_city := "Rajshahi"; rst_division := "Rajshahi"; rst_country := "Bangladesh";
     rst_description := "Specializing in gourmet pizzas and premium burgers, Pizza Burg combines quality ingredients with creative recipes.";
     rst_image := "https://images.unsplash.com/photo-1513104890138-7c749659a591?w=800&q=80";
     rst_rating := (9 # 2); rst_totalReviews := 178;
     rst_openingTime := "11:00 AM"; rst_closingTime := "11:30 PM";
     rst_totalSeats := 55; rst_priceRange := "৳৳";
     rst_phone := "+880 1711-123460"; rst_managerId := None;
     rst_status := active; rst_createdAt := 1702166400000 |};
  {| rst_id := "rest-6"; rst_name := "Kebab House"; rst_cuisine := "Mughlai";
     rst_location := "Station Road, Rajshahi";
     rst_city := "Rajshahi"; rst_division := "Rajshahi"; rst_country := "Bangladesh";
     rst_description := "Experience the rich heritage of Mughlai cuisine at Kebab House. We serve traditional kebabs, biryanis, and curries.";
     rst_image := "https://images.unsplash.com/photo-1599487488170-d11ec9c172f0?w=800&q=80";
     rst_rating := (23 # 5); rst_totalReviews := 143;
     rst_openingTime := "12:00 PM"; rst_closingTime := "11:00 PM";
     rst_totalSeats := 48; rst_priceRange := "৳৳";
     rst_phone := "+880 1711-123461"; rst_managerId := None;
     rst_status := active; rst_createdAt := 1700870400000 |};
  {| rst_id := "rest-7"; rst_name := "Kudos"; rst_cuisine := "Chinese";
     rst_location := "Sapura, Rajshahi";
     rst_city := "Rajshahi"; rst_division := "Rajshahi"; rst_country := "Bangladesh";
     rst_description := "Kudos brings authentic Chinese flavors to Rajshahi with a menu featuring dim sum, noodles, and traditional wok dishes.";
     rst_image := "https://images.unsplash.com/photo-1525755662778-989d0524087e?w=800&q=80";
     rst_rating := (22 # 5); rst_totalReviews := 112;
     rst_openingTime := "12:00 PM"; rst_closingTime := "10:00 PM";
     rst_totalSeats := 42; rst_priceRange := "৳৳";
     rst_phone := "+880 1711-123462"; rst_managerId := None;
     rst_status := active; rst_createdAt := 1705708800000 |};
  {| rst_id := "rest-8"; rst_name := "North Burg"; rst_cuisine := "Burger";
     rst_location := "Binodpur, Rajshahi";
     rst_city := "Rajshahi"; rst_division := "Rajshahi"; rst_country := "Bangladesh";
     rst_description := "North Burg is your go-to spot for juicy, handcrafted burgers. We use 100% pure beef and fresh ingredients.";
     rst_image := "https://images.unsplash.com/photo-1571091718767-18b5b1457add?w=800&q=80";
     rst_rating := (9 # 2); rst_totalReviews := 167;
     rst_openingTime := "11:00 AM"; rst_closingTime := "11:00 PM";
     rst_totalSeats := 50; rst_priceRange := "৳";
     rst_phone := "+880 1711-123463"; rst_managerId := None;
     rst_status := active; rst_createdAt := 1702598400000 |};
  {| rst_id := "rest-9"; rst_name := "Backyard Kitchen"; rst_cuisine := "BBQ";
     rst_location := "Boalia, Rajshahi";
     rst_city := "Rajshahi"; rst_division := "Rajshahi"; rst_country := "Bangladesh";
     rst_description := "Backyard Kitchen offers a rustic BBQ experience with smoked meats, grilled specialties, and live outdoor cooking.";
     rst_image := "https://images.unsplash.com/photo-1544025162-d76694265947?w=800&q=80";
     rst_rating := (47 # 10); rst_totalReviews := 134;
     rst_openingTime := "5:00 PM"; rst_closingTime := "12:00 AM";
     rst_totalSeats := 38; rst_priceRange := "৳৳৳";
     rst_phone := "+880 1711-123464"; rst_managerId := None;
     rst_status := active; rst_createdAt := 1698624000000 |};
  {| rst_id := "rest-10"; rst_name := "Hideout"; rst_cuisine := "Café";
     rst_location := "Talaimari, Rajshahi";
     rst_city := "Rajshahi"; rst_division := "Rajshahi"; rst_country := "Bangladesh";
     rst_description := "A cozy café hideaway perfect for coffee lovers, book readers, and those seeking a peaceful ambiance.";
     rst_image := "https://images.unsplash.com/photo-1445116572660-236099ec97a0?w=800&q=80";
     rst_rating := (23 # 5); rst_totalReviews := 98;
     rst_openingTime := "8:00 AM"; rst_closingTime := "10:00 PM";
     rst_totalSeats := 35; rst_priceRange := "৳৳";
     rst_phone := "+880 1711-123465"; rst_managerId := None;
     rst_status := active; rst_createdAt := 1704844800000 |}
].

Definition DEMO_BOOKINGS : list Booking := [
  {| bk_id := "booking-1"; bk_restaurantId := "rest-1"; bk_userId := "user-customer-1";
     bk_date := "2024-02-25"; bk_timeSlot := "7:00 PM"; bk_seats := 4;
     bk_status := confirmed;
     bk_customerName := "Rakib Hassan"; bk_customerEmail := "customer@demo.com";
     bk_customerPhone := "+880 1711-999001";
     bk_specialRequests := Some "Window seat please";
     bk_createdAt := 1707523200000; bk_updatedAt := 1707523200000;
     bk_restaurant := Some
       {| br_id := "rest-1"; br_name := "Aurora";
          br_image := "https://images.unsplash.com/photo-1517248135467-4c7edcad34c4?w=800&q=80";
          br_location := "Shaheb Bazar, Rajshahi" |} |};
  {| bk_id := "booking-2"; bk_restaurantId := "rest-3"; bk_userId := "user-customer-1";
     bk_date := "2024-02-22"; bk_timeSlot := "8:00 PM"; bk_seats := 2;
     bk_status := pending;
     bk_customerName := "Rakib Hassan"; bk_customerEmail := "customer@demo.com";
     bk_customerPhone := "+880 1711-999001";
     bk_specialRequests := Some "Anniversary dinner";
     bk_createdAt := 1707955200000; bk_updatedAt := 1707955200000;
     bk_restaurant := Some
       {| br_id := "rest-3"; br_name := "Calisto";
          br_image := "https://images.unsplash.com/photo-1414235077428-338989a2e8c0?w=800&q=80";
          br_location := "Laxmipur, Rajshahi" |} |};
  {| bk_id := "booking-3"; bk_restaurantId := "rest-5"; bk_userId := "user-customer-1";
     bk_date := "2024-02-18"; bk_timeSlot := "6:30 PM"; bk_seats := 6;
     bk_status := completed;
     bk_customerName := "Rakib Hassan"; bk_customerEmail := "customer@demo.com";
     bk_customerPhone := "+880 1711-999001";
     bk_specialRequests := None;
     bk_createdAt := 1707091200000; bk_updatedAt := 1708214400000;
     bk_restaurant := Some
       {| br_id := "rest-5"; br_name := "Pizza Burg";
          br_image := "https://images.unsplash.com/photo-1513104890138-7c749659a591?w=800&q=80";
          br_location := "C&B Mor, Rajshahi" |} |};
  {| bk_id := "booking-4"; bk_restaurantId := "rest-9"; bk_userId := "user-customer-2";
     bk_date := "2024-02-23"; bk_timeSlot := "7:30 PM"; bk_seats := 5;
     bk_status := confirmed;
     bk_customerName := "Fatima Ahmed"; bk_customerEmail := "customer2@demo.com";
     bk_customerPhone := "+880 1711-999002";
     bk_specialRequests := Some "Outdoor seating if available";
     bk_createdAt := 1707696000000; bk_updatedAt := 1707782400000;
     bk_restaurant := Some
       {| br_id := "rest-9"; br_name := "Backyard Kitchen";
          br_image := "https://images.unsplash.com/photo-1544025162-d76694265947?w=800&q=80";
          br_location := "Boalia, Rajshahi" |} |};
  {| bk_id := "booking-5"; bk_restaurantId := "rest-2"; bk_userId := "user-customer-1";
     bk_date := "2024-02-15"; bk_timeSlot := "8:00 PM"; bk_seats := 3;
     bk_status := cancelled;
     bk_customerName := "Rakib Hassan"; bk_customerEmail := "customer@demo.com";
     bk_customerPhone := "+880 1711-999001";
     bk_specialRequests := None;
     bk_createdAt := 1706745600000; bk_updatedAt := 1707350400000;
     bk_restaurant := Some
       {| br_id := "rest-2"; br_name := "Helium";
          br_image := "https://images.unsplash.com/photo-1552566626-52f8b828add9?w=800&q=80";
          br_location := "Alokar Mor, Rajshahi" |} |}
].

Definition DEMO_REVIEWS : list Review := [
  {| rv_id := "review-1"; rv_restaurantId := "rest-1"; rv_userId := "user-customer-1";
     rv_userName := "Rakib Hassan";
     rv_userImage := Some "https://images.unsplash.com/photo-1500648767791-00dcc994a43e?w=200&q=80";
     rv_rating := 5;
     rv_comment := "Excellent food and service! The beef tenderloin was cooked to perfection. Highly recommended for special occasions.";
     rv_createdAt := 1706745600000;
     rv_restaurant := Some
       {| rr_id := "rest-1"; rr_name := "Aurora";
          rr_image := "https://images.unsplash.com/photo-1517248135467-4c7edcad34c4?w=800&q=80" |} |};
  {| rv_id := "review-2"; rv_restaurantId := "rest-1"; rv_userId := "user-customer-2";
     rv_userName := "Fatima Ahmed";
     rv_userImage := Some "https://images.unsplash.com/photo-1494790108377-be9c29b29330?w=200&q=80";
     rv_rating := 4;
     rv_comment := "Great ambiance and delicious food. The only downside was a bit of wait time during peak hours.";
     rv_createdAt := 1706400000000;
     rv_restaurant := Some
       {| rr_id := "rest-1"; rr_name := "Aurora";
          rr_image := "https://images.unsplash.com/photo-1517248135467-4c7edcad34c4?w=800&q=80" |} |};
  {| rv_id := "review-3"; rv_restaurantId := "rest-3"; rv_userId := "user-customer-1";
     rv_userName := "Rakib Hassan";
     rv_userImage := Some "https://images.unsplash.com/photo-1500648767791-00dcc994a43e?w=200&q=80";
     rv_rating := 5;
     rv_comment := "Best Italian restaurant in Rajshahi! The pasta was authentic and the tiramisu was heavenly.";
     rv_createdAt := 1707091200000;
     rv_restaurant := Some
       {| rr_id := "rest-3"; rr_name := "Calisto";
          rr_image := "https://images.unsplash.com/photo-1414235077428-338989a2e8c0?w=800&q=80" |} |};
  {| rv_id := "review-4"; rv_restaurantId := "rest-5"; rv_userId := "user-customer-2";
     rv_userName := "Fatima Ahmed";
     rv_userImage := Some "https://images.unsplash.com/photo-1494790108377-be9c29b29330?w=200&q=80";
     rv_rating := 4;
     rv_comment := "Good quality pizza and burgers at reasonable prices. Great for family dining.";
     rv_createdAt := 1706918400000;
     rv_restaurant := Some
       {| rr_id := "rest-5"; rr_name := "Pizza Burg";
          rr_image := "https://images.unsplash.com/photo-1513104890138-7c749659a591?w=800&q=80" |} |};
  {| rv_id := "review-5"; rv_restaurantId := "rest-9"; rv_userId := "user-customer-1";
     rv_userName := "Rakib Hassan";
     rv_userImage := Some "https://images.unsplash.com/photo-1500648767791-00dcc994a43e?w=200&q=80";
     rv_rating := 5;
     rv_comment := "Amazing BBQ experience! The outdoor setting and live cooking add to the atmosphere. Must try the smoked ribs!";
     rv_createdAt := 1706572800000;
     rv_restaurant := Some
       {| rr_id := "rest-9"; rr_name := "Backyard Kitchen";
          rr_image := "https://images.unsplash.com/photo-1544025162-d76694265947?w=800&q=80" |} |}
].

Definition DEMO_FAVOURITES : list Favourite := [
  {| fav_id := "fav-1"; fav_userId := "user-customer-1"; fav_restaurantId := "rest-1";
     fav_createdAt := 1705708800000;
     fav_restaurant := Some
       {| fr_id := "rest-1"; fr_name := "Aurora"; fr_cuisine := "Continental";
          fr_image := "https://images.unsplash.com/photo-1517248135467-4c7edcad34c4?w=800&q=80";
          fr_rating := (24 # 5); fr_location := "Shaheb Bazar, Rajshahi";
          fr_priceRange := "৳৳৳" |} |};
  {| fav_id := "fav-2"; fav_userId := "user-customer-1"; fav_restaurantId := "rest-3";
     fav_createdAt := 1706140800000;
     fav_restaurant := Some
       {| fr_id := "rest-3"; fr_name := "Calisto"; fr_cuisine := "Italian";
          fr_image := "https://images.unsplash.com/photo-1414235077428-338989a2e8c0?w=800&q=80";
          fr_rating := (47 # 10); fr_location := "Laxmipur, Rajshahi";
          fr_priceRange := "৳৳৳" |} |};
  {| fav_id := "fav-3"; fav_userId := "user-customer-1"; fav_restaurantId := "rest-9";
     fav_createdAt := 1706745600000;
     fav_restaurant := Some
       {| fr_id := "rest-9"; fr_name := "Backyard Kitchen"; fr_cuisine := "BBQ";
          fr_image := "https://images.unsplash.com/photo-1544025162-d76694265947?w=800&q=80";
          fr_rating := (47 # 10); fr_location := "Boalia, Rajshahi";
          fr_priceRange := "৳৳৳" |} |};
  {| fav_id := "fav-4"; fav_userId := "user-customer-2"; fav_restaurantId := "rest-10";
     fav_createdAt := 1707091200000;
     fav_restaurant := Some
       {| fr_id := "rest-10"; fr_name := "Hideout"; fr_cuisine := "Café";
          fr_image := "https://images.unsplash.com/photo-1445116572660-236099ec97a0?w=800&q=80";
          fr_rating := (23 # 5); fr_location := "Talaimari, Rajshahi";
          fr_priceRange := "৳৳" |} |}
].

Definition getDemoBookingsByUserId (userId : string) : list Booking :=
  filter (λ booking, bk_userId booking = userId) DEMO_BOOKINGS.

Definition getDemoReviewsByRestaurantId (restaurantId : string) : list Review :=
  filter (λ review, rv_restaurantId review = restaurantId) DEMO_REVIEWS.

Definition getDemoFavouritesByUserId (userId : string) : list Favourite :=
  filter (λ fav, fav_userId fav = userId) DEMO_FAVOURITES.

Definition isDemoFavourite (userId restaurantId : string) : bool :=
  some (λ fav, fav_userId fav = userId ∧ fav_restaurantId fav = restaurantId)
       DEMO_FAVOURITES.

End DemoData.

(** ** The service classes

    Every public method first awaits a request to the remote API and
    returns [response.data] when the request succeeds; its [catch] branch is
    the fallback over the seed records and the local overlay.  The argument
    [api] is the outcome of that request: [Some data] when it succeeded,
    [None] when it threw. *)

Module BookingService.

Import Service DemoData.

Definition getAllLocalBookings (ls : LocalStorage) : list Booking :=
  default [] (reservex_demo_bookings ls).

Definition saveAllLocalBookings (ls : LocalStorage) (bookings : list Booking)
    : LocalStorage :=
  {| reservex_current_user := reservex_current_user ls;
     reservex_demo_bookings := Some bookings;
     reservex_demo_reviews := reservex_demo_reviews ls;
     reservex_demo_favourites := reservex_demo_favourites ls |}.

Definition saveDemoBooking (ls : LocalStorage) (booking : Booking)
    : LocalStorage :=
  let bookings := getAllLocalBookings ls in
  saveAllLocalBookings ls (push bookings booking).

Definition getLocalBookingsByUserId (ls : LocalStorage) (userId : string)
    : list Booking :=
  filter (λ b, bk_userId b = userId) (getAllLocalBookings ls).

(** [createBooking]: the fallback reads the clock three times, for the id,
    for [createdAt] and for [updatedAt]. *)
Definition createBooking (api : option Booking) (ls : LocalStorage)
    (tId tCreated tUpdated : Z) (data : CreateBookingData)
    : Result Booking * LocalStorage :=
  match api with
  | Some response => (Ok response, ls)
  | None =>
      match getStoredUser ls with
      | None => (Throw "You must be logged in to make a booking", ls)
      | Some user =>
          match find (λ r, rst_id r = cb_restaurantId data) DEMO_RESTAURANTS with
          | None => (Throw "Restaurant not found", ls)
          | Some restaurant =>
              let newBooking :=
                {| bk_id := "booking-demo-" +:+ pretty tId;
                   bk_restaurantId := cb_restaurantId data;
                   bk_userId := usr_id user;
                   bk_date := cb_date data;
                   bk_timeSlot := cb_timeSlot data;
                   bk_seats := cb_seats data;
                   bk_status := pending;
                   bk_customerName := cb_customerName data;
                   bk_customerEmail := cb_customerEmail data;
                   bk_customerPhone := cb_customerPhone data;
                   bk_specialRequests := cb_specialRequests data;
                   bk_createdAt := tCreated;
                   bk_updatedAt := tUpdated;
                   bk_restaurant := Some
                     {| br_id := rst_id restaurant;
                        br_name := rst_name restaurant;
                        br_image := rst_image restaurant;
                        br_location := rst_location restaurant |} |} in
              (Ok newBooking, saveDemoBooking ls newBooking)
          end
      end
  end.

Definition getMyBookings (api : option (list Booking)) (ls : LocalStorage)
    : list Booking :=
  match api with
  | Some response => response
  | None =>
      match getStoredUser ls with
      | None => []
      | Some user =>
          let demoBookings := getDemoBookingsByUserId (usr_id user) in
          let localBookings := getLocalBookingsByUserId ls (usr_id user) in
          let allBookings := demoBookings ++ localBookings in
          sortDesc bk_createdAt allBookings
      end
  end.

(** The two assignments [b.status = ..] and [b.updatedAt = ..] on an
    element of the parsed array. *)
Definition assignStatus (status : BookingStatus) (tUpdated : Z) (b : Booking)
    : Booking :=
  {| bk_id := bk_id b;
     bk_restaurantId := bk_restaurantId b;
     bk_userId := bk_userId b;
     bk_date := bk_date b;
     bk_timeSlot := bk_timeSlot b;
     bk_seats := bk_seats b;
     bk_status := status;
     bk_customerName := bk_customerName b;
     bk_customerEmail := bk_customerEmail b;
     bk_customerPhone := bk_customerPhone b;
     bk_specialRequests := bk_specialRequests b;
     bk_createdAt := bk_createdAt b;
     bk_updatedAt := tUpdated;
     bk_restaurant := bk_restaurant b |}.

(** [cancelBooking]: [list_find] yields the index [findIndex] returns
    together with the element at that index, which is the object the
    method updates and returns. *)
Definition cancelBooking (api : option Booking) (ls : LocalStorage)
    (tUpdated : Z) (id : string) : Result Booking * LocalStorage :=
  match api with
  | Some response => (Ok response, ls)
  | None =>
      let localBookings := getAllLocalBookings ls in
      match list_find (λ b, bk_id b = id) localBookings with
      | None => (Throw "Booking not found", ls)
      | Some (bookingIndex, found) =>
          let localBookings' :=
            alter (assignStatus cancelled tUpdated) bookingIndex localBookings in
          (Ok (assignStatus cancelled tUpdated found),
           saveAllLocalBookings ls localBookings')
      end
  end.

(** The optional [filters] argument of the manager queries.  A filter
    applies when its field is present and is not the empty string. *)
Record BookingFilters : Type := mkBookingFilters {
  bf_status : option string;
  bf_date : option string
}.

Definition truthy (field : option string) : option string :=
  match field with
  | Some s => if decide (s = "") then None else Some s
  | None => None
  end.

Definition getRestaurantBookings (api : option (list Booking))
    (ls : LocalStorage) (restaurantId : string) (filters : option BookingFilters)
    : list Booking :=
  match api with
  | Some response => response
  | None =>
      let allBookings := DEMO_BOOKINGS ++ getAllLocalBookings ls in
      let restaurantBookings :=
        filter (λ b, bk_restaurantId b = restaurantId) allBookings in
      let restaurantBookings :=
        match truthy (filters ≫= bf_status) with
        | Some status =>
            filter (λ b, statusName (bk_status b) = status) restaurantBookings
        | None => restaurantBookings
        end in
      let restaurantBookings :=
        match truthy (filters ≫= bf_date) with
        | Some date => filter (λ b, bk_date b = date) restaurantBookings
        | None => restaurantBookings
        end in
      restaurantBookings
  end.

Definition updateBookingStatus (api : option Booking) (ls : LocalStorage)
    (tUpdated : Z) (id : string) (status : BookingStatus)
    : Result Booking * LocalStorage :=
  match api with
  | Some response => (Ok response, ls)
  | None =>
      let localBookings := getAllLocalBookings ls in
      match list_find (λ b, bk_id b = id) localBookings with
      | None => (Throw "Booking not found", ls)
      | Some (bookingIndex, found) =>
          let localBookings' :=
            alter (assignStatus status tUpdated) bookingIndex localBookings in
          (Ok (assignStatus status tUpdated found),
           saveAllLocalBookings ls localBookings')
      end
  end.

(** [getBookingById]: the seed bookings are searched first, the overlay
    only when no seed booking has the id. *)
Definition getBookingById (api : option Booking) (ls : LocalStorage)
    (id : string) : Result Booking :=
  match api with
  | Some response => Ok response
  | None =>
      let booking := find (λ b, bk_id b = id) DEMO_BOOKINGS in
      let booking :=
        match booking with
        | Some b => Some b
        | None => find (λ b, bk_id b = id) (getAllLocalBookings ls)
        end in
      match booking with
      | None => Throw "Booking not found"
      | Some b => Ok b
      end
  end.

(** [Partial<CreateBookingData>]: a field is [None] when the update object
    does not carry it. *)
Record BookingChanges : Type := mkBookingChanges {
  bc_restaurantId : option string;
  bc_date : option string;
  bc_timeSlot : option string;
  bc_seats : option Z;
  bc_customerName : option string;
  bc_customerEmail : option string;
  bc_customerPhone : option string;
  bc_specialRequests : option (option string)
}.

(** [{ ...booking, ...data, updatedAt: new Date().toISOString() }] *)
Definition mergeBooking (b : Booking) (data : BookingChanges) (tUpdated : Z)
    : Booking :=
  {| bk_id := bk_id b;
     bk_restaurantId := default (bk_restaurantId b) (bc_restaurantId data);
     bk_userId := bk_userId b;
     bk_date := default (bk_date b) (bc_date data);
     bk_timeSlot := default (bk_timeSlot b) (bc_timeSlot data);
     bk_seats := default (bk_seats b) (bc_seats data);
     bk_status := bk_status b;
     bk_customerName := default (bk_customerName b) (bc_customerName data);
     bk_customerEmail := default (bk_customerEmail b) (bc_customerEmail data);
     bk_customerPhone := default (bk_customerPhone b) (bc_customerPhone data);
     bk_specialRequests :=
       default (bk_specialRequests b) (bc_specialRequests data);
     bk_createdAt := bk_createdAt b;
     bk_updatedAt := tUpdated;
     bk_restaurant := bk_restaurant b |}.

Definition updateBooking (api : option Booking) (ls : LocalStorage)
    (tUpdated : Z) (id : string) (data : BookingChanges)
    : Result Booking * LocalStorage :=
  match api with
  | Some response => (Ok response, ls)
  | None =>
      let localBookings := getAllLocalBookings ls in
      match list_find (λ b, bk_id b = id) localBookings with
      | None => (Throw "Booking not found", ls)
      | Some (bookingIndex, found) =>
          let merged := mergeBooking found data tUpdated in
          (Ok merged,
           saveAllLocalBookings ls (<[bookingIndex := merged]> localBookings))
      end
  end.

(** The optional [filters] argument of the admin query. *)
Record AllBookingsFilters : Type := mkAllBookingsFilters {
  af_status : option string;
  af_restaurantId : option string;
  af_userId : option string;
  af_date : option string
}.

Definition getAllBookings (api : option (list Booking)) (ls : LocalStorage)
    (filters : option AllBookingsFilters) : list Booking :=
  match api with
  | Some response => response
  | None =>
      let allBookings := DEMO_BOOKINGS ++ getAllLocalBookings ls in
      let allBookings :=
        match truthy (filters ≫= af_status) with
        | Some status =>
            filter (λ b, statusName (bk_status b) = status) allBookings
        | None => allBookings
        end in
      let allBookings :=
        match truthy (filters ≫= af_restaurantId) with
        | Some restaurantId =>
            filter (λ b, bk_restaurantId b = restaurantId) allBookings
        | None => allBookings
        end in
      let allBookings :=
        match truthy (filters ≫= af_userId) with
        | Some userId => filter (λ b, bk_userId b = userId) allBookings
        | None => allBookings
        end in
      let allBookings :=
        match truthy (filters ≫= af_date) with
        | Some date => filter (λ b, bk_date b = date) allBookings
        | None => allBookings
        end in
      allBookings
  end.

End BookingService.

Module ReviewService.

Import Service DemoData.

Definition getAllLocalReviews (ls : LocalStorage) : list Review :=
  default [] (reservex_demo_reviews ls).

Definition saveAllLocalReviews (ls : LocalStorage) (reviews : list Review)
    : LocalStorage :=
  {| reservex_current_user := reservex_current_user ls;
     reservex_demo_bookings := reservex_demo_bookings ls;
     reservex_demo_reviews := Some reviews;
     reservex_demo_favourites := reservex_demo_favourites ls |}.

Definition saveDemoReview (ls : LocalStorage) (review : Review) : LocalStorage :=
  let reviews := getAllLocalReviews ls in
  saveAllLocalReviews ls (push reviews review).

Definition getLocalReviewsByRestaurantId (ls : LocalStorage)
    (restaurantId : string) : list Review :=
  filter (λ r, rv_restaurantId r = restaurantId) (getAllLocalReviews ls).

Definition createReview (api : option Review) (ls : LocalStorage)
    (tId tCreated : Z) (data : CreateReviewData) : Result Review * LocalStorage :=
  match api with
  | Some response => (Ok response, ls)
  | None =>
      match getStoredUser ls with
      | None => (Throw "You must be logged in to write a review", ls)
      | Some user =>
          if decide (cr_rating data < 1 ∨ cr_rating data > 5) then
            (Throw "Rating must be between 1 and 5 stars", ls)
          else
            let newReview :=
              {| rv_id := "review-demo-" +:+ pretty tId;
                 rv_restaurantId := cr_restaurantId data;
                 rv_userId := usr_id user;
                 rv_userName := usr_name user;
                 rv_userImage := usr_profileImage user;
                 rv_rating := cr_rating data;
                 rv_comment := cr_comment data;
                 rv_createdAt := tCreated;
                 rv_restaurant := None |} in
            (Ok newReview, saveDemoReview ls newReview)
      end
  end.

Definition getRestaurantReviews (api : option (list Review)) (ls : LocalStorage)
    (restaurantId : string) : list Review :=
  match api with
  | Some response => response
  | None =>
      let demoReviews := getDemoReviewsByRestaurantId restaurantId in
      let localReviews := getLocalReviewsByRestaurantId ls restaurantId in
      let allReviews := demoReviews ++ localReviews in
      sortDesc rv_createdAt allReviews
  end.

Definition deleteReview (api : option unit) (ls : LocalStorage) (id : string)
    : Result unit * LocalStorage :=
  match api with
  | Some _ => (Ok (), ls)
  | None =>
      let localReviews := getAllLocalReviews ls in
      let filteredReviews := filter (λ r, rv_id r ≠ id) localReviews in
      if decide (length filteredReviews = length localReviews) then
        (Throw "Review not found", ls)
      else
        (Ok (), saveAllLocalReviews ls filteredReviews)
  end.

Definition getLocalReviewsByUserId (ls : LocalStorage) (userId : string)
    : list Review :=
  filter (λ r, rv_userId r = userId) (getAllLocalReviews ls).

Definition getMyReviews (api : option (list Review)) (ls : LocalStorage)
    : list Review :=
  match api with
  | Some response => response
  | None =>
      match getStoredUser ls with
      | None => []
      | Some user =>
          let demoReviews := filter (λ r, rv_userId r = usr_id user) DEMO_REVIEWS in
          let localReviews := getLocalReviewsByUserId ls (usr_id user) in
          let allReviews := demoReviews ++ localReviews in
          sortDesc rv_createdAt allReviews
      end
  end.

(** [Partial<CreateReviewData>]: a field is [None] when the update object
    does not carry it.  A key that is present with the value [undefined],
    and a [rating] that is [NaN], are outside the model: a rating carried
    is a whole number. *)
Record ReviewChanges : Type := mkReviewChanges {
  rc_restaurantId : option string;
  rc_rating : option Z;
  rc_comment : option string
}.

(** [{ ...review, ...data }] *)
Definition mergeReview (r : Review) (data : ReviewChanges) : Review :=
  {| rv_id := rv_id r;
     rv_restaurantId := default (rv_restaurantId r) (rc_restaurantId data);
     rv_userId := rv_userId r;
     rv_userName := rv_userName r;
     rv_userImage := rv_userImage r;
     rv_rating := default (rv_rating r) (rc_rating data);
     rv_comment := default (rv_comment r) (rc_comment data);
     rv_createdAt := rv_createdAt r;
     rv_restaurant := rv_restaurant r |}.

Definition updateReview (api : option Review) (ls : LocalStorage) (id : string)
    (data : ReviewChanges) : Result Review * LocalStorage :=
  match api with
  | Some response => (Ok response, ls)
  | None =>
      let localReviews := getAllLocalReviews ls in
      match list_find (λ r, rv_id r = id) localReviews with
      | None => (Throw "Review not found", ls)
      | Some (reviewIndex, found) =>
          match rc_rating data with
          | Some rating =>
              if decide (rating < 1 ∨ rating > 5) then
                (Throw "Rating must be between 1 and 5 stars", ls)
              else
                let merged := mergeReview found data in
                (Ok merged,
                 saveAllLocalReviews ls (<[reviewIndex := merged]> localReviews))
          | None =>
              let merged := mergeReview found data in
              (Ok merged,
               saveAllLocalReviews ls (<[reviewIndex := merged]> localReviews))
          end
      end
  end.

End ReviewService.

Module FavouriteService.

Import Service DemoData.

Definition getAllLocalFavourites (ls : LocalStorage) : list Favourite :=
  default [] (reservex_demo_favourites ls).

Definition saveAllLocalFavourites (ls : LocalStorage)
    (favourites : list Favourite) : LocalStorage :=
  {| reservex_current_user := reservex_current_user ls;
     reservex_demo_bookings := reservex_demo_bookings ls;
     reservex_demo_reviews := reservex_demo_reviews ls;
     reservex_demo_favourites := Some favourites |}.

Definition saveDemoFavourite (ls : LocalStorage) (favourite : Favourite)
    : LocalStorage :=
  let favourites := getAllLocalFavourites ls in
  saveAllLocalFavourites ls (push favourites favourite).

(** [addFavourite]: two clock readings, for the id and for [createdAt]. *)
Definition addFavourite (api : option Favourite) (ls : LocalStorage)
    (tId tCreated : Z) (restaurantId : string)
    : Result Favourite * LocalStorage :=
  match api with
  | Some response => (Ok response, ls)
  | None =>
      match getStoredUser ls with
      | None => (Throw "You must be logged in to add favourites", ls)
      | Some user =>
          let localFavourites := getAllLocalFavourites ls in
          let alreadyFavourited :=
            some (λ f, fav_userId f = usr_id user ∧
                       fav_restaurantId f = restaurantId) localFavourites in
          if alreadyFavourited then
            (Throw "Restaurant is already in your favourites", ls)
          else
            match find (λ r, rst_id r = restaurantId) DEMO_RESTAURANTS with
            | None => (Throw "Restaurant not found", ls)
            | Some restaurant =>
                let newFavourite :=
                  {| fav_id := "fav-demo-" +:+ pretty tId;
                     fav_userId := usr_id user;
                     fav_restaurantId := restaurantId;
                     fav_createdAt := tCreated;
                     fav_restaurant := Some
                       {| fr_id := rst_id restaurant;
                          fr_name := rst_name restaurant;
                          fr_cuisine := rst_cuisine restaurant;
                          fr_image := rst_image restaurant;
                          fr_rating := rst_rating restaurant;
                          fr_location := rst_location restaurant;
                          fr_priceRange := rst_priceRange restaurant |} |} in
                (Ok newFavourite, saveDemoFavourite ls newFavourite)
            end
      end
  end.

Definition removeFavourite (api : option unit) (ls : LocalStorage)
    (restaurantId : string) : Result unit * LocalStorage :=
  match api with
  | Some _ => (Ok (), ls)
  | None =>
      match getStoredUser ls with
      | None => (Throw "You must be logged in", ls)
      | Some user =>
          let localFavourites := getAllLocalFavourites ls in
          let filteredFavourites :=
            filter (λ f, ¬ (fav_userId f = usr_id user ∧
                            fav_restaurantId f = restaurantId))
                   localFavourites in
          (Ok (), saveAllLocalFavourites ls filteredFavourites)
      end
  end.

Definition isFavourite (api : option bool) (ls : LocalStorage)
    (restaurantId : string) : bool :=
  match api with
  | Some response => response
  | None =>
      match getStoredUser ls with
      | None => false
      | Some user =>
          let inDemoFavourites := isDemoFavourite (usr_id user) restaurantId in
          if inDemoFavourites then true
          else
            let localFavourites := getAllLocalFavourites ls in
            some (λ f, fav_userId f = usr_id user ∧
                       fav_restaurantId f = restaurantId) localFavourites
      end
  end.

(** The outcomes of the requests one [toggleFavourite] call can send: its
    own, and those of the [isFavourite], [addFavourite] and
    [removeFavourite] calls its fallback makes. *)
Record ToggleRequests : Type := mkToggleRequests {
  req_toggle : option bool;
  req_check : option bool;
  req_add : option Favourite;
  req_remove : option unit
}.

(** All four requests throw: the remote service is unreachable. *)
Definition unreachable : ToggleRequests :=
  {| req_toggle := None; req_check := None; req_add := None; req_remove := None |}.

(** [toggleFavourite] resolves to [{ isFavourite }]; the result carries
    that boolean.  An [Error] thrown by [addFavourite] or [removeFavourite]
    is not caught here and rejects the call. *)
Definition toggleFavourite (api : ToggleRequests) (ls : LocalStorage)
    (tId tCreated : Z) (restaurantId : string) : Result bool * LocalStorage :=
  match req_toggle api with
  | Some response => (Ok response, ls)
  | None =>
      let isFav := isFavourite (req_check api) ls restaurantId in
      if isFav then
        match removeFavourite (req_remove api) ls restaurantId with
        | (Ok _, ls') => (Ok false, ls')
        | (Throw message, ls') => (Throw message, ls')
        end
      else
        match addFavourite (req_add api) ls tId tCreated restaurantId with
        | (Ok _, ls') => (Ok true, ls')
        | (Throw message, ls') => (Throw message, ls')
        end
  end.

Definition getLocalFavouritesByUserId (ls : LocalStorage) (userId : string)
    : list Favourite :=
  filter (λ f, fav_userId f = userId) (getAllLocalFavourites ls).

Definition getMyFavourites (api : option (list Favourite)) (ls : LocalStorage)
    : list Favourite :=
  match api with
  | Some response => response
  | None =>
      match getStoredUser ls with
      | None => []
      | Some user =>
          let demoFavourites := getDemoFavouritesByUserId (usr_id user) in
          let localFavourites := getLocalFavouritesByUserId ls (usr_id user) in
          let allFavourites := demoFavourites ++ localFavourites in
          sortDesc fav_createdAt allFavourites
      end
  end.

End FavouriteService.

Module RestaurantService.

Import Service DemoData.

(** [getAvailableSeats]: [api] is [response.data.availableSeats] when the
    request succeeded, [random] the value of [Math.random()], a double in
    [0, 1).  The three products are products of doubles; the sums and
    differences are of whole numbers far below 2^53, where they are
    exact. *)
Definition getAvailableSeats (api : option Z) (random : Q)
    (restaurantId date timeSlot : string) : Result Z :=
  match api with
  | Some availableSeats => Ok availableSeats
  | None =>
      match find (λ r, rst_id r = restaurantId) DEMO_RESTAURANTS with
      | None => Throw "Restaurant not found"
      | Some restaurant =>
          let minAvailable :=
            Math_floor (times (inject_Z (rst_totalSeats restaurant))
                              (literal (5 # 10))) in
          let maxAvailable :=
            Math_floor (times (inject_Z (rst_totalSeats restaurant))
                              (literal (9 # 10))) in
          let availableSeats :=
            Math_floor (times random (inject_Z (maxAvailable - minAvailable + 1)))
            + minAvailable in
          Ok availableSeats
      end
  end.

Definition getRestaurantById (api : option Restaurant) (id : string)
    : Result Restaurant :=
  match api with
  | Some response => Ok response
  | None =>
      match find (λ r, rst_id r = id) DEMO_RESTAURANTS with
      | None => Throw "Restaurant not found"
      | Some restaurant => Ok restaurant
      end
  end.

End RestaurantService.

(** * Specification-side definitions

    The quantities the specification speaks of, written from its words so
    that the code can be compared against them. *)

(** "bookings whose status is pending or confirmed": the ones that hold
    capacity. *)
Definition holdsCapacity (s : BookingStatus) : bool :=
  match s with
  | pending | confirmed => true
  | completed | cancelled => false
  end.

(** The sum of [weight] over the members of [records] that satisfy
    [selected]. *)
Fixpoint sumOver {A : Type} (selected : A → bool) (weight : A → Z)
    (records : list A) : Z :=
  match records with
  | [] => 0
  | x :: rest =>
      (if selected x then weight x else 0) + sumOver selected weight rest
  end.

(** Seats held for (R, D, S) in the [Database] booking collection. *)
Definition activeSeats (bookings : list Database.Booking) (R D S : string) : Z :=
  sumOver (λ b, bool_decide (Database.bk_restaurantId b = R)
                && bool_decide (Database.bk_date b = D)
                && bool_decide (Database.bk_timeSlot b = S)
                && holdsCapacity (Database.bk_status b))
          Database.bk_seats bookings.

(** Guests held for (R, D, S) in the [MockDatabase] booking array. *)
Definition activeGuests (bookings : list MockDatabase.Booking) (R D S : string)
    : Z :=
  sumOver (λ b, bool_decide (MockDatabase.bk_restaurantId b = R)
                && bool_decide (MockDatabase.bk_date b = D)
                && bool_decide (MockDatabase.bk_timeSlot b = S)
                && holdsCapacity (MockDatabase.bk_status b))
          MockDatabase.bk_guests bookings.

(** Seats held for (R, D, S) among service-layer bookings. *)
Definition overlaySeats (bookings : list Service.Booking) (R D S : string) : Z :=
  sumOver (λ b, bool_decide (Service.bk_restaurantId b = R)
                && bool_decide (Service.bk_date b = D)
                && bool_decide (Service.bk_timeSlot b = S)
                && holdsCapacity (Service.bk_status b))
          Service.bk_seats bookings.

(** Guests of confirmed bookings for (R, D, S): the bookings
    [MockDatabase.getAvailableSeats] counts. *)
Definition confirmedGuests (bookings : list MockDatabase.Booking)
    (R D S : string) : Z :=
  sumOver (λ b, bool_decide (MockDatabase.bk_restaurantId b = R)
                && bool_decide (MockDatabase.bk_date b = D)
                && bool_decide (MockDatabase.bk_timeSlot b = S)
                && bool_decide (MockDatabase.bk_status b = confirmed))
          MockDatabase.bk_guests bookings.


(** No booking for the slot (R, D, S) is pending. *)
Definition nonePending (R D S : string) (bs : list MockDatabase.Booking) : Prop :=
  Forall (λ b, MockDatabase.bk_restaurantId b = R
               ∧ MockDatabase.bk_date b = D
               ∧ MockDatabase.bk_timeSlot b = S →
               MockDatabase.bk_status b ≠ pending) bs.




(** A review is created or deleted in the [Database] store.
    [reviewChange st R st'] holds when [st'] is the store after creating a
    review for restaurant [R] in [st], or after deleting from [st] a review
    that [deleteReview] found to belong to [R]. *)
Inductive reviewChange (st : Database.Store) : string → Database.Store → Prop :=
  | review_created (tId tCreated : Z) (review : Database.ReviewInput) :
      reviewChange st (Database.ri_restaurantId review)
        (snd (Database.createReview st tId tCreated review))
  | review_deleted (id : string) (review : Database.Review) (st' : Database.Store) :
      find (λ r, Database.rv_id r = id) (Database.getReviews st) = Some review →
      Database.deleteReview st id = (true, st') →
      reviewChange st (Database.rv_restaurantId review) st'.



(** Every field of a restaurant other than [rating] and [totalReviews]. *)
Definition otherFields (r : Restaurant) :=
  (rst_id r, rst_name r, rst_cuisine r, rst_location r, rst_city r,
   rst_division r, rst_country r, rst_description r, rst_image r,
   rst_openingTime r, rst_closingTime r, rst_totalSeats r, rst_priceRange r,
   rst_phone r, rst_managerId r, rst_status r, rst_createdAt r).

(** A list whose [key]s never increase from one element to the next:
    newest first when the key is [createdAt]. *)
Definition sortedDesc {A : Type} (key : A → Z) (l : list A) : Prop :=
  Sorted (λ x y, key y ≤ key x) l.

(** [result] is the two tiers' records, seed ([tier2]) then overlay
    ([tier1]), rearranged newest first, with nothing added or dropped: its
    ids are pairwise distinct exactly when those of the two tiers together
    are. *)
Definition sortedMerge {A K : Type} (key : A → Z) (id : A → K)
    (tier2 tier1 result : list A) : Prop :=
  result ≡ₚ tier2 ++ tier1
  ∧ sortedDesc key result
  ∧ (NoDup (id <$> result) ↔ NoDup (id <$> tier2 ++ tier1)).

(** ** Further specification-side definitions *)

(** The update object [{ status }]. *)
Definition statusOnly (status : BookingStatus) : Database.BookingUpdates :=
  {| Database.bu_id := None; Database.bu_restaurantId := None;
     Database.bu_userId := None; Database.bu_date := None;
     Database.bu_timeSlot := None; Database.bu_seats := None;
     Database.bu_status := Some status;
     Database.bu_customerName := None; Database.bu_customerEmail := None;
     Database.bu_customerPhone := None; Database.bu_specialRequests := None;
     Database.bu_createdAt := None; Database.bu_updatedAt := None |}.

(** The seats a [Database] booking holds in slot (R, D, S): its [seats]
    when it is for that slot and pending or confirmed, and 0 otherwise. *)
Definition seatsHeld (b : Database.Booking) (R D S : string) : Z :=
  if bool_decide (Database.bk_restaurantId b = R)
     && bool_decide (Database.bk_date b = D)
     && bool_decide (Database.bk_timeSlot b = S)
     && holdsCapacity (Database.bk_status b)
  then Database.bk_seats b else 0.

(** The (user, restaurant) pair of a [Database] favourite record, and the
    invariant of the favourite relation: no pair occurs twice. *)
Definition favouritePair (f : Database.Favourite) : string * string :=
  (Database.fav_userId f, Database.fav_restaurantId f).

Definition uniqueFavourites (st : Database.Store) : Prop :=
  NoDup (favouritePair <$> Database.FAVOURITES st).

(** "A sequence of toggleFavourite calls": each call comes with its two
    clock readings, the user and the restaurant. *)
Definition toggleFavourites (st : Database.Store)
    (calls : list (Z * Z * string * string)) : Database.Store :=
  foldl (λ st call,
           snd (Database.toggleFavourite st call.1.1.1 call.1.1.2 call.1.2 call.2))
        st calls.

(** The guests a [MockDatabase] booking holds in slot (R, D, S) as
    [getAvailableSeats] counts them: its [guests] when it is for that slot
    and confirmed, and 0 otherwise. *)
Definition guestsHeld (b : MockDatabase.Booking) (R D S : string) : Z :=
  if bool_decide (MockDatabase.bk_restaurantId b = R)
     && bool_decide (MockDatabase.bk_date b = D)
     && bool_decide (MockDatabase.bk_timeSlot b = S)
     && bool_decide (MockDatabase.bk_status b = confirmed)
  then MockDatabase.bk_guests b else 0.

(** Every overlay review has a star rating between 1 and 5. *)
Definition ratingsInRange (ls : Service.LocalStorage) : Prop :=
  Forall (λ r, 1 ≤ Service.rv_rating r ≤ 5) (ReviewService.getAllLocalReviews ls).

(** One fallback write of the review service: a review is created,
    updated or deleted while the remote service is unreachable.  The
    ratings that the calls carry are whole numbers, of any size and sign. *)
Inductive reviewWrite (ls : Service.LocalStorage) : Service.LocalStorage → Prop :=
  | write_create (tId tCreated : Z) (data : Service.CreateReviewData) :
      reviewWrite ls (snd (ReviewService.createReview None ls tId tCreated data))
  | write_update (id : string) (data : ReviewService.ReviewChanges) :
      reviewWrite ls (snd (ReviewService.updateReview None ls id data))
  | write_delete (id : string) :
      reviewWrite ls (snd (ReviewService.deleteReview None ls id)).

(** The (user, restaurant) pair of an overlay favourite, and the overlay's
    invariant: no pair occurs twice. *)
Definition overlayPair (f : Service.Favourite) : string * string :=
  (Service.fav_userId f, Service.fav_restaurantId f).

Definition uniqueOverlayFavourites (ls : Service.LocalStorage) : Prop :=
  NoDup (overlayPair <$> FavouriteService.getAllLocalFavourites ls).

(** One fallback write of the favourite service: a favourite is added,
    removed or toggled while the remote service is unreachable. *)
Inductive favouriteWrite (ls : Service.LocalStorage) : Service.LocalStorage → Prop :=
  | write_add (tId tCreated : Z) (restaurantId : string) :
      favouriteWrite ls
        (snd (FavouriteService.addFavourite None ls tId tCreated restaurantId))
  | write_remove (restaurantId : string) :
      favouriteWrite ls (snd (FavouriteService.removeFavourite None ls restaurantId))
  | write_toggle (tId tCreated : Z) (restaurantId : string) :
      favouriteWrite ls
        (snd (FavouriteService.toggleFavourite FavouriteService.unreachable ls
                tId tCreated restaurantId)).

(** The rational that a finite float of the Standard Library's
    specification of IEEE 754 arithmetic denotes, and the comparison of its
    product [SFmul 53 1024], the binary64 product, with [times]. *)
Definition SF2Q (f : spec_float) : Q :=
  match f with
  | S754_finite s m e =>
      let magnitude :=
        if decide (0 ≤ e) then inject_Z (Z.pos m * 2 ^ e)
        else (inject_Z (Z.pos m) / inject_Z (2 ^ (- e)))%Q in
      if s then (- magnitude)%Q else magnitude
  | _ => 0%Q
  end.

Definition sameProduct (factors : spec_float * spec_float) : bool :=
  Qeq_bool (SF2Q (SFmul 53 1024 factors.1 factors.2))
           (times (SF2Q factors.1) (SF2Q factors.2)).

(** * Sample states

    Concrete stores on which the operations are evaluated below. *)

Module Samples.

(** A ten-seat restaurant, as in the specification's first scenario. *)
Definition bistro : Restaurant :=
  {| rst_id := "rest-1"; rst_name := "Aurora"; rst_cuisine := "Continental";
     rst_location := "Shaheb Bazar, Rajshahi";
     rst_city := "Rajshahi"; rst_division := "Rajshahi";
     rst_country := "Bangladesh"; rst_description := "Fine dining";
     rst_image := "aurora.jpg";
     rst_rating := (48 # 10); rst_totalReviews := 124;
     rst_openingTime := "11:00 AM"; rst_closingTime := "11:00 PM";
     rst_totalSeats := 10; rst_priceRange := "$$$";
     rst_phone := "+880 1711-123456"; rst_managerId := None;
     rst_status := active; rst_createdAt := 1698796800000 |}.

(** A second restaurant, with a rating and a review count of its own. *)
Definition diner : Restaurant :=
  {| rst_id := "rest-4"; rst_name := "Chillox"; rst_cuisine := "Fast Food";
     rst_location := "Alupotti, Rajshahi";
     rst_city := "Rajshahi"; rst_division := "Rajshahi";
     rst_country := "Bangladesh"; rst_description := "Burgers";
     rst_image := "chillox.jpg";
     rst_rating := (43 # 10); rst_totalReviews := 201;
     rst_openingTime := "10:00 AM"; rst_closingTime := "11:00 PM";
     rst_totalSeats := 60; rst_priceRange := "$";
     rst_phone := "+880 1711-456789"; rst_managerId := None;
     rst_status := active; rst_createdAt := 1704412800000 |}.

Definition emptyStore : Database.Store :=
  {| Database.RESTAURANTS := [bistro; diner];
     Database.BOOKINGS := [];
     Database.REVIEWS := [];
     Database.FAVOURITES := [] |}.

(** A request for [seats] seats at the bistro on 2026-03-01, 7:00 PM. *)
Definition request (seats : Z) : Database.BookingInput :=
  {| Database.bi_restaurantId := "rest-1";
     Database.bi_userId := "customer-1";
     Database.bi_date := "2026-03-01";
     Database.bi_timeSlot := "7:00 PM";
     Database.bi_seats := seats;
     Database.bi_status := pending;
     Database.bi_customerName := "Demo Customer";
     Database.bi_customerEmail := "customer@test.com";
     Database.bi_customerPhone := "+880 1711-999001";
     Database.bi_specialRequests := None |}.

(** One booking of four seats. *)
Definition oneBooking : Database.Store :=
  snd (Database.createBooking emptyStore 1772000000000 1772000000000
         1772000000000 (request 4)).

(** Two bookings of six seats each, both accepted by
    [Database.createBooking]. *)
Definition overbooked : Database.Store :=
  let st1 := snd (Database.createBooking emptyStore 1772000000000
                    1772000000000 1772000000000 (request 6)) in
  snd (Database.createBooking st1 1772000060000 1772000060000
         1772000060000 (request 6)).

(** The first demo customer, signed in, with an empty overlay. *)
Definition rakib : Service.User :=
  {| Service.usr_id := "user-customer-1";
     Service.usr_email := "customer@demo.com";
     Service.usr_name := "Rakib Hassan";
     Service.usr_role := customer;
     Service.usr_profileImage := None;
     Service.usr_phone := Some "+880 1711-999001";
     Service.usr_createdAt := 1705276800000 |}.

Definition signedIn : Service.LocalStorage :=
  {| Service.reservex_current_user := Some rakib;
     Service.reservex_demo_bookings := None;
     Service.reservex_demo_reviews := None;
     Service.reservex_demo_favourites := None |}.

(** A request through the booking service for [seats] seats at Aurora
    (fifty seats in the seed data) on 2026-03-01, 7:00 PM. *)
Definition serviceRequest (seats : Z) : Service.CreateBookingData :=
  {| Service.cb_restaurantId := "rest-1";
     Service.cb_date := "2026-03-01";
     Service.cb_timeSlot := "7:00 PM";
     Service.cb_seats := seats;
     Service.cb_customerName := "Rakib Hassan";
     Service.cb_customerEmail := "customer@demo.com";
     Service.cb_customerPhone := "+880 1711-999001";
     Service.cb_specialRequests := None |}.

(** The overlay after one fallback booking of [seats] seats, made at
    clock reading [t]. *)
Definition afterBooking (ls : Service.LocalStorage) (t seats : Z)
    : Service.LocalStorage :=
  snd (BookingService.createBooking None ls t t t (serviceRequest seats)).

(** Two fallback bookings of thirty seats each for the same slot. *)
Definition twoThirties : Service.LocalStorage :=
  afterBooking (afterBooking signedIn 1772000000000 30) 1772000060000 30.

(** A fallback booking of two seats that a manager then marked
    completed. *)
Definition completedVisit : Service.LocalStorage :=
  snd (BookingService.updateBookingStatus None
         (afterBooking signedIn 1772000000000 2) 1772400000000
         "booking-demo-1772000000000" completed).

(** The in-memory data layer with one sixty-seat restaurant. *)
Definition mockAurora : MockDatabase.Restaurant :=
  {| MockDatabase.rst_id := "1"; MockDatabase.rst_ownerId := "2";
     MockDatabase.rst_name := "Aurora"; MockDatabase.rst_division := "Rajshahi";
     MockDatabase.rst_city := "Rajshahi"; MockDatabase.rst_country := "Bangladesh";
     MockDatabase.rst_address := "Shaheb Bazar";
     MockDatabase.rst_description := "Fine dining";
     MockDatabase.rst_image := "aurora.jpg"; MockDatabase.rst_cuisine := "Continental";
     MockDatabase.rst_totalSeats := 60; MockDatabase.rst_rating := (48 # 10);
     MockDatabase.rst_price := "$$$"; MockDatabase.rst_status := MockDatabase.approved;
     MockDatabase.rst_available := true; MockDatabase.rst_location := "Rajshahi" |}.

Definition mockStore : MockDatabase.Store :=
  {| MockDatabase.restaurants := [mockAurora]; MockDatabase.bookings := [] |}.

Definition mockRequest (guests : Z) : MockDatabase.BookingInput :=
  {| MockDatabase.bi_userId := "1"; MockDatabase.bi_restaurantId := "1";
     MockDatabase.bi_date := "2026-03-01";
     MockDatabase.bi_timeSlot := "6:00 PM - 8:00 PM";
     MockDatabase.bi_guests := guests;
     MockDatabase.bi_restaurantName := None;
     MockDatabase.bi_restaurantImage := None;
     MockDatabase.bi_time := None |}.

(** Three reviews of the bistro, rated 5, 4 and 5, as in the
    specification's fourth scenario. *)
Definition opinion (stars : Z) : Database.ReviewInput :=
  {| Database.ri_restaurantId := "rest-1";
     Database.ri_userId := "customer-1";
     Database.ri_userName := "Demo Customer";
     Database.ri_rating := stars;
     Database.ri_comment := "Visited last week" |}.

Definition twoReviews : Database.Store :=
  let st1 := snd (Database.createReview emptyStore 1772000000000 1772000000000
                    (opinion 5)) in
  snd (Database.createReview st1 1772000060000 1772000060000 (opinion 4)).

Definition threeReviews : Database.Store :=
  snd (Database.createReview twoReviews 1772000120000 1772000120000 (opinion 5)).



(** One review written through the review service's fallback. *)
Definition oneLocalReview : Service.LocalStorage :=
  snd (ReviewService.createReview None signedIn 1772000000000 1772000000000
         {| Service.cr_restaurantId := "rest-1";
            Service.cr_rating := 4;
            Service.cr_comment := "Lovely evening" |}).

(** Two fallback bookings made within the same millisecond. *)
Definition sameMillisecond : Service.LocalStorage :=
  afterBooking (afterBooking signedIn 1772000000000 2) 1772000000000 3.

(** The review the sample overlay holds, and the overlay after the
    demo customer added the restaurant Helium to the favourites. *)
Definition lovelyEvening : Service.CreateReviewData :=
  {| Service.cr_restaurantId := "rest-1";
     Service.cr_rating := 4;
     Service.cr_comment := "Lovely evening" |}.

Definition oneLocalFavourite : Service.LocalStorage :=
  snd (FavouriteService.addFavourite None signedIn 1772000000000 1772000000000
         "rest-2").

(** Lower-casing of the letters A to Z, standing in for
    [toLowerCase] on the sample accounts. *)
Definition lowerLetter (c : Ascii.ascii) : Ascii.ascii :=
  let n := Ascii.nat_of_ascii c in
  if decide (65 ≤ n ≤ 90)%nat then Ascii.ascii_of_nat (n + 32) else c.

Fixpoint lowerLetters (s : string) : string :=
  match s with
  | EmptyString => EmptyString
  | String c rest => String (lowerLetter c) (lowerLetters rest)
  end.

(** The two accounts the database is seeded with, nobody signed in. *)
Definition seededAccounts : DatabaseUsers.Accounts :=
  {| DatabaseUsers.USERS :=
       [ {| DatabaseUsers.usr_id := "admin-1";
            DatabaseUsers.usr_email := "admin@reservex.com";
            DatabaseUsers.usr_password := "admin123";
            DatabaseUsers.usr_name := "Admin User";
            DatabaseUsers.usr_role := admin;
            DatabaseUsers.usr_profileImage := None;
            DatabaseUsers.usr_createdAt := 1771000000000 |};
         {| DatabaseUsers.usr_id := "customer-1";
            DatabaseUsers.usr_email := "customer@test.com";
            DatabaseUsers.usr_password := "customer123";
            DatabaseUsers.usr_name := "Demo Customer";
            DatabaseUsers.usr_role := customer;
            DatabaseUsers.usr_profileImage := None;
            DatabaseUsers.usr_createdAt := 1771000000000 |} ];
     DatabaseUsers.CURRENT_USER := None |}.

Definition newcomer : DatabaseUsers.UserInput :=
  {| DatabaseUsers.ui_email := "Nadia@Example.com";
     DatabaseUsers.ui_password := "s3cret!";
     DatabaseUsers.ui_name := "Nadia Islam";
     DatabaseUsers.ui_role := customer;
     DatabaseUsers.ui_profileImage := None |}.

(** Someone registering with the seeded customer's address in capitals. *)
Definition impostor : DatabaseUsers.UserInput :=
  {| DatabaseUsers.ui_email := "CUSTOMER@test.com";
     DatabaseUsers.ui_password := "another-password";
     DatabaseUsers.ui_name := "Second Customer";
     DatabaseUsers.ui_role := customer;
     DatabaseUsers.ui_profileImage := None |}.

(** Draws of [Math.random()]: the doubles nearest to 1/3 and to 16/21. *)
Definition oneThird : Q := 6004799503160661 # 18014398509481984.
Definition sixteenOver21 : Q := 3431314001806092 # 4503599627370496.

End Samples.

(** * Facts about the runtime helpers *)

Section Helpers.

Context {A : Type}.

Lemma reduce_add_filter (P : A → Prop) `{∀ x, Decision (P x)} (weight : A → Z)
    (arr : list A) (init : Z) :
  reduce (λ sum x, sum + weight x) init (filter P arr)
  = init + sumOver (λ x, bool_decide (P x)) weight arr.
Proof.
  unfold reduce. revert init.
  induction arr as [|x arr IH]; intros init; simpl.
  - lia.
  - rewrite filter_cons. case_bool_decide as HP.
    + rewrite decide_True by done. simpl. rewrite IH. lia.
    + rewrite decide_False by done. rewrite IH. lia.
Qed.

Lemma sumOver_ext (p q : A → bool) (weight : A → Z) (arr : list A) :
  (∀ x, p x = q x) → sumOver p weight arr = sumOver q weight arr.
Proof.
  intros Hpq. induction arr as [|x arr IH]; simpl; [done|].
  by rewrite Hpq, IH.
Qed.

Lemma sumOver_app (p : A → bool) (weight : A → Z) (l1 l2 : list A) :
  sumOver p weight (l1 ++ l2) = sumOver p weight l1 + sumOver p weight l2.
Proof. induction l1 as [|x l1 IH]; simpl; lia. Qed.

Lemma find_Some (P : A → Prop) `{∀ x, Decision (P x)} (arr : list A) (x : A) :
  find P arr = Some x → x ∈ arr ∧ P x.
Proof.
  unfold find. destruct (list_find P arr) as [[i y]|] eqn:Hf; [|done].
  simpl. intros [= ->]. apply list_find_Some in Hf as (Hi & HP & _).
  split; [by eapply list_elem_of_lookup_2|done].
Qed.

Lemma find_None (P : A → Prop) `{∀ x, Decision (P x)} (arr : list A) :
  find P arr = None ↔ ∀ x, x ∈ arr → ¬ P x.
Proof.
  unfold find. rewrite fmap_None, list_find_None, Forall_forall. done.
Qed.

Lemma findIndex_find (P : A → Prop) `{∀ x, Decision (P x)} (arr : list A) (i : nat) :
  findIndex P arr = Some i → ∃ x, arr !! i = Some x ∧ find P arr = Some x.
Proof.
  unfold findIndex, find.
  destruct (list_find P arr) as [[j y]|] eqn:Hf; [|done].
  simpl. intros [= ->]. exists y. split; [|done].
  by apply list_find_Some in Hf as (? & _).
Qed.

Lemma findIndex_None (P : A → Prop) `{∀ x, Decision (P x)} (arr : list A) :
  findIndex P arr = None ↔ find P arr = None.
Proof. unfold findIndex, find. by rewrite !fmap_None. Qed.

End Helpers.

(** * Availability *)

Section Availability.

Import Database.

(** What [Database.getAvailableSeats] computes for a known restaurant,
    in terms of the specification's sum. *)
Lemma Database_getAvailableSeats_known st R D S r :
  getRestaurantById st R = Some r →
  getAvailableSeats st R D S
  = rst_totalSeats r - activeSeats (getBookings st) R D S.
Proof.
  intros Hr. unfold getAvailableSeats. rewrite Hr.
  rewrite reduce_add_filter. f_equal. rewrite Z.add_0_l.
  unfold activeSeats. apply sumOver_ext. intros b.
  rewrite !bool_decide_and, !andb_assoc. f_equal.
  by destruct (bk_status b).
Qed.

Lemma Database_getAvailableSeats_unknown st R D S :
  getRestaurantById st R = None → getAvailableSeats st R D S = 0.
Proof. intros Hr. unfold getAvailableSeats. by rewrite Hr. Qed.

End Availability.

(** * Availability: the capacity formula *)

Section Capacity.

Import Database Samples.

(** C1 (as amended).  For a restaurant the store knows and a slot whose
    pending and confirmed bookings do not exceed the restaurant's
    [totalSeats], [Database.getAvailableSeats] returns exactly
    [max(0, totalSeats - booked)], where [booked] is the sum of [seats] over
    the bookings for (R, D, S) with status pending or confirmed; the result
    is then not negative. *)
Theorem getAvailableSeats_capacity st R D S r :
  getRestaurantById st R = Some r →
  activeSeats (getBookings st) R D S ≤ rst_totalSeats r →
  getAvailableSeats st R D S
  = Z.max 0 (rst_totalSeats r - activeSeats (getBookings st) R D S)
  ∧ 0 ≤ getAvailableSeats st R D S.
Proof.
  intros Hr Hfits.
  rewrite (Database_getAvailableSeats_known st R D S r Hr). lia.
Qed.

(** The formula on the store with one booking of four seats: six are left. *)
Lemma getAvailableSeats_capacity_witness :
  getAvailableSeats oneBooking "rest-1" "2026-03-01" "7:00 PM"
  = Z.max 0 (rst_totalSeats bistro
             - activeSeats (getBookings oneBooking) "rest-1" "2026-03-01" "7:00 PM")
  ∧ 0 ≤ getAvailableSeats oneBooking "rest-1" "2026-03-01" "7:00 PM".
Proof.
  apply (getAvailableSeats_capacity oneBooking "rest-1" "2026-03-01" "7:00 PM" bistro).
  - reflexivity.
  - vm_compute. discriminate.
Defined.

(** C1 fails as stated: after two accepted six-seat bookings for one slot
    of the ten-seat bistro the computation returns -2, not max(0, -2). *)
Lemma getAvailableSeats_overbooked_negative :
  getRestaurantById overbooked "rest-1" = Some bistro
  ∧ getAvailableSeats overbooked "rest-1" "2026-03-01" "7:00 PM" = -2
  ∧ getAvailableSeats overbooked "rest-1" "2026-03-01" "7:00 PM"
    ≠ Z.max 0 (rst_totalSeats bistro
               - activeSeats (getBookings overbooked) "rest-1" "2026-03-01" "7:00 PM").
Proof. split_and!; [reflexivity|reflexivity|vm_compute; discriminate]. Qed.

End Capacity.

(** * No overbooking *)

Section NoOverbooking.

Import MockDatabase Samples.

Lemma sumOver_ext_in {A : Type} (p q : A → bool) (weight : A → Z) (arr : list A) :
  Forall (λ x, p x = q x) arr → sumOver p weight arr = sumOver q weight arr.
Proof.
  induction 1 as [|x arr Hx _ IH]; simpl; [done|]. by rewrite Hx, IH.
Qed.

(** [MockDatabase.getAvailableSeats] clamps at zero and counts the
    confirmed bookings only. *)
Lemma MockDatabase_getAvailableSeats_known st R D S r :
  getRestaurant st R = Some r →
  getAvailableSeats st R D S
  = Z.max 0 (rst_totalSeats r - confirmedGuests (bookings st) R D S).
Proof.
  intros Hr. unfold getAvailableSeats. rewrite Hr.
  rewrite reduce_add_filter, Z.add_0_l. do 2 f_equal.
  unfold confirmedGuests. apply sumOver_ext. intros b.
  by rewrite !bool_decide_and, !andb_assoc.
Qed.

Lemma MockDatabase_getAvailableSeats_nonneg st R D S :
  0 ≤ getAvailableSeats st R D S.
Proof. unfold getAvailableSeats. destruct (getRestaurant st R); lia. Qed.

Lemma confirmedGuests_active R D S bs :
  nonePending R D S bs → confirmedGuests bs R D S = activeGuests bs R D S.
Proof.
  intros Hnp. unfold confirmedGuests, activeGuests. apply sumOver_ext_in.
  eapply Forall_impl; [exact Hnp|]. intros b Hb. simpl in Hb.
  repeat case_bool_decide; simpl; try done;
    destruct (bk_status b); simpl; try done; naive_solver.
Qed.





End NoOverbooking.

Section FallbackBookingsUnchecked.

Import Service DemoData BookingService Samples.


End FallbackBookingsUnchecked.

(** * Creating a booking *)

Section CreateBooking.

Import Service DemoData BookingService Samples.

(** C3 (as amended).  On the fallback path, for a signed-in user and a
    restaurant of the seed data, [createBooking] does not look at the
    availability: whatever number of seats is requested it returns a newly
    constructed booking with status pending and the requested seats, whose
    [createdAt] and [updatedAt] are the two clock readings taken while it is
    built, and appends that booking to the overlay. *)
Theorem createBooking_always_pending ls tId tCreated tUpdated data user restaurant :
  getStoredUser ls = Some user →
  find (λ r, rst_id r = cb_restaurantId data) DEMO_RESTAURANTS = Some restaurant →
  ∃ b,
    createBooking None ls tId tCreated tUpdated data
    = (Ok b, saveAllLocalBookings ls (getAllLocalBookings ls ++ [b]))
    ∧ bk_status b = pending
    ∧ bk_seats b = cb_seats data
    ∧ bk_restaurantId b = cb_restaurantId data
    ∧ bk_userId b = usr_id user
    ∧ bk_createdAt b = tCreated
    ∧ bk_updatedAt b = tUpdated.
Proof.
  intros Huser Hrest. unfold createBooking. rewrite Huser, Hrest.
  eexists. split_and!; reflexivity.
Qed.

(** A request for four seats, with the clock ticking between the readings. *)
Lemma createBooking_always_pending_witness :
  ∃ b,
    createBooking None signedIn 1772000000000 1772000000001 1772000000002
      (serviceRequest 4)
    = (Ok b, saveAllLocalBookings signedIn (getAllLocalBookings signedIn ++ [b]))
    ∧ bk_status b = pending
    ∧ bk_seats b = cb_seats (serviceRequest 4)
    ∧ bk_restaurantId b = cb_restaurantId (serviceRequest 4)
    ∧ bk_userId b = usr_id rakib
    ∧ bk_createdAt b = 1772000000001
    ∧ bk_updatedAt b = 1772000000002.
Proof.
  eapply (createBooking_always_pending signedIn 1772000000000 1772000000001
            1772000000002 (serviceRequest 4) rakib).
  - reflexivity.
  - reflexivity.
Defined.

(** The failures of the fallback [createBooking]: no stored user, or a
    restaurant outside the seed data.  Neither depends on the seats. *)
Lemma createBooking_failures ls tId tCreated tUpdated data :
  (getStoredUser ls = None →
   createBooking None ls tId tCreated tUpdated data
   = (Throw "You must be logged in to make a booking", ls))
  ∧ (∀ user, getStoredUser ls = Some user →
     find (λ r, rst_id r = cb_restaurantId data) DEMO_RESTAURANTS = None →
     createBooking None ls tId tCreated tUpdated data
     = (Throw "Restaurant not found", ls)).
Proof.
  unfold createBooking. split.
  - by intros ->.
  - by intros user -> ->.
Qed.

(** C3 fails as stated: Aurora has fifty seats, so at most fifty are
    available for the empty slot, yet a fallback request for 999 seats is
    not rejected: it returns a pending booking of 999 seats. *)
Lemma createBooking_beyond_capacity_accepted :
  rst_totalSeats <$> find (λ r, rst_id r = "rest-1") DEMO_RESTAURANTS = Some 50
  ∧ overlaySeats (DEMO_BOOKINGS ++ getAllLocalBookings signedIn)
      "rest-1" "2026-03-01" "7:00 PM" = 0
  ∧ ∃ b,
      fst (createBooking None signedIn 1772000000000 1772000000000
             1772000000000 (serviceRequest 999)) = Ok b
      ∧ bk_seats b = 999
      ∧ bk_status b = pending.
Proof. split_and!; [reflexivity|reflexivity|by eexists]. Qed.

(** The two timestamps are separate clock readings: when the clock ticks
    between them the new booking's [createdAt] and [updatedAt] differ. *)
Lemma createBooking_timestamps_are_two_readings :
  ∃ b,
    fst (createBooking None signedIn 1772000000000 1772000000000
           1772000000001 (serviceRequest 2)) = Ok b
    ∧ bk_createdAt b ≠ bk_updatedAt b.
Proof. eexists. split; [reflexivity|]. simpl. lia. Qed.

End CreateBooking.

Section MockCreateBooking.

Import MockDatabase.

(** [MockDatabase.createBooking] is the one that gates on availability:
    it answers with the error object, which carries a message and no count,
    exactly when the guests exceed the available seats, and otherwise stores
    and returns a booking that is already confirmed. *)
Lemma MockDatabase_createBooking_gate st id t b :
  (getAvailableSeats st (bi_restaurantId b) (bi_date b) (bi_timeSlot b)
   < bi_guests b →
   createBooking st id t b = (inr "Not enough seats available.", st))
  ∧ (bi_guests b
     ≤ getAvailableSeats st (bi_restaurantId b) (bi_date b) (bi_timeSlot b) →
     ∃ nb, createBooking st id t b
           = (inl nb, mkStore (restaurants st) (bookings st ++ [nb]))
           ∧ bk_status nb = confirmed
           ∧ bk_guests nb = bi_guests b).
Proof.
  unfold createBooking. split; intros Hcmp.
  - by rewrite decide_True.
  - rewrite decide_False by lia. by eexists.
Qed.

End MockCreateBooking.

(** * Status transitions *)

Section Transitions.

Import Service DemoData BookingService Samples.

Lemma list_find_elem_id (bs : list Booking) (id : string) (b : Booking) :
  b ∈ bs → bk_id b = id →
  ∃ i found, list_find (λ x, bk_id x = id) bs = Some (i, found)
             ∧ bs !! i = Some found ∧ bk_id found = id.
Proof.
  intros Hin Hid.
  destruct (list_find_elem_of (λ x, bk_id x = id) bs b Hin Hid) as [[i found] Hf].
  exists i, found. split; [done|].
  by apply list_find_Some in Hf as (? & ? & _).
Qed.

Lemma alter_elem_of (f : Booking → Booking) (bs : list Booking) i found :
  bs !! i = Some found → f found ∈ alter f i bs.
Proof.
  intros Hi. apply list_elem_of_lookup. exists i.
  by rewrite list_lookup_alter_eq, Hi.
Qed.

(** C4 (as amended).  The fallback transition operations have no
    lifecycle guard: for a booking found in the overlay, whatever its
    current status (cancelled and completed included),
    [updateBookingStatus] succeeds and sets the requested status, and
    [cancelBooking] succeeds and sets cancelled; the updated booking is
    returned and stored. *)
Theorem transitions_are_unguarded ls tUpdated id target b :
  b ∈ getAllLocalBookings ls →
  bk_id b = id →
  (∃ b' ls',
     updateBookingStatus None ls tUpdated id target = (Ok b', ls')
     ∧ bk_id b' = id ∧ bk_status b' = target
     ∧ b' ∈ getAllLocalBookings ls')
  ∧ (∃ b' ls',
       cancelBooking None ls tUpdated id = (Ok b', ls')
       ∧ bk_id b' = id ∧ bk_status b' = cancelled
       ∧ b' ∈ getAllLocalBookings ls').
Proof.
  intros Hin Hid.
  destruct (list_find_elem_id _ _ _ Hin Hid) as (i & found & Hf & Hi & Hfid).
  unfold updateBookingStatus, cancelBooking. rewrite Hf. split.
  - eexists _, _. split_and!; [reflexivity|done|done|].
    simpl. by apply alter_elem_of.
  - eexists _, _. split_and!; [reflexivity|done|done|].
    simpl. by apply alter_elem_of.
Qed.

(** Both operations on the completed booking of the sample overlay. *)
Lemma transitions_are_unguarded_witness :
  (∃ b' ls',
     updateBookingStatus None completedVisit 1772500000000
       "booking-demo-1772000000000" confirmed = (Ok b', ls')
     ∧ bk_id b' = "booking-demo-1772000000000" ∧ bk_status b' = confirmed
     ∧ b' ∈ getAllLocalBookings ls')
  ∧ (∃ b' ls',
       cancelBooking None completedVisit 1772500000000
         "booking-demo-1772000000000" = (Ok b', ls')
       ∧ bk_id b' = "booking-demo-1772000000000" ∧ bk_status b' = cancelled
       ∧ b' ∈ getAllLocalBookings ls').
Proof.
  eapply (transitions_are_unguarded completedVisit 1772500000000
            "booking-demo-1772000000000").
  - vm_compute. apply list_elem_of_here.
  - reflexivity.
Defined.

(** The only failure of the two operations: no overlay booking has the
    id.  The overlay is then left as it was. *)
Lemma transitions_fail_only_when_absent ls tUpdated id target :
  (∀ b, b ∈ getAllLocalBookings ls → bk_id b ≠ id) →
  updateBookingStatus None ls tUpdated id target = (Throw "Booking not found", ls)
  ∧ cancelBooking None ls tUpdated id = (Throw "Booking not found", ls).
Proof.
  intros Habsent. unfold updateBookingStatus, cancelBooking.
  assert (list_find (λ b, bk_id b = id) (getAllLocalBookings ls) = None) as ->; [|done].
  apply list_find_None, Forall_forall. intros b Hb. by apply Habsent.
Qed.

(** C4 fails as stated: the overlay booking below is completed, and
    cancelling it succeeds and turns its status into cancelled. *)
Lemma cancelBooking_exits_completed :
  bk_status <$> getAllLocalBookings completedVisit = [completed]
  ∧ ∃ b' ls',
      cancelBooking None completedVisit 1772500000000 "booking-demo-1772000000000"
      = (Ok b', ls')
      ∧ bk_status b' = cancelled
      ∧ bk_status <$> getAllLocalBookings ls' = [cancelled].
Proof. split; [reflexivity|]. by eexists _, _. Qed.

End Transitions.

Section MockCancel.

Import MockDatabase.

(** [MockDatabase.cancelBooking] writes cancelled into the booking it
    finds, whatever the status was. *)
Lemma MockDatabase_cancelBooking_found st bookingId i b :
  list_find (λ x, bk_id x = bookingId) (bookings st) = Some (i, b) →
  bookings (cancelBooking st bookingId) !! i = Some (assignStatus cancelled b).
Proof.
  intros Hf. unfold cancelBooking, findIndex. rewrite Hf. simpl.
  apply list_find_Some in Hf as (Hi & _). by rewrite list_lookup_alter_eq, Hi.
Qed.

End MockCancel.

(** * Unknown restaurants *)

Section UnknownRestaurant.

Import Samples.

(** C8 (as amended).  For an id that identifies no known restaurant, only
    the restaurant service's fallback reports an error: it throws
    "Restaurant not found".  The two data-layer classes return the number
    0 instead. *)
Theorem unknown_restaurant_availability (R D S : string) :
  ((∀ r, r ∈ DemoData.DEMO_RESTAURANTS → rst_id r ≠ R) →
   ∀ random, RestaurantService.getAvailableSeats None random R D S
             = Throw "Restaurant not found")
  ∧ (∀ st, Database.getRestaurantById st R = None →
           Database.getAvailableSeats st R D S = 0)
  ∧ (∀ st, MockDatabase.getRestaurant st R = None →
           MockDatabase.getAvailableSeats st R D S = 0).
Proof.
  split_and!.
  - intros Hunknown random. unfold RestaurantService.getAvailableSeats.
    assert (find (λ r, rst_id r = R) DemoData.DEMO_RESTAURANTS = None) as ->; [|done].
    apply find_None. intros r Hr. by apply Hunknown.
  - intros st. apply Database_getAvailableSeats_unknown.
  - intros st Hr. unfold MockDatabase.getAvailableSeats. by rewrite Hr.
Qed.

(** The three computations on the id [rest-404]. *)
Lemma unknown_restaurant_availability_witness :
  RestaurantService.getAvailableSeats None (1 # 2) "rest-404" "2026-03-01" "7:00 PM"
  = Throw "Restaurant not found"
  ∧ Database.getAvailableSeats emptyStore "rest-404" "2026-03-01" "7:00 PM" = 0
  ∧ MockDatabase.getAvailableSeats mockStore "rest-404" "2026-03-01" "7:00 PM" = 0.
Proof.
  destruct (unknown_restaurant_availability "rest-404" "2026-03-01" "7:00 PM")
    as (Hservice & Hdb & Hmock).
  split_and!.
  - apply Hservice. intros r Hr.
    repeat (apply elem_of_cons in Hr as [->|Hr]; [discriminate|]).
    by apply elem_of_nil in Hr.
  - apply Hdb. reflexivity.
  - apply Hmock. reflexivity.
Defined.

(** C8 fails as stated: for an id the store does not know,
    [Database.getAvailableSeats] returns the number 0. *)
Lemma getAvailableSeats_unknown_is_zero :
  Database.getRestaurantById emptyStore "rest-404" = None
  ∧ Database.getAvailableSeats emptyStore "rest-404" "2026-03-01" "7:00 PM" = 0.
Proof. split; reflexivity. Qed.

End UnknownRestaurant.

(** * Deleting a review on the fallback path *)

Section DeleteReview.

Import Service ReviewService Samples.

Lemma filter_all {A : Type} (P : A → Prop) `{∀ x, Decision (P x)} (l : list A) :
  (∀ x, x ∈ l → P x) → filter P l = l.
Proof.
  induction l as [|x l IH]; intros Hall; [done|].
  rewrite filter_cons_True by (apply Hall; left).
  f_equal. apply IH. intros y Hy. apply Hall. by right.
Qed.

(** C10.  On the fallback path, deleting an id that no overlay review
    carries throws "Review not found" and leaves localStorage, and with it
    the stored review collection, exactly as it was. *)
Theorem deleteReview_absent_id ls id :
  (∀ r, r ∈ getAllLocalReviews ls → rv_id r ≠ id) →
  deleteReview None ls id = (Throw "Review not found", ls).
Proof.
  intros Habsent. unfold deleteReview.
  rewrite (filter_all _ _ Habsent). by rewrite decide_True.
Qed.

End DeleteReview.

Section DeleteReviewWitness.

Import Service ReviewService Samples.

(** Deleting an id that the one overlay review does not carry. *)
Lemma deleteReview_absent_id_witness :
  deleteReview None oneLocalReview "review-demo-1"
  = (Throw "Review not found", oneLocalReview).
Proof.
  apply deleteReview_absent_id. intros r Hr.
  apply elem_of_cons in Hr as [->|Hr]; [discriminate|].
  by apply elem_of_nil in Hr.
Defined.

End DeleteReviewWitness.

(** * Derived rating fields *)

Section Rating.

Import Database Samples.


Lemma list_find_alter {A : Type} (P : A → Prop) `{∀ x, Decision (P x)}
    (f : A → A) (l : list A) (i : nat) (x : A) :
  list_find P l = Some (i, x) → P (f x) →
  list_find P (alter f i l) = Some (i, f x).
Proof.
  intros (Hi & HP & Hleast)%list_find_Some HPf.
  apply list_find_Some. split_and!.
  - by rewrite list_lookup_alter_eq, Hi.
  - done.
  - intros j y Hj Hlt. rewrite list_lookup_alter_ne in Hj by lia. eauto.
Qed.

(** [Math_round] is rounding to the nearest integer, a tie going up. *)
Lemma Math_round_nearest (x : Q) :
  (inject_Z (Math_round x) - (1 # 2) <= x)%Q
  ∧ (x < inject_Z (Math_round x) + (1 # 2))%Q.
Proof.
  unfold Math_round.
  pose proof (Qfloor_le (x + (1 # 2))) as Hle.
  pose proof (Qlt_floor (x + (1 # 2))) as Hlt.
  rewrite inject_Z_plus in Hlt. change (inject_Z 1) with 1%Q in Hlt.
  split; lra.
Qed.



Lemma updateRestaurantRating_other_collections st R :
  BOOKINGS (updateRestaurantRating st R) = BOOKINGS st
  ∧ FAVOURITES (updateRestaurantRating st R) = FAVOURITES st.
Proof. unfold updateRestaurantRating. by destruct (findIndex _ _). Qed.


(** A review change is a write to the review collection followed by the
    recomputation for the owning restaurant. *)
Lemma reviewChange_inv st R st' :
  reviewChange st R st' →
  ∃ reviews', st' = updateRestaurantRating (setReviews st reviews') R.
Proof.
  intros [tId tCreated review|id review st'' Hfound Hdel].
  - by eexists.
  - unfold deleteReview in Hdel. rewrite Hfound in Hdel.
    injection Hdel as <-. by eexists.
Qed.






End Rating.

Section RatingFrame.

Import Database Samples.

Lemma alter_assignDerived_lookup rating total k (rs : list Restaurant) i r r' :
  rs !! i = Some r →
  alter (assignDerived rating total) k rs !! i = Some r' →
  otherFields r' = otherFields r ∧ (k ≠ i → r' = r).
Proof.
  intros Hi Hi'. destruct (decide (k = i)) as [->|Hne].
  - rewrite list_lookup_alter_eq, Hi in Hi'. injection Hi' as <-.
    split; [reflexivity|done].
  - rewrite list_lookup_alter_ne, Hi in Hi' by done. injection Hi' as <-.
    done.
Qed.

(** C9.  Creating or deleting a review changes, in the restaurant
    collection, nothing but the [rating] and [totalReviews] of the one
    restaurant [findIndex] selects for the review's [restaurantId]: every
    other field of that restaurant and every other restaurant are as
    before, the collection keeps its length, and the bookings and the
    favourites are untouched. *)
Theorem rating_recompute_frame st R st' :
  reviewChange st R st' →
  length (RESTAURANTS st') = length (RESTAURANTS st)
  ∧ (∀ i r r',
       RESTAURANTS st !! i = Some r →
       RESTAURANTS st' !! i = Some r' →
       otherFields r' = otherFields r
       ∧ (findIndex (λ x, rst_id x = R) (RESTAURANTS st) ≠ Some i → r' = r))
  ∧ BOOKINGS st' = BOOKINGS st
  ∧ FAVOURITES st' = FAVOURITES st.
Proof.
  intros [reviews' ->]%reviewChange_inv.
  unfold updateRestaurantRating, getRestaurants. simpl.
  destruct (findIndex (λ r, rst_id r = R) (RESTAURANTS st)) as [k|] eqn:Hk; simpl.
  - split_and!; [by rewrite length_alter| |done|done].
    intros i r r' Hi Hi'.
    destruct (alter_assignDerived_lookup _ _ _ _ _ _ _ Hi Hi') as [Hother Hsame].
    split; [done|]. intros Hne. apply Hsame. congruence.
  - split_and!; [done| |done|done].
    intros i r r' Hi Hi'. rewrite Hi in Hi'. injection Hi' as <-. done.
Qed.

(** The frame of the same third review. *)
Lemma rating_recompute_frame_witness :
  length (RESTAURANTS threeReviews) = length (RESTAURANTS twoReviews)
  ∧ (∀ i r r',
       RESTAURANTS twoReviews !! i = Some r →
       RESTAURANTS threeReviews !! i = Some r' →
       otherFields r' = otherFields r
       ∧ (findIndex (λ x, rst_id x = "rest-1") (RESTAURANTS twoReviews) ≠ Some i →
          r' = r))
  ∧ BOOKINGS threeReviews = BOOKINGS twoReviews
  ∧ FAVOURITES threeReviews = FAVOURITES twoReviews.
Proof.
  apply (rating_recompute_frame twoReviews "rest-1" threeReviews).
  exact (review_created twoReviews 1772000120000 1772000120000 (opinion 5)).
Defined.

(** On the sample store the third review moves the bistro from 4.5 over
    two reviews to 4.7 over three and leaves the diner as it was. *)
Example third_review_changes_one_restaurant :
  (rst_rating <$> RESTAURANTS twoReviews) = [(45 # 10)%Q; (43 # 10)%Q]
  ∧ (rst_rating <$> RESTAURANTS threeReviews) = [(47 # 10)%Q; (43 # 10)%Q]
  ∧ (rst_totalReviews <$> RESTAURANTS threeReviews) = [3; 201].
Proof. split_and!; reflexivity. Qed.

End RatingFrame.

(** * Fallback list queries *)

Section SortDesc.

Context {A : Type} (key : A → Z).

Lemma insertDesc_Permutation (x : A) (l : list A) : insertDesc key x l ≡ₚ x :: l.
Proof.
  induction l as [|y l IH]; simpl; [done|].
  case_decide; [done|]. rewrite IH. apply Permutation_swap.
Qed.

Lemma sortDesc_Permutation (l : list A) : sortDesc key l ≡ₚ l.
Proof.
  induction l as [|x l IH]; simpl; [done|].
  by rewrite insertDesc_Permutation, IH.
Qed.

Lemma insertDesc_HdRel (x y : A) (l : list A) :
  key x ≤ key y → HdRel (λ a b, key b ≤ key a) y l →
  HdRel (λ a b, key b ≤ key a) y (insertDesc key x l).
Proof.
  intros Hxy Hhd. destruct l as [|z l]; simpl.
  - by constructor.
  - case_decide; constructor; [done|]. by inversion Hhd.
Qed.

Lemma insertDesc_sorted (x : A) (l : list A) :
  sortedDesc key l → sortedDesc key (insertDesc key x l).
Proof.
  unfold sortedDesc. induction 1 as [|y l Hl IH Hhd]; simpl.
  - by repeat constructor.
  - case_decide as Hyx.
    + constructor; [by constructor|]. constructor. lia.
    + constructor; [done|]. apply insertDesc_HdRel; [lia|done].
Qed.

Lemma sortDesc_sorted (l : list A) : sortedDesc key (sortDesc key l).
Proof.
  induction l as [|x l IH]; simpl; [constructor|].
  by apply insertDesc_sorted.
Qed.

(** Stability: among equal keys the sort keeps the order of the input;
    in particular a list already sorted comes back as it is. *)
Lemma sortDesc_already_sorted (l : list A) :
  sortedDesc key l → sortDesc key l = l.
Proof.
  unfold sortedDesc. induction 1 as [|x l Hl IH Hhd]; simpl; [done|].
  rewrite IH. destruct Hhd as [|y l' Hxy]; simpl; [done|].
  rewrite decide_True by lia. done.
Qed.

(** Nothing is added or dropped, so the ids in the result are pairwise
    distinct exactly when they are in the input. *)
Lemma sortDesc_NoDup {K : Type} (id : A → K) (l : list A) :
  NoDup (id <$> sortDesc key l) ↔ NoDup (id <$> l).
Proof. by rewrite sortDesc_Permutation. Qed.

End SortDesc.

Section ListQueries.

Import Service DemoData BookingService ReviewService Samples.

(** C7 (as amended).  On the fallback path, [getMyBookings] (for the
    stored user) and [getRestaurantReviews] return the matching seed
    records followed by the matching overlay records, rearranged by a sort
    on [createdAt], newest first; no record is dropped, so the ids of the
    result are pairwise distinct exactly when those of the concatenation
    are.  [getRestaurantBookings] without filters returns the matching
    records of the concatenation in their stored order. *)
Theorem fallback_list_queries ls user restaurantId :
  getStoredUser ls = Some user →
  sortedMerge bk_createdAt bk_id
    (filter (λ b, bk_userId b = usr_id user) DEMO_BOOKINGS)
    (filter (λ b, bk_userId b = usr_id user) (getAllLocalBookings ls))
    (getMyBookings None ls)
  ∧ sortedMerge rv_createdAt rv_id
      (filter (λ r, rv_restaurantId r = restaurantId) DEMO_REVIEWS)
      (filter (λ r, rv_restaurantId r = restaurantId) (getAllLocalReviews ls))
      (getRestaurantReviews None ls restaurantId)
  ∧ getRestaurantBookings None ls restaurantId None
    = filter (λ b, bk_restaurantId b = restaurantId) DEMO_BOOKINGS
      ++ filter (λ b, bk_restaurantId b = restaurantId) (getAllLocalBookings ls).
Proof.
  intros Huser. unfold sortedMerge. split_and!.
  - unfold getMyBookings. rewrite Huser. apply sortDesc_Permutation.
  - unfold getMyBookings. rewrite Huser. apply sortDesc_sorted.
  - unfold getMyBookings. rewrite Huser. apply sortDesc_NoDup.
  - apply sortDesc_Permutation.
  - apply sortDesc_sorted.
  - apply sortDesc_NoDup.
  - unfold getRestaurantBookings. cbn [truthy mbind option_bind].
    apply filter_app.
Qed.

(** The three queries on the overlay with two bookings. *)
Lemma fallback_list_queries_witness :
  sortedMerge bk_createdAt bk_id
    (filter (λ b, bk_userId b = usr_id rakib) DEMO_BOOKINGS)
    (filter (λ b, bk_userId b = usr_id rakib) (getAllLocalBookings twoThirties))
    (getMyBookings None twoThirties)
  ∧ sortedMerge rv_createdAt rv_id
      (filter (λ r, rv_restaurantId r = "rest-1") DEMO_REVIEWS)
      (filter (λ r, rv_restaurantId r = "rest-1") (getAllLocalReviews twoThirties))
      (getRestaurantReviews None twoThirties "rest-1")
  ∧ getRestaurantBookings None twoThirties "rest-1" None
    = filter (λ b, bk_restaurantId b = "rest-1") DEMO_BOOKINGS
      ++ filter (λ b, bk_restaurantId b = "rest-1") (getAllLocalBookings twoThirties).
Proof.
  apply (fallback_list_queries twoThirties rakib "rest-1"). reflexivity.
Defined.

(** C7 fails as stated: with two overlay bookings for Aurora, the
    restaurant's bookings come back seed record first, the older before the
    newer, so the list is not sorted newest first. *)
Lemma getRestaurantBookings_not_newest_first :
  bk_createdAt <$> getRestaurantBookings None twoThirties "rest-1" None
  = [1707523200000; 1772000000000; 1772000060000]
  ∧ ¬ sortedDesc bk_createdAt (getRestaurantBookings None twoThirties "rest-1" None).
Proof.
  split; [reflexivity|].
  intros Hsorted. apply (bool_decide_pack _) in Hsorted.
  vm_compute in Hsorted. done.
Qed.

(** Nor are ids de-duplicated: two fallback bookings made within one
    millisecond carry the same id, and the user's list shows both. *)
Lemma getMyBookings_keeps_equal_ids :
  ¬ NoDup (bk_id <$> getMyBookings None sameMillisecond)
  ∧ length (getMyBookings None sameMillisecond) = 6%nat.
Proof.
  split; [|reflexivity].
  intros Hnodup. apply (bool_decide_pack _) in Hnodup.
  vm_compute in Hnodup. done.
Qed.

End ListQueries.

(** * Favourites *)

Section SomeFacts.

Context {A : Type} (P : A → Prop) `{∀ x, Decision (P x)}.

Lemma some_true (l : list A) : some P l = true ↔ Exists P l.
Proof. unfold some. apply bool_decide_eq_true. Qed.

Lemma some_false (l : list A) : some P l = false ↔ Forall (λ x, ¬ P x) l.
Proof.
  unfold some. rewrite bool_decide_eq_false. split.
  - apply not_Exists_Forall. apply _.
  - apply Forall_not_Exists.
Qed.

Lemma some_filter_out (l : list A) : some P (filter (λ x, ¬ P x) l) = false.
Proof.
  apply some_false, Forall_forall. intros x Hx.
  by apply list_elem_of_filter in Hx as [? _].
Qed.

Lemma some_push (l : list A) (x : A) : P x → some P (push l x) = true.
Proof.
  intros HP. apply some_true, Exists_app. right. by apply Exists_cons_hd.
Qed.

Lemma filter_out_push (l : list A) (x : A) :
  some P l = false → P x → filter (λ y, ¬ P y) (push l x) = l.
Proof.
  intros Hnone%some_false HP. unfold push. rewrite filter_app.
  rewrite filter_cons_False by (intros Hn; by apply Hn).
  rewrite filter_nil, app_nil_r.
  induction Hnone as [|y l Hy _ IH]; [done|].
  by rewrite filter_cons_True, IH.
Qed.

Lemma findIndex_None_some (l : list A) : findIndex P l = None ↔ some P l = false.
Proof.
  unfold findIndex. rewrite fmap_None, list_find_None. symmetry. apply some_false.
Qed.

End SomeFacts.

Section FavouriteToggle.

Import Service DemoData FavouriteService Samples.

(** Read the favourites and the stored user back from an overlay that was
    just written. *)
Ltac read_overlay :=
  cbn [saveAllLocalFavourites reservex_current_user getAllLocalFavourites
       reservex_demo_favourites default from_option id].

(** C6, at its failing input.  Aurora is a seed favourite of the signed-in
    demo customer.  With the remote service unreachable the first toggle
    answers [{ isFavourite: false }] although [isFavourite] still answers
    true afterwards, and so the second toggle answers false again instead
    of true. *)
Theorem toggleFavourite_seed_favourite_stays :
  let first := toggleFavourite unreachable signedIn 1772000000000 1772000000000 "rest-1" in
  let second := toggleFavourite unreachable (snd first) 1772000060000 1772000060000 "rest-1" in
  isFavourite None signedIn "rest-1" = true
  ∧ fst first = Ok false
  ∧ isFavourite None (snd first) "rest-1" = true
  ∧ fst second = Ok false
  ∧ isFavourite None (snd second) "rest-1" = true.
Proof. split_and!; reflexivity. Qed.

(** Away from the seed favourites the fallback toggle behaves as the
    claim says: for a signed-in user and a seed restaurant that is not one
    of the user's seed favourites, two toggles answer the negation of the
    initial membership and then the initial membership, and the membership
    after both equals the initial one. *)
Lemma toggleFavourite_twice_outside_seed ls user restaurant R t1 t2 t3 t4 :
  getStoredUser ls = Some user →
  find (λ r, rst_id r = R) DEMO_RESTAURANTS = Some restaurant →
  isDemoFavourite (usr_id user) R = false →
  ∃ ls1 ls2,
    toggleFavourite unreachable ls t1 t2 R = (Ok (negb (isFavourite None ls R)), ls1)
    ∧ toggleFavourite unreachable ls1 t3 t4 R = (Ok (isFavourite None ls R), ls2)
    ∧ isFavourite None ls2 R = isFavourite None ls R.
Proof.
  intros Huser Hrest Hseed.
  unfold toggleFavourite, isFavourite, addFavourite, removeFavourite,
    saveDemoFavourite, getStoredUser in *.
  cbn [req_toggle req_check req_add req_remove unreachable].
  rewrite Huser, Hseed.
  destruct (some _ (getAllLocalFavourites ls)) eqn:Hlocal.
  - (* in the overlay: removed, then added again *)
    eexists _, _. split; [reflexivity|].
    read_overlay.
    rewrite Huser, Hseed, some_filter_out, Hrest.
    split; [reflexivity|].
    read_overlay.
    rewrite Huser, Hseed. by apply some_push.
  - (* not in the overlay: added, then removed again *)
    rewrite Hrest. eexists _, _. split; [reflexivity|].
    read_overlay.
    rewrite Huser, Hseed, some_push by done.
    split; [reflexivity|].
    read_overlay.
    rewrite Huser, Hseed.
    rewrite (filter_out_push _ _ _ Hlocal) by done. exact Hlocal.
Qed.

(** The same holds of every seed favourite of the stored user: a fallback
    toggle answers false, touches the overlay only, and leaves the
    restaurant a favourite. *)
Lemma toggleFavourite_on_seed_favourite ls user R t1 t2 :
  getStoredUser ls = Some user →
  isDemoFavourite (usr_id user) R = true →
  ∃ ls',
    toggleFavourite unreachable ls t1 t2 R = (Ok false, ls')
    ∧ getStoredUser ls' = Some user
    ∧ isFavourite None ls' R = true.
Proof.
  intros Huser Hseed.
  unfold toggleFavourite, isFavourite, removeFavourite, getStoredUser in *.
  cbn [req_toggle req_check req_remove unreachable].
  rewrite Huser, Hseed. eexists. split; [reflexivity|].
  read_overlay. by rewrite Huser, Hseed.
Qed.

End FavouriteToggle.

Section DatabaseToggle.

Import Database.

(** [Database.toggleFavourite] on a pair that is not a favourite: the two
    calls answer true and then false, and the second call restores the
    store exactly. *)
Lemma Database_toggleFavourite_twice st t1 t2 t3 t4 u r :
  isFavourite st u r = false →
  ∃ st1, toggleFavourite st t1 t2 u r = (true, st1)
         ∧ isFavourite st1 u r = true
         ∧ toggleFavourite st1 t3 t4 u r = (false, st).
Proof.
  intros Hnot. unfold isFavourite in Hnot.
  pose proof Hnot as Hnone%findIndex_None_some.
  unfold toggleFavourite at 1. rewrite Hnone.
  eexists. split; [reflexivity|]. split.
  - unfold isFavourite. simpl. by apply some_push.
  - unfold toggleFavourite, findIndex, getFavourites. simpl. unfold push.
    apply findIndex_None_some in Hnot. unfold findIndex in Hnot.
    apply fmap_None in Hnot.
    rewrite (list_find_app_r _ _ _ Hnot). simpl.
    rewrite decide_True by done. simpl.
    replace (0 + length (FAVOURITES st))%nat with (length (FAVOURITES st) + 0)%nat by lia.
    rewrite delete_middle. rewrite app_nil_r. by destruct st.
Qed.

End DatabaseToggle.

(** * The other availability computations *)

Section OtherAvailability.

Import Samples.

(** On a slot without pending bookings [MockDatabase.getAvailableSeats]
    is the specification's formula. *)
Lemma MockDatabase_getAvailableSeats_capacity st R D S r :
  MockDatabase.getRestaurant st R = Some r →
  nonePending R D S (MockDatabase.bookings st) →
  MockDatabase.getAvailableSeats st R D S
  = Z.max 0 (MockDatabase.rst_totalSeats r
             - activeGuests (MockDatabase.bookings st) R D S).
Proof.
  intros Hr Hnp. rewrite (MockDatabase_getAvailableSeats_known _ _ _ _ _ Hr).
  by rewrite (confirmedGuests_active _ _ _ _ Hnp).
Qed.

(** A pending booking does not count there: with ten guests pending on a
    sixty-seat restaurant all sixty seats are reported available. *)
Example MockDatabase_pending_not_counted :
  let waiting :=
    {| MockDatabase.bk_id := "b2"; MockDatabase.bk_userId := "1";
       MockDatabase.bk_restaurantId := "1";
       MockDatabase.bk_date := "2026-03-01";
       MockDatabase.bk_timeSlot := "6:00 PM - 8:00 PM";
       MockDatabase.bk_guests := 10; MockDatabase.bk_status := pending;
       MockDatabase.bk_createdAt := 1772000000000;
       MockDatabase.bk_restaurantName := None;
       MockDatabase.bk_restaurantImage := None;
       MockDatabase.bk_time := None |} in
  let st := MockDatabase.mkStore [mockAurora] [waiting] in
  MockDatabase.getAvailableSeats st "1" "2026-03-01" "6:00 PM - 8:00 PM" = 60
  ∧ activeGuests (MockDatabase.bookings st) "1" "2026-03-01" "6:00 PM - 8:00 PM" = 10.
Proof. split; reflexivity. Qed.

(** The restaurant service's fallback does not read any booking: for
    Aurora (fifty seats) it answers between 25 and 45 according to the
    random draw alone. *)
Example RestaurantService_availability_is_drawn :
  RestaurantService.getAvailableSeats None 0 "rest-1" "2026-03-01" "7:00 PM" = Ok 25
  ∧ RestaurantService.getAvailableSeats None (1 # 2) "rest-1" "2026-03-01" "7:00 PM"
    = Ok 35
  ∧ RestaurantService.getAvailableSeats None (1023 # 1024) "rest-1" "2026-03-01" "7:00 PM"
    = Ok 45.
Proof. split_and!; reflexivity. Qed.

(** The specification's first two scenarios on [Database]: ten seats
    free, six after a booking of four. *)
Example Database_availability_scenario :
  Database.getAvailableSeats emptyStore "rest-1" "2026-03-01" "7:00 PM" = 10
  ∧ Database.getAvailableSeats oneBooking "rest-1" "2026-03-01" "7:00 PM" = 6.
Proof. split; reflexivity. Qed.

End OtherAvailability.

(** * Further properties of the data layers

    What follows covers methods the sections above do not: how bookings
    and cancellations move the availability, the favourite relation of
    [Database], and the read and write paths of the services' fallback. *)

Section ListFacts.

Context {A : Type}.

Lemma sumOver_insert (p : A → bool) (w : A → Z) (l : list A) (i : nat) (x y : A) :
  l !! i = Some x →
  sumOver p w (<[i := y]> l)
  = sumOver p w l - (if p x then w x else 0) + (if p y then w y else 0).
Proof.
  revert i. induction l as [|z l IH]; intros [|i] Hi; simplify_eq/=.
  - lia.
  - rewrite (IH i Hi). lia.
Qed.

Lemma sumOver_alter (p : A → bool) (w : A → Z) (f : A → A) (l : list A)
    (i : nat) (x : A) :
  l !! i = Some x →
  sumOver p w (alter f i l)
  = sumOver p w l - (if p x then w x else 0) + (if p (f x) then w (f x) else 0).
Proof.
  revert i. induction l as [|z l IH]; intros [|i] Hi; simplify_eq/=.
  - lia.
  - rewrite (IH i Hi). lia.
Qed.

Lemma list_find_insert_same (P : A → Prop) `{∀ x, Decision (P x)}
    (l : list A) (i : nat) (x y : A) :
  list_find P l = Some (i, x) → P y →
  list_find P (<[i := y]> l) = Some (i, y).
Proof.
  intros (Hi & HP & Hleast)%list_find_Some HPy.
  apply list_find_Some. split_and!.
  - apply list_lookup_insert_eq. by eapply lookup_lt_Some.
  - done.
  - intros j z Hj Hlt. rewrite list_lookup_insert_ne in Hj by lia. eauto.
Qed.

Lemma list_find_fresh_push (P : A → Prop) `{∀ x, Decision (P x)}
    (l : list A) (y : A) :
  (∀ x, x ∈ l → ¬ P x) → P y →
  list_find P (push l y) = Some (length l, y).
Proof.
  intros Hfresh HPy. unfold push.
  rewrite list_find_app_r by (by apply list_find_None, Forall_forall).
  simpl. rewrite decide_True by done. simpl. f_equal.
Qed.

Lemma filter_comm (P Q : A → Prop) `{∀ x, Decision (P x)} `{∀ x, Decision (Q x)}
    (l : list A) :
  filter P (filter Q l) = filter Q (filter P l).
Proof.
  induction l as [|x l IH]; [done|].
  destruct (decide (P x)), (decide (Q x));
    rewrite ?filter_cons_True, ?filter_cons_False by done;
    rewrite ?filter_cons_True, ?filter_cons_False by done; by rewrite ?IH.
Qed.

End ListFacts.

Section DatabaseAvailabilityMoves.

Import Database Samples.

Lemma activeSeats_seatsHeld_cons b bs R D S :
  activeSeats (b :: bs) R D S = seatsHeld b R D S + activeSeats bs R D S.
Proof. reflexivity. Qed.

(** X1.  A booking stored by [Database.createBooking] lowers the
    availability of its own slot by its seats when its status is pending or
    confirmed, and leaves every other slot, and every slot when its status
    is completed or cancelled, as it was. *)
Theorem Database_createBooking_takes_seats st tId tCreated tUpdated booking R D S r :
  getRestaurantById st R = Some r →
  getAvailableSeats (snd (createBooking st tId tCreated tUpdated booking)) R D S
  = getAvailableSeats st R D S
    - seatsHeld (fst (createBooking st tId tCreated tUpdated booking)) R D S.
Proof.
  intros Hr.
  rewrite (Database_getAvailableSeats_known st R D S r Hr).
  rewrite (Database_getAvailableSeats_known _ R D S r) by done.
  simpl. unfold push, activeSeats. rewrite sumOver_app. simpl.
  unfold seatsHeld. simpl. lia.
Qed.

End DatabaseAvailabilityMoves.

Section DatabaseUpdateBooking.

Import Database Samples.

Lemma getBookingById_list_find st id b :
  getBookingById st id = Some b →
  ∃ i, list_find (λ x, bk_id x = id) (getBookings st) = Some (i, b).
Proof.
  unfold getBookingById, find.
  destruct (list_find _ _) as [[i x]|]; [|done]. intros [= ->]. by exists i.
Qed.

(** The witness of X1: four seats booked on the empty ten-seat slot leave
    six. *)
Lemma Database_createBooking_takes_seats_witness :
  getAvailableSeats
    (snd (createBooking emptyStore 1772000000000 1772000000000 1772000000000
            (request 4))) "rest-1" "2026-03-01" "7:00 PM"
  = getAvailableSeats emptyStore "rest-1" "2026-03-01" "7:00 PM"
    - seatsHeld
        (fst (createBooking emptyStore 1772000000000 1772000000000 1772000000000
                (request 4))) "rest-1" "2026-03-01" "7:00 PM".
Proof.
  apply (Database_createBooking_takes_seats emptyStore 1772000000000
           1772000000000 1772000000000 (request 4) "rest-1" "2026-03-01"
           "7:00 PM" bistro).
  reflexivity.
Defined.

(** X2.  Changing only the status of a stored booking through
    [Database.updateBooking] moves the availability of every slot of a
    known restaurant by the seats the booking held before minus the seats
    it holds after: cancelling or completing a pending or confirmed booking
    gives its seats back to its slot, and no other slot moves. *)
Theorem Database_updateBooking_status_moves_seats st tUpdated id status b R D S r :
  getRestaurantById st R = Some r →
  getBookingById st id = Some b →
  getAvailableSeats (snd (updateBooking st tUpdated id (statusOnly status))) R D S
  = getAvailableSeats st R D S
    + seatsHeld b R D S
    - seatsHeld (mergeBooking b (statusOnly status) tUpdated) R D S.
Proof.
  intros Hr [i Hf]%getBookingById_list_find.
  rewrite (Database_getAvailableSeats_known st R D S r Hr).
  unfold updateBooking. rewrite Hf.
  rewrite (Database_getAvailableSeats_known _ R D S r) by done.
  simpl. unfold activeSeats.
  apply list_find_Some in Hf as (Hi & _ & _).
  rewrite (sumOver_insert _ _ _ _ _ _ Hi). unfold seatsHeld. simpl. lia.
Qed.

(** The witness of X2: cancelling the four-seat booking frees its seats. *)
Lemma Database_updateBooking_status_moves_seats_witness :
  getAvailableSeats
    (snd (updateBooking oneBooking 1772000090000 "booking-1772000000000"
            (statusOnly cancelled))) "rest-1" "2026-03-01" "7:00 PM"
  = getAvailableSeats oneBooking "rest-1" "2026-03-01" "7:00 PM"
    + seatsHeld (fst (createBooking emptyStore 1772000000000 1772000000000
                        1772000000000 (request 4)))
        "rest-1" "2026-03-01" "7:00 PM"
    - seatsHeld
        (mergeBooking
           (fst (createBooking emptyStore 1772000000000 1772000000000
                   1772000000000 (request 4)))
           (statusOnly cancelled) 1772000090000)
        "rest-1" "2026-03-01" "7:00 PM".
Proof.
  apply (Database_updateBooking_status_moves_seats oneBooking 1772000090000
           "booking-1772000000000" cancelled _ "rest-1" "2026-03-01" "7:00 PM"
           bistro).
  - reflexivity.
  - reflexivity.
Defined.

(** Scenarios 2 and 3 of the specification on [Database]: six seats left
    after the booking of four, ten again once it is cancelled. *)
Example Database_cancel_restores_availability :
  getAvailableSeats oneBooking "rest-1" "2026-03-01" "7:00 PM" = 6
  ∧ getAvailableSeats
      (snd (updateBooking oneBooking 1772000090000 "booking-1772000000000"
              (statusOnly cancelled))) "rest-1" "2026-03-01" "7:00 PM" = 10.
Proof. split; reflexivity. Qed.

(** X3.  What [Database.updateBooking] returns is what is stored: when the
    update does not carry an id, reading the booking back by the same id
    gives the returned record, whose [updatedAt] is the clock reading; the
    collection keeps its length, and the restaurants, reviews and
    favourites are untouched. *)
Theorem Database_updateBooking_read_back st tUpdated id updates b :
  getBookingById st id = Some b →
  bu_id updates = None →
  ∃ b' st',
    updateBooking st tUpdated id updates = (Some b', st')
    ∧ getBookingById st' id = Some b'
    ∧ bk_updatedAt b' = tUpdated
    ∧ length (BOOKINGS st') = length (BOOKINGS st)
    ∧ RESTAURANTS st' = RESTAURANTS st
    ∧ REVIEWS st' = REVIEWS st
    ∧ FAVOURITES st' = FAVOURITES st.
Proof.
  intros [i Hf]%getBookingById_list_find Hnoid.
  unfold updateBooking. rewrite Hf. eexists _, _.
  split; [reflexivity|]. split_and!; try done.
  - unfold getBookingById, find, getBookings. simpl.
    erewrite list_find_insert_same; [done|exact Hf|].
    simpl. rewrite Hnoid. simpl. by apply list_find_Some in Hf as (_ & ? & _).
  - simpl. by rewrite length_insert.
Qed.

Lemma Database_updateBooking_read_back_witness :
  ∃ b' st',
    updateBooking oneBooking 1772000090000 "booking-1772000000000"
      (statusOnly confirmed) = (Some b', st')
    ∧ getBookingById st' "booking-1772000000000" = Some b'
    ∧ bk_updatedAt b' = 1772000090000
    ∧ length (BOOKINGS st') = length (BOOKINGS oneBooking)
    ∧ RESTAURANTS st' = RESTAURANTS oneBooking
    ∧ REVIEWS st' = REVIEWS oneBooking
    ∧ FAVOURITES st' = FAVOURITES oneBooking.
Proof.
  eapply (Database_updateBooking_read_back oneBooking 1772000090000
            "booking-1772000000000" (statusOnly confirmed)).
  - reflexivity.
  - reflexivity.
Defined.

End DatabaseUpdateBooking.

Section DatabaseFavourites.

Import Database Samples.

Lemma isFavourite_pairs st u r :
  isFavourite st u r = bool_decide ((u, r) ∈ favouritePair <$> FAVOURITES st).
Proof.
  unfold isFavourite, some, getFavourites. apply bool_decide_ext.
  rewrite Exists_exists, list_elem_of_fmap. unfold favouritePair.
  split.
  - intros (f & Hf & <- & <-). by exists f.
  - intros (f & [= -> ->] & Hf). by exists f.
Qed.

(** The effect of one toggle on the list of pairs: the pair is appended
    when it was absent, and its first occurrence is deleted when it was
    present. *)
Lemma toggleFavourite_pairs st t1 t2 u r :
  (((u, r) ∉ favouritePair <$> FAVOURITES st)
   ∧ fst (toggleFavourite st t1 t2 u r) = true
   ∧ favouritePair <$> FAVOURITES (snd (toggleFavourite st t1 t2 u r))
     = (favouritePair <$> FAVOURITES st) ++ [(u, r)])
  ∨ (∃ i, (favouritePair <$> FAVOURITES st) !! i = Some (u, r)
          ∧ fst (toggleFavourite st t1 t2 u r) = false
          ∧ favouritePair <$> FAVOURITES (snd (toggleFavourite st t1 t2 u r))
            = delete i (favouritePair <$> FAVOURITES st)).
Proof.
  unfold toggleFavourite, findIndex, getFavourites.
  destruct (list_find _ (FAVOURITES st)) as [[i f]|] eqn:Hf; simpl.
  - right. exists i. apply list_find_Some in Hf as (Hi & [Hu Hr] & _).
    split_and!; [|done|by rewrite list_fmap_delete].
    rewrite list_lookup_fmap, Hi. simpl. unfold favouritePair. by rewrite Hu, Hr.
  - left. split_and!; [|done|].
    + intros (f & Heq & Hin)%list_elem_of_fmap.
      apply list_find_None in Hf. rewrite Forall_forall in Hf.
      apply (Hf f Hin). unfold favouritePair in Heq. by simplify_eq.
    + unfold push. by rewrite fmap_app.
Qed.

Lemma toggleFavourite_keeps_unique st t1 t2 u r :
  uniqueFavourites st → uniqueFavourites (snd (toggleFavourite st t1 t2 u r)).
Proof.
  unfold uniqueFavourites. intros Hnd.
  destruct (toggleFavourite_pairs st t1 t2 u r)
    as [(Habs & _ & ->)|(i & _ & _ & ->)].
  - apply NoDup_app. split_and!; [done| |apply NoDup_singleton].
    intros q Hq ->%list_elem_of_singleton. done.
  - exact (sublist_NoDup _ _ Hnd (sublist_delete _ _)).
Qed.

Lemma elem_of_delete_NoDup {A : Type} (l : list A) (i : nat) (x y : A) :
  NoDup l → l !! i = Some x → y ∈ delete i l ↔ y ∈ l ∧ y ≠ x.
Proof.
  intros Hnd Hi. pose proof (delete_Permutation l i x Hi) as Hperm.
  remember (delete i l) as rest eqn:Hrest. clear Hrest.
  rewrite Hperm in Hnd. apply NoDup_cons in Hnd as [Hx _].
  rewrite Hperm, elem_of_cons. intuition congruence.
Qed.

(** X4.  [Database.toggleFavourite] keeps the favourite relation free of
    repeated records: if no (user, restaurant) pair occurs twice in the
    store, none does after any sequence of toggles.  The seeded store
    starts with no favourites at all. *)
Theorem Database_toggleFavourite_keeps_pairs_unique st calls :
  uniqueFavourites st → uniqueFavourites (toggleFavourites st calls).
Proof.
  revert st. induction calls as [|[[[t1 t2] u] r] calls IH]; intros st Hst; [done|].
  simpl. apply IH. by apply toggleFavourite_keeps_unique.
Qed.

Lemma Database_toggleFavourite_keeps_pairs_unique_witness :
  uniqueFavourites
    (toggleFavourites emptyStore
       [(1772000000000, 1772000000000, "customer-1", "rest-1");
        (1772000000500, 1772000000500, "customer-1", "rest-4");
        (1772000001000, 1772000001000, "customer-1", "rest-1");
        (1772000001500, 1772000001500, "customer-2", "rest-1")]).
Proof.
  apply Database_toggleFavourite_keeps_pairs_unique. apply NoDup_nil_2.
Defined.

(** X5.  In a store without repeated favourite records the value
    [toggleFavourite] returns is the new membership of the pair, which is
    the negation of the old one, and the membership of every other pair is
    as before. *)
Theorem Database_toggleFavourite_flips_one_pair st t1 t2 u r :
  uniqueFavourites st →
  fst (toggleFavourite st t1 t2 u r) = negb (isFavourite st u r)
  ∧ isFavourite (snd (toggleFavourite st t1 t2 u r)) u r
    = fst (toggleFavourite st t1 t2 u r)
  ∧ ∀ u' r', (u', r') ≠ (u, r) →
      isFavourite (snd (toggleFavourite st t1 t2 u r)) u' r' = isFavourite st u' r'.
Proof.
  unfold uniqueFavourites. intros Hnd. rewrite !isFavourite_pairs.
  destruct (toggleFavourite_pairs st t1 t2 u r)
    as [(Habs & -> & Hpairs)|(i & Hi & -> & Hpairs)].
  - split_and!.
    + by rewrite bool_decide_eq_false_2.
    + rewrite Hpairs. apply bool_decide_eq_true_2, elem_of_app. right.
      apply list_elem_of_singleton. done.
    + intros u' r' Hne. rewrite isFavourite_pairs, Hpairs, isFavourite_pairs.
      apply bool_decide_ext. rewrite elem_of_app, list_elem_of_singleton.
      intuition congruence.
  - assert ((u, r) ∈ favouritePair <$> FAVOURITES st) as Hin
      by (by eapply list_elem_of_lookup_2).
    split_and!.
    + by rewrite bool_decide_eq_true_2.
    + rewrite Hpairs. apply bool_decide_eq_false_2.
      rewrite (elem_of_delete_NoDup _ _ _ _ Hnd Hi). intuition congruence.
    + intros u' r' Hne. rewrite isFavourite_pairs, Hpairs, isFavourite_pairs.
      apply bool_decide_ext.
      rewrite (elem_of_delete_NoDup _ _ _ _ Hnd Hi). intuition congruence.
Qed.

Lemma Database_toggleFavourite_flips_one_pair_witness :
  fst (toggleFavourite emptyStore 1772000000000 1772000000000 "customer-1" "rest-1")
  = negb (isFavourite emptyStore "customer-1" "rest-1")
  ∧ isFavourite
      (snd (toggleFavourite emptyStore 1772000000000 1772000000000
              "customer-1" "rest-1")) "customer-1" "rest-1"
    = fst (toggleFavourite emptyStore 1772000000000 1772000000000
             "customer-1" "rest-1")
  ∧ ∀ u' r', (u', r') ≠ ("customer-1", "rest-1") →
      isFavourite
        (snd (toggleFavourite emptyStore 1772000000000 1772000000000
                "customer-1" "rest-1")) u' r'
      = isFavourite emptyStore u' r'.
Proof.
  apply Database_toggleFavourite_flips_one_pair. apply NoDup_nil_2.
Defined.

End DatabaseFavourites.

Section DatabaseFavouriteRoundTrip.

Import Database Samples.

(** X6.  In a store without repeated favourite records two toggles of one
    pair in succession answer the negation of its membership and then its
    membership, and afterwards every pair, the toggled one included, is a
    favourite exactly when it was before. *)
Theorem Database_toggleFavourite_twice_restores st t1 t2 t3 t4 u r :
  uniqueFavourites st →
  let first := toggleFavourite st t1 t2 u r in
  let second := toggleFavourite (snd first) t3 t4 u r in
  fst first = negb (isFavourite st u r)
  ∧ fst second = isFavourite st u r
  ∧ ∀ u' r', isFavourite (snd second) u' r' = isFavourite st u' r'.
Proof.
  intros Hnd first second.
  pose proof (toggleFavourite_keeps_unique st t1 t2 u r Hnd) as Hnd1.
  fold first in Hnd1. unfold uniqueFavourites in Hnd, Hnd1.
  rewrite !isFavourite_pairs.
  destruct (toggleFavourite_pairs st t1 t2 u r)
    as [(Habs & Hres1 & Hpairs1)|(i & Hi & Hres1 & Hpairs1)];
    fold first in Hres1, Hpairs1;
    destruct (toggleFavourite_pairs (snd first) t3 t4 u r)
      as [(Habs2 & Hres2 & Hpairs2)|(j & Hj & Hres2 & Hpairs2)];
    fold second in Hres2, Hpairs2.
  - exfalso. apply Habs2. rewrite Hpairs1. apply elem_of_app. right.
    by apply list_elem_of_singleton.
  - rewrite Hres1, Hres2, bool_decide_eq_false_2 by done.
    split_and!; [done|done|]. intros u' r'.
    rewrite !isFavourite_pairs, Hpairs2. apply bool_decide_ext.
    rewrite (elem_of_delete_NoDup _ _ _ _ Hnd1 Hj), Hpairs1.
    rewrite elem_of_app, list_elem_of_singleton. intuition congruence.
  - assert ((u, r) ∈ favouritePair <$> FAVOURITES st) as Hin
      by (by eapply list_elem_of_lookup_2).
    rewrite Hres1, Hres2, bool_decide_eq_true_2 by done.
    split_and!; [done|done|]. intros u' r'.
    rewrite !isFavourite_pairs, Hpairs2, Hpairs1. apply bool_decide_ext.
    rewrite elem_of_app, list_elem_of_singleton.
    rewrite (elem_of_delete_NoDup _ _ _ _ Hnd Hi).
    destruct (decide ((u', r') = (u, r))) as [->|]; intuition congruence.
  - exfalso. apply list_elem_of_lookup_2 in Hj. rewrite Hpairs1 in Hj.
    apply (elem_of_delete_NoDup _ _ _ _ Hnd Hi) in Hj as [_ Hne]. done.
Qed.

Lemma Database_toggleFavourite_twice_restores_witness :
  let st := toggleFavourites emptyStore
              [(1772000000000, 1772000000000, "customer-1", "rest-1")] in
  let first := toggleFavourite st 1772000000500 1772000000500 "customer-1" "rest-1" in
  let second := toggleFavourite (snd first) 1772000001000 1772000001000
                  "customer-1" "rest-1" in
  fst first = negb (isFavourite st "customer-1" "rest-1")
  ∧ fst second = isFavourite st "customer-1" "rest-1"
  ∧ ∀ u' r', isFavourite (snd second) u' r' = isFavourite st u' r'.
Proof.
  apply Database_toggleFavourite_twice_restores.
  unfold uniqueFavourites. simpl. apply NoDup_singleton.
Defined.

(** X7.  [Database.getFavouriteRestaurants] lists exactly the restaurants
    of the store that [getRestaurantById] returns for their own id and that
    are favourites of the user; a favourite whose restaurant is not in the
    store is passed over. *)
Theorem Database_getFavouriteRestaurants_spec st userId r :
  r ∈ getFavouriteRestaurants st userId
  ↔ isFavourite st userId (rst_id r) = true
    ∧ getRestaurantById st (rst_id r) = Some r.
Proof.
  unfold getFavouriteRestaurants, getFavouritesByUser, getRestaurantById.
  rewrite list_elem_of_omap, isFavourite_pairs, bool_decide_eq_true.
  rewrite list_elem_of_fmap. split.
  - intros (f & [Hu Hf]%list_elem_of_filter & Hfind).
    pose proof (find_Some _ _ _ Hfind) as [_ Hid]. simpl in Hid.
    rewrite Hid. split; [|done].
    exists f. split; [|done]. unfold favouritePair. by rewrite Hu.
  - intros [(f & Hpair & Hf) Hfind]. unfold favouritePair in Hpair.
    injection Hpair as Hu Hr. exists f. split.
    + apply list_elem_of_filter. by split.
    + by rewrite <- Hr.
Qed.

End DatabaseFavouriteRoundTrip.

Section MockAvailabilityMoves.

Import MockDatabase Samples.

Lemma alter_alter_same {A : Type} (f : A → A) (l : list A) (i : nat) :
  (∀ x, f (f x) = f x) → alter f i (alter f i l) = alter f i l.
Proof.
  intros Hidem. revert i.
  induction l as [|x l IH]; intros [|i]; f_equal/=; auto.
Qed.

(** [MockDatabase.getAvailableSeats] in terms of the confirmed guests,
    for known and unknown restaurants alike. *)
Lemma MockDatabase_getAvailableSeats_alt st R D S :
  getAvailableSeats st R D S
  = match getRestaurant st R with
    | Some r => Z.max 0 (rst_totalSeats r - confirmedGuests (bookings st) R D S)
    | None => 0
    end.
Proof.
  destruct (getRestaurant st R) as [r|] eqn:Hr.
  - by apply MockDatabase_getAvailableSeats_known.
  - unfold getAvailableSeats. by rewrite Hr.
Qed.

Lemma confirmedGuests_push bs b R D S :
  confirmedGuests (push bs b) R D S = confirmedGuests bs R D S + guestsHeld b R D S.
Proof.
  unfold push, confirmedGuests. rewrite sumOver_app. simpl.
  unfold guestsHeld. lia.
Qed.

(** X8.  A request that [MockDatabase.createBooking] accepts, for a known
    restaurant and a number of guests that is not negative, lowers the
    availability of its slot by exactly its guests and leaves the
    availability of every other slot as it was. *)
Theorem MockDatabase_createBooking_takes_guests st id t b nb st' r R D S :
  getRestaurant st (bi_restaurantId b) = Some r →
  0 ≤ bi_guests b →
  createBooking st id t b = (inl nb, st') →
  getAvailableSeats st' R D S
  = getAvailableSeats st R D S
    - (if bool_decide (R = bi_restaurantId b ∧ D = bi_date b ∧ S = bi_timeSlot b)
       then bi_guests b else 0).
Proof.
  intros Hr Hpos. unfold createBooking. case_decide as Hfull; [done|].
  intros [= <- <-]. rewrite !MockDatabase_getAvailableSeats_alt.
  unfold getRestaurant at 1. simpl. fold (getRestaurant st R).
  rewrite MockDatabase_getAvailableSeats_alt, Hr in Hfull.
  case_bool_decide as Hslot.
  - destruct Hslot as (-> & -> & ->). rewrite Hr.
    rewrite confirmedGuests_push. unfold guestsHeld. simpl.
    rewrite !bool_decide_eq_true_2 by done. simpl. lia.
  - destruct (getRestaurant st R) as [r'|]; [|done].
    rewrite confirmedGuests_push. unfold guestsHeld. simpl.
    repeat case_bool_decide; simpl; try lia. exfalso. by apply Hslot.
Qed.

Lemma MockDatabase_createBooking_takes_guests_witness :
  getAvailableSeats
    (snd (createBooking mockStore "k3x9q0a1b" 1772000000000 (mockRequest 40)))
    "1" "2026-03-01" "6:00 PM - 8:00 PM"
  = getAvailableSeats mockStore "1" "2026-03-01" "6:00 PM - 8:00 PM"
    - (if bool_decide ("1" = bi_restaurantId (mockRequest 40)
                       ∧ "2026-03-01" = bi_date (mockRequest 40)
                       ∧ "6:00 PM - 8:00 PM" = bi_timeSlot (mockRequest 40))
       then bi_guests (mockRequest 40) else 0).
Proof.
  eapply (MockDatabase_createBooking_takes_guests mockStore "k3x9q0a1b"
            1772000000000 (mockRequest 40)).
  - reflexivity.
  - simpl. lia.
  - reflexivity.
Defined.

(** X9.  [MockDatabase.cancelBooking] is idempotent: cancelling the same
    id a second time changes nothing more. *)
Theorem MockDatabase_cancelBooking_idempotent st bookingId :
  cancelBooking (cancelBooking st bookingId) bookingId = cancelBooking st bookingId.
Proof.
  unfold cancelBooking at 2 3. unfold findIndex.
  destruct (list_find (λ b, bk_id b = bookingId) (bookings st)) as [[i b]|] eqn:Hf;
    simpl.
  - unfold cancelBooking, findIndex. simpl.
    erewrite list_find_alter; [|exact Hf|]; simpl.
    + by rewrite alter_alter_same.
    + by apply list_find_Some in Hf as (_ & ? & _).
  - unfold cancelBooking, findIndex. by rewrite Hf.
Qed.

(** X10.  Booking and then cancelling gives the seats back: after an
    accepted [createBooking] whose id no earlier booking carries,
    [cancelBooking] of that id returns every slot to the availability it
    had before the booking. *)
Theorem MockDatabase_book_then_cancel st id t b nb st' R D S :
  (∀ x, x ∈ bookings st → bk_id x ≠ id) →
  createBooking st id t b = (inl nb, st') →
  getAvailableSeats (cancelBooking st' id) R D S = getAvailableSeats st R D S.
Proof.
  intros Hfresh. unfold createBooking. case_decide as Hfull; [done|].
  intros [= <- <-]. unfold cancelBooking, findIndex. simpl.
  rewrite list_find_fresh_push by done. simpl.
  rewrite !MockDatabase_getAvailableSeats_alt.
  unfold getRestaurant. simpl. destruct (find _ (restaurants st)) as [r|]; [|done].
  do 2 f_equal. unfold push, confirmedGuests.
  replace (length (bookings st)) with (length (bookings st) + 0)%nat by lia.
  rewrite alter_app_r, sumOver_app. simpl.
  rewrite andb_false_r. lia.
Qed.

Lemma MockDatabase_book_then_cancel_witness :
  getAvailableSeats
    (cancelBooking
       (snd (createBooking mockStore "k3x9q0a1b" 1772000000000 (mockRequest 40)))
       "k3x9q0a1b") "1" "2026-03-01" "6:00 PM - 8:00 PM"
  = getAvailableSeats mockStore "1" "2026-03-01" "6:00 PM - 8:00 PM".
Proof.
  eapply (MockDatabase_book_then_cancel mockStore "k3x9q0a1b" 1772000000000
            (mockRequest 40)).
  - intros x Hx. by apply elem_of_nil in Hx.
  - reflexivity.
Defined.

End MockAvailabilityMoves.

(** * Further properties of the booking service's fallback *)

Section BookingServiceReads.

Import Service DemoData BookingService Samples.

(** No seed booking carries an id of the form the fallback mints. *)
Lemma seed_booking_ids_not_minted (suffix : string) :
  find (λ b, bk_id b = "booking-demo-" +:+ suffix) DEMO_BOOKINGS = None.
Proof.
  apply find_None. intros b Hb.
  repeat (apply elem_of_cons in Hb as [->|Hb]; [simpl; discriminate|]).
  by apply elem_of_nil in Hb.
Qed.

Lemma find_fresh_push {A : Type} (P : A → Prop) `{∀ x, Decision (P x)}
    (l : list A) (y : A) :
  (∀ x, x ∈ l → ¬ P x) → P y → find P (push l y) = Some y.
Proof.
  intros Hfresh HPy. unfold find. by rewrite list_find_fresh_push.
Qed.

(** X11.  A booking created on the fallback path can be read back: when
    no overlay booking already carries the id minted from the clock
    reading, [getBookingById] of the new booking's id returns that
    booking. *)
Theorem BookingService_createBooking_read_back ls tId tCreated tUpdated data b ls' :
  (∀ x, x ∈ getAllLocalBookings ls → bk_id x ≠ "booking-demo-" +:+ pretty tId) →
  createBooking None ls tId tCreated tUpdated data = (Ok b, ls') →
  getBookingById None ls' (bk_id b) = Ok b.
Proof.
  intros Hfresh. unfold createBooking.
  destruct (getStoredUser ls) as [user|]; [|done].
  destruct (find _ DEMO_RESTAURANTS) as [restaurant|]; [|done].
  intros [= <- <-]. unfold getBookingById. simpl bk_id.
  rewrite seed_booking_ids_not_minted.
  unfold saveDemoBooking, getAllLocalBookings at 1. simpl.
  by rewrite find_fresh_push.
Qed.

Lemma BookingService_createBooking_read_back_witness :
  ∃ b,
    createBooking None signedIn 1772000000000 1772000000000 1772000000000
      (serviceRequest 4) = (Ok b, afterBooking signedIn 1772000000000 4)
    ∧ getBookingById None (afterBooking signedIn 1772000000000 4) (bk_id b) = Ok b.
Proof.
  eexists. split; [reflexivity|].
  apply (BookingService_createBooking_read_back signedIn 1772000000000
           1772000000000 1772000000000 (serviceRequest 4)).
  - intros x Hx. by apply elem_of_nil in Hx.
  - reflexivity.
Defined.

End BookingServiceReads.

Section BookingServiceWrites.

Import Service DemoData BookingService Samples.

Lemma overlay_find_absent ls id :
  (∀ x, x ∈ getAllLocalBookings ls → bk_id x ≠ id) →
  list_find (λ b, bk_id b = id) (getAllLocalBookings ls) = None.
Proof. intros Habs. apply list_find_None, Forall_forall. exact Habs. Qed.

(** X12.  Seed bookings are read-only on the fallback path: for a seed
    booking whose id no overlay booking carries, [getBookingById] returns
    it, while [cancelBooking], [updateBookingStatus] and [updateBooking]
    all throw "Booking not found" and leave localStorage as it was. *)
Theorem BookingService_seed_bookings_read_only ls tUpdated b status data :
  b ∈ DEMO_BOOKINGS →
  (∀ x, x ∈ getAllLocalBookings ls → bk_id x ≠ bk_id b) →
  getBookingById None ls (bk_id b) = Ok b
  ∧ cancelBooking None ls tUpdated (bk_id b) = (Throw "Booking not found", ls)
  ∧ updateBookingStatus None ls tUpdated (bk_id b) status
    = (Throw "Booking not found", ls)
  ∧ updateBooking None ls tUpdated (bk_id b) data
    = (Throw "Booking not found", ls).
Proof.
  intros Hseed Habs. split_and!.
  - unfold getBookingById.
    repeat (apply elem_of_cons in Hseed as [->|Hseed]; [reflexivity|]).
    by apply elem_of_nil in Hseed.
  - unfold cancelBooking. by rewrite overlay_find_absent.
  - unfold updateBookingStatus. by rewrite overlay_find_absent.
  - unfold updateBooking. by rewrite overlay_find_absent.
Qed.

(** X13.  The fallback [updateBooking] rewrites the booking in place and
    cannot touch its identity: for an overlay booking whose id no seed
    booking carries, the call succeeds, reading the booking back by its id
    gives the returned record, and that record has the id, user, status,
    creation time and restaurant snapshot of the stored one and the clock
    reading as [updatedAt]; the overlay keeps its length. *)
Theorem BookingService_updateBooking_read_back ls tUpdated id data b :
  find (λ x, bk_id x = id) DEMO_BOOKINGS = None →
  find (λ x, bk_id x = id) (getAllLocalBookings ls) = Some b →
  ∃ b' ls',
    updateBooking None ls tUpdated id data = (Ok b', ls')
    ∧ getBookingById None ls' id = Ok b'
    ∧ bk_id b' = id
    ∧ bk_userId b' = bk_userId b
    ∧ bk_status b' = bk_status b
    ∧ bk_createdAt b' = bk_createdAt b
    ∧ bk_restaurant b' = bk_restaurant b
    ∧ bk_updatedAt b' = tUpdated
    ∧ length (getAllLocalBookings ls') = length (getAllLocalBookings ls).
Proof.
  intros Hseed Hlocal. unfold find in Hlocal.
  destruct (list_find _ (getAllLocalBookings ls)) as [[i x]|] eqn:Hf; [|done].
  simpl in Hlocal. injection Hlocal as ->.
  pose proof Hf as (_ & Hid & _)%list_find_Some.
  unfold updateBooking. rewrite Hf. eexists _, _.
  split; [reflexivity|]. split_and!; try done.
  - unfold getBookingById. rewrite Hseed.
    unfold find, getAllLocalBookings at 1. simpl.
    by erewrite list_find_insert_same.
  - unfold getAllLocalBookings at 1. simpl. by rewrite length_insert.
Qed.

Lemma BookingService_updateBooking_read_back_witness :
  ∃ b b' ls',
    find (λ x, bk_id x = "booking-demo-1772000000000")
      (getAllLocalBookings (afterBooking signedIn 1772000000000 4)) = Some b
    ∧ updateBooking None (afterBooking signedIn 1772000000000 4) 1772000090000
        "booking-demo-1772000000000"
        {| bc_restaurantId := None; bc_date := Some "2026-03-02";
           bc_timeSlot := None; bc_seats := Some 6; bc_customerName := None;
           bc_customerEmail := None; bc_customerPhone := None;
           bc_specialRequests := Some (Some "Near the window") |}
      = (Ok b', ls')
    ∧ getBookingById None ls' "booking-demo-1772000000000" = Ok b'
    ∧ bk_id b' = "booking-demo-1772000000000"
    ∧ bk_userId b' = bk_userId b
    ∧ bk_status b' = bk_status b
    ∧ bk_createdAt b' = bk_createdAt b
    ∧ bk_restaurant b' = bk_restaurant b
    ∧ bk_updatedAt b' = 1772000090000
    ∧ length (getAllLocalBookings ls')
      = length (getAllLocalBookings (afterBooking signedIn 1772000000000 4)).
Proof.
  eexists.
  assert (find (λ x, bk_id x = "booking-demo-1772000000000")
            (getAllLocalBookings (afterBooking signedIn 1772000000000 4)) = Some _)
    as Hfound by reflexivity.
  destruct (BookingService_updateBooking_read_back
              (afterBooking signedIn 1772000000000 4) 1772000090000
              "booking-demo-1772000000000"
              {| bc_restaurantId := None; bc_date := Some "2026-03-02";
                 bc_timeSlot := None; bc_seats := Some 6; bc_customerName := None;
                 bc_customerEmail := None; bc_customerPhone := None;
                 bc_specialRequests := Some (Some "Near the window") |}
              _ (seed_booking_ids_not_minted "1772000000000") Hfound)
    as (b' & ls' & Hrest).
  exists b', ls'. split; [exact Hfound|exact Hrest].
Defined.

(** X14.  The manager's query is the admin's query restricted to one
    restaurant: for a restaurant id that is not the empty string,
    [getRestaurantBookings] with its status and date filters returns the
    same list as [getAllBookings] with those filters and the restaurant
    filter. *)
Theorem BookingService_restaurant_view_of_all ls restaurantId filters :
  restaurantId ≠ "" →
  getRestaurantBookings None ls restaurantId filters
  = getAllBookings None ls
      (Some {| af_status := filters ≫= bf_status;
               af_restaurantId := Some restaurantId;
               af_userId := None;
               af_date := filters ≫= bf_date |}).
Proof.
  intros Hne. unfold getRestaurantBookings, getAllBookings.
  cbn [mbind option_bind af_status af_restaurantId af_userId af_date].
  replace (truthy (Some restaurantId)) with (Some restaurantId)
    by (unfold truthy; by rewrite decide_False).
  cbn [truthy].
  destruct (truthy (filters ≫= bf_status)) as [status|]; [|done].
  by rewrite filter_comm.
Qed.

Lemma BookingService_restaurant_view_of_all_witness :
  getRestaurantBookings None twoThirties "rest-1"
    (Some {| bf_status := Some "pending"; bf_date := None |})
  = getAllBookings None twoThirties
      (Some {| af_status := Some "pending";
               af_restaurantId := Some "rest-1";
               af_userId := None;
               af_date := None |}).
Proof.
  apply (BookingService_restaurant_view_of_all twoThirties "rest-1"
           (Some {| bf_status := Some "pending"; bf_date := None |})).
  discriminate.
Defined.

(** The empty restaurant id shows why the hypothesis is there: the admin
    query ignores an empty filter and returns every booking, the manager
    query returns none. *)
Example BookingService_empty_restaurant_id :
  getRestaurantBookings None signedIn "" None = []
  ∧ length (getAllBookings None signedIn
              (Some {| af_status := None; af_restaurantId := Some "";
                       af_userId := None; af_date := None |})) = 5%nat.
Proof. split; reflexivity. Qed.

(** X15.  On the fallback path [getMyBookings] lists bookings of the
    stored user only, and a booking the user has just created is among
    them. *)
Theorem BookingService_getMyBookings_own ls user tId tCreated tUpdated data b ls' :
  getStoredUser ls = Some user →
  createBooking None ls tId tCreated tUpdated data = (Ok b, ls') →
  b ∈ getMyBookings None ls'
  ∧ Forall (λ x, bk_userId x = usr_id user) (getMyBookings None ls').
Proof.
  intros Huser. unfold createBooking. rewrite Huser.
  destruct (find _ DEMO_RESTAURANTS) as [restaurant|]; [|done].
  intros [= <- <-]. unfold getMyBookings, getStoredUser in *. simpl.
  rewrite Huser. split.
  - rewrite sortDesc_Permutation. apply elem_of_app. right.
    unfold getLocalBookingsByUserId, getAllLocalBookings. simpl.
    apply list_elem_of_filter. split; [done|].
    unfold push. apply elem_of_app. right. by apply list_elem_of_singleton.
  - rewrite sortDesc_Permutation. apply Forall_app. split.
    + unfold getDemoBookingsByUserId. apply Forall_forall.
      by intros x [? _]%list_elem_of_filter.
    + unfold getLocalBookingsByUserId. apply Forall_forall.
      by intros x [? _]%list_elem_of_filter.
Qed.

Lemma BookingService_getMyBookings_own_witness :
  ∃ b,
    createBooking None signedIn 1772000000000 1772000000000 1772000000000
      (serviceRequest 4) = (Ok b, afterBooking signedIn 1772000000000 4)
    ∧ b ∈ getMyBookings None (afterBooking signedIn 1772000000000 4)
    ∧ Forall (λ x, bk_userId x = usr_id rakib)
        (getMyBookings None (afterBooking signedIn 1772000000000 4)).
Proof.
  eexists. split; [reflexivity|].
  apply (BookingService_getMyBookings_own signedIn rakib 1772000000000
           1772000000000 1772000000000 (serviceRequest 4)).
  - reflexivity.
  - reflexivity.
Defined.

End BookingServiceWrites.

(** * Further properties of the review service's fallback *)

Section ReviewServiceWrites.

Import Service DemoData ReviewService Samples.

(** The witness of X12: the first seed booking with an empty overlay. *)
Lemma BookingService_seed_bookings_read_only_witness :
  ∃ b,
    DEMO_BOOKINGS !! 0%nat = Some b
    ∧ BookingService.getBookingById None signedIn (bk_id b) = Ok b
    ∧ BookingService.cancelBooking None signedIn 1772000000000 (bk_id b)
      = (Throw "Booking not found", signedIn)
    ∧ BookingService.updateBookingStatus None signedIn 1772000000000 (bk_id b)
        confirmed = (Throw "Booking not found", signedIn)
    ∧ BookingService.updateBooking None signedIn 1772000000000 (bk_id b)
        {| BookingService.bc_restaurantId := None;
           BookingService.bc_date := None;
           BookingService.bc_timeSlot := None;
           BookingService.bc_seats := Some 2;
           BookingService.bc_customerName := None;
           BookingService.bc_customerEmail := None;
           BookingService.bc_customerPhone := None;
           BookingService.bc_specialRequests := None |}
      = (Throw "Booking not found", signedIn).
Proof.
  eexists. split; [reflexivity|].
  apply BookingService_seed_bookings_read_only.
  - apply list_elem_of_here.
  - intros x Hx. by apply elem_of_nil in Hx.
Defined.

Lemma getAllLocalReviews_save ls reviews :
  getAllLocalReviews (saveAllLocalReviews ls reviews) = reviews.
Proof. reflexivity. Qed.

Lemma deleteReview_throws_when_absent ls id :
  Forall (λ r, rv_id r ≠ id) (getAllLocalReviews ls) →
  deleteReview None ls id = (Throw "Review not found", ls).
Proof.
  intros Habsent. unfold deleteReview.
  rewrite filter_all by (by apply Forall_forall). by rewrite decide_True.
Qed.

Lemma reviewWrite_keeps_ratings ls ls' :
  ratingsInRange ls → reviewWrite ls ls' → ratingsInRange ls'.
Proof.
  unfold ratingsInRange. intros Hinv [tId tCreated data|id data|id].
  - unfold createReview. destruct (getStoredUser ls); [|done].
    case_decide as Hbad; [done|].
    unfold saveDemoReview, getAllLocalReviews at 1. simpl.
    apply Forall_app. split; [done|]. apply Forall_singleton. simpl. lia.
  - unfold updateReview.
    destruct (list_find _ (getAllLocalReviews ls)) as [[i found]|] eqn:Hf; [|done].
    pose proof Hf as (Hi & _ & _)%list_find_Some.
    pose proof (Forall_lookup_1 _ _ _ _ Hinv Hi) as Hfound. simpl in Hfound.
    destruct (rc_rating data) as [rating|] eqn:Hrating.
    + case_decide as Hbad; [done|].
      unfold getAllLocalReviews at 1. simpl.
      apply Forall_insert; [done|]. simpl. rewrite Hrating. simpl. lia.
    + unfold getAllLocalReviews at 1. simpl.
      apply Forall_insert; [done|]. simpl. by rewrite Hrating.
  - unfold deleteReview. case_decide; [done|].
    unfold getAllLocalReviews at 1. simpl.
    apply Forall_forall. intros x [_ Hx]%list_elem_of_filter.
    by apply (proj1 (Forall_forall _ _) Hinv).
Qed.

(** X16.  The fallback keeps star ratings valid against every whole
    number: if every overlay review is rated between 1 and 5, then so is
    every overlay review after any sequence of fallback [createReview],
    [updateReview] and [deleteReview] calls whose ratings are whole
    numbers, whatever those numbers and the other arguments are.  The
    overlay starts empty. *)
Theorem ReviewService_ratings_stay_in_range ls ls' :
  ratingsInRange ls → rtc reviewWrite ls ls' → ratingsInRange ls'.
Proof.
  intros Hinv Hsteps. induction Hsteps as [|ls ls1 ls' Hstep _ IH]; [done|].
  apply IH. by eapply reviewWrite_keeps_ratings.
Qed.

Lemma ReviewService_ratings_stay_in_range_witness :
  ratingsInRange
    (snd (updateReview None
            (snd (createReview None signedIn 1772000000000 1772000000000
                    lovelyEvening))
            "review-demo-1772000000000"
            {| rc_restaurantId := None; rc_rating := Some 9; rc_comment := None |})).
Proof.
  apply (ReviewService_ratings_stay_in_range signedIn).
  - apply Forall_nil_2.
  - eapply rtc_l; [apply write_create|].
    eapply rtc_l; [apply write_update|]. apply rtc_refl.
Defined.

(** X17.  Creating a review and deleting it again is a round trip: when
    no overlay review already carries the minted id, deleting the new
    review succeeds and the overlay holds the reviews it held before. *)
Theorem ReviewService_create_then_delete ls tId tCreated data r ls1 :
  (∀ x, x ∈ getAllLocalReviews ls → rv_id x ≠ "review-demo-" +:+ pretty tId) →
  createReview None ls tId tCreated data = (Ok r, ls1) →
  ∃ ls2,
    deleteReview None ls1 (rv_id r) = (Ok (), ls2)
    ∧ getAllLocalReviews ls2 = getAllLocalReviews ls
    ∧ reservex_current_user ls2 = reservex_current_user ls
    ∧ reservex_demo_bookings ls2 = reservex_demo_bookings ls
    ∧ reservex_demo_favourites ls2 = reservex_demo_favourites ls.
Proof.
  intros Hfresh. unfold createReview.
  destruct (getStoredUser ls) as [user|]; [|done].
  case_decide as Hbad; [done|]. intros [= <- <-].
  eexists. unfold deleteReview, saveDemoReview.
  rewrite !getAllLocalReviews_save. simpl rv_id.
  unfold push. rewrite filter_app.
  rewrite filter_cons_False by (intros Hne; by apply Hne).
  rewrite filter_nil, app_nil_r, (filter_all _ _ Hfresh).
  rewrite decide_False by (rewrite length_app; simpl; lia).
  split_and!; reflexivity.
Qed.

Lemma ReviewService_create_then_delete_witness :
  ∃ r ls2,
    createReview None signedIn 1772000000000 1772000000000 lovelyEvening
    = (Ok r, oneLocalReview)
    ∧ deleteReview None oneLocalReview (rv_id r) = (Ok (), ls2)
    ∧ getAllLocalReviews ls2 = getAllLocalReviews signedIn
    ∧ reservex_current_user ls2 = reservex_current_user signedIn
    ∧ reservex_demo_bookings ls2 = reservex_demo_bookings signedIn
    ∧ reservex_demo_favourites ls2 = reservex_demo_favourites signedIn.
Proof.
  eexists.
  assert (createReview None signedIn 1772000000000 1772000000000 lovelyEvening
          = (Ok _, oneLocalReview)) as Hcreate by reflexivity.
  assert (∀ x, x ∈ getAllLocalReviews signedIn →
               rv_id x ≠ "review-demo-" +:+ pretty 1772000000000) as Hfresh
    by (intros x Hx; by apply elem_of_nil in Hx).
  destruct (ReviewService_create_then_delete signedIn 1772000000000
              1772000000000 lovelyEvening _ oneLocalReview Hfresh Hcreate)
    as (ls2 & Hrest).
  exists ls2. split; [exact Hcreate|exact Hrest].
Defined.

(** X18.  A successful fallback delete removes every overlay review that
    carries the id and keeps all others in their order; deleting the same
    id again then throws "Review not found". *)
Theorem ReviewService_deleteReview_removes ls id r :
  r ∈ getAllLocalReviews ls →
  rv_id r = id →
  ∃ ls',
    deleteReview None ls id = (Ok (), ls')
    ∧ getAllLocalReviews ls' = filter (λ x, rv_id x ≠ id) (getAllLocalReviews ls)
    ∧ deleteReview None ls' id = (Throw "Review not found", ls').
Proof.
  intros Hin Hid. unfold deleteReview at 1.
  rewrite decide_False.
  2:{ pose proof (length_filter_lt (λ x, rv_id x ≠ id) _ r Hin) as Hlt.
      intros Heq. rewrite Heq in Hlt.
      apply (Nat.lt_irrefl (length (getAllLocalReviews ls))), Hlt.
      intros Hne. by apply Hne. }
  eexists. split; [reflexivity|]. split; [reflexivity|].
  apply deleteReview_throws_when_absent. rewrite getAllLocalReviews_save.
  apply Forall_forall. by intros x [? _]%list_elem_of_filter.
Qed.

Lemma ReviewService_deleteReview_removes_witness :
  ∃ ls',
    deleteReview None oneLocalReview "review-demo-1772000000000" = (Ok (), ls')
    ∧ getAllLocalReviews ls'
      = filter (λ x, rv_id x ≠ "review-demo-1772000000000")
          (getAllLocalReviews oneLocalReview)
    ∧ deleteReview None ls' "review-demo-1772000000000"
      = (Throw "Review not found", ls').
Proof.
  eapply (ReviewService_deleteReview_removes oneLocalReview
            "review-demo-1772000000000").
  - apply list_elem_of_here.
  - reflexivity.
Defined.

End ReviewServiceWrites.

(** * Further properties of the favourite service's fallback *)

Section PersonalLists.

Import Service DemoData Samples.

(** X19.  The two other personal lists are built like the user's
    bookings: on the fallback path [getMyReviews] and [getMyFavourites]
    return the stored user's seed records and overlay records, rearranged
    newest first, with nothing dropped. *)
Theorem my_reviews_and_favourites_sorted ls user :
  getStoredUser ls = Some user →
  sortedMerge rv_createdAt rv_id
    (filter (λ r, rv_userId r = usr_id user) DEMO_REVIEWS)
    (filter (λ r, rv_userId r = usr_id user) (ReviewService.getAllLocalReviews ls))
    (ReviewService.getMyReviews None ls)
  ∧ sortedMerge fav_createdAt fav_id
      (filter (λ f, fav_userId f = usr_id user) DEMO_FAVOURITES)
      (filter (λ f, fav_userId f = usr_id user)
         (FavouriteService.getAllLocalFavourites ls))
      (FavouriteService.getMyFavourites None ls).
Proof.
  intros Huser. unfold sortedMerge, ReviewService.getMyReviews,
    FavouriteService.getMyFavourites. rewrite Huser.
  split_and!;
    first [apply sortDesc_Permutation|apply sortDesc_sorted|apply sortDesc_NoDup].
Qed.

Lemma my_reviews_and_favourites_sorted_witness :
  sortedMerge rv_createdAt rv_id
    (filter (λ r, rv_userId r = usr_id rakib) DEMO_REVIEWS)
    (filter (λ r, rv_userId r = usr_id rakib)
       (ReviewService.getAllLocalReviews oneLocalReview))
    (ReviewService.getMyReviews None oneLocalReview)
  ∧ sortedMerge fav_createdAt fav_id
      (filter (λ f, fav_userId f = usr_id rakib) DEMO_FAVOURITES)
      (filter (λ f, fav_userId f = usr_id rakib)
         (FavouriteService.getAllLocalFavourites oneLocalReview))
      (FavouriteService.getMyFavourites None oneLocalReview).
Proof.
  apply (my_reviews_and_favourites_sorted oneLocalReview rakib). reflexivity.
Defined.

End PersonalLists.

Section FavouriteServiceWrites.

Import Service DemoData FavouriteService Samples.

Lemma getAllLocalFavourites_save ls favourites :
  getAllLocalFavourites (saveAllLocalFavourites ls favourites) = favourites.
Proof. reflexivity. Qed.

Lemma some_overlay_pair (u r : string) (l : list Favourite) :
  some (λ f, fav_userId f = u ∧ fav_restaurantId f = r) l
  = bool_decide ((u, r) ∈ overlayPair <$> l).
Proof.
  unfold some. apply bool_decide_ext.
  rewrite Exists_exists, list_elem_of_fmap. unfold overlayPair. split.
  - intros (f & Hf & <- & <-). by exists f.
  - intros (f & [= -> ->] & Hf). by exists f.
Qed.

Lemma addFavourite_keeps_unique ls tId tCreated R :
  uniqueOverlayFavourites ls →
  uniqueOverlayFavourites (snd (addFavourite None ls tId tCreated R)).
Proof.
  unfold uniqueOverlayFavourites, addFavourite. intros Hnd.
  destruct (getStoredUser ls) as [user|]; [|done].
  destruct (some _ (getAllLocalFavourites ls)) eqn:Halready; [done|].
  destruct (find _ DEMO_RESTAURANTS) as [restaurant|]; [|done].
  unfold saveDemoFavourite. cbn [snd]. rewrite getAllLocalFavourites_save.
  unfold push. rewrite fmap_app. apply NoDup_app.
  split_and!; [done| |apply NoDup_singleton].
  intros q Hq ->%list_elem_of_singleton.
  rewrite some_overlay_pair in Halready.
  by apply bool_decide_eq_false in Halready.
Qed.

Lemma removeFavourite_keeps_unique ls R :
  uniqueOverlayFavourites ls →
  uniqueOverlayFavourites (snd (removeFavourite None ls R)).
Proof.
  unfold uniqueOverlayFavourites, removeFavourite. intros Hnd.
  destruct (getStoredUser ls) as [user|]; [|done].
  cbn [snd]. rewrite getAllLocalFavourites_save.
  eapply sublist_NoDup; [exact Hnd|]. apply fmap_sublist, sublist_filter.
Qed.

Lemma favouriteWrite_keeps_unique ls ls' :
  uniqueOverlayFavourites ls → favouriteWrite ls ls' → uniqueOverlayFavourites ls'.
Proof.
  intros Hnd [tId tCreated R|R|tId tCreated R].
  - by apply addFavourite_keeps_unique.
  - by apply removeFavourite_keeps_unique.
  - unfold toggleFavourite. cbn [req_toggle req_check req_add req_remove unreachable].
    destruct (isFavourite None ls R).
    + pose proof (removeFavourite_keeps_unique ls R Hnd) as Hrem.
      by destruct (removeFavourite None ls R) as [[?|?] ?].
    + pose proof (addFavourite_keeps_unique ls tId tCreated R Hnd) as Hadd.
      by destruct (addFavourite None ls tId tCreated R) as [[?|?] ?].
Qed.

(** X20.  The overlay never holds two favourites for the same user and
    restaurant: if it holds none, it holds none after any sequence of
    fallback [addFavourite], [removeFavourite] and [toggleFavourite]
    calls.  The overlay starts empty. *)
Theorem FavouriteService_overlay_stays_unique ls ls' :
  uniqueOverlayFavourites ls → rtc favouriteWrite ls ls' →
  uniqueOverlayFavourites ls'.
Proof.
  intros Hinv Hsteps. induction Hsteps as [|ls ls1 ls' Hstep _ IH]; [done|].
  apply IH. by eapply favouriteWrite_keeps_unique.
Qed.

Lemma FavouriteService_overlay_stays_unique_witness :
  uniqueOverlayFavourites
    (snd (toggleFavourite unreachable
            (snd (addFavourite None oneLocalFavourite 1772000060000
                    1772000060000 "rest-2"))
            1772000120000 1772000120000 "rest-4")).
Proof.
  apply (FavouriteService_overlay_stays_unique signedIn).
  - apply NoDup_nil_2.
  - eapply rtc_l; [apply (write_add signedIn 1772000000000 1772000000000 "rest-2")|].
    eapply rtc_l; [apply write_add|].
    eapply rtc_l; [apply write_toggle|]. apply rtc_refl.
Defined.

End FavouriteServiceWrites.

Section FavouriteServiceReads.

Import Service DemoData FavouriteService Samples.

(** X21.  For a stored user the fallback [removeFavourite] always
    succeeds, leaves no overlay favourite for that user and restaurant,
    keeps every other overlay favourite in its order, and is idempotent:
    removing again returns the same localStorage. *)
Theorem FavouriteService_removeFavourite_removes ls user R :
  getStoredUser ls = Some user →
  ∃ ls',
    removeFavourite None ls R = (Ok (), ls')
    ∧ getAllLocalFavourites ls'
      = filter (λ f, overlayPair f ≠ (usr_id user, R)) (getAllLocalFavourites ls)
    ∧ ((usr_id user, R) ∉ overlayPair <$> getAllLocalFavourites ls')
    ∧ removeFavourite None ls' R = (Ok (), ls').
Proof.
  intros Huser.
  assert (∀ l : list Favourite,
            filter (λ f, ¬ (fav_userId f = usr_id user ∧ fav_restaurantId f = R)) l
            = filter (λ f, overlayPair f ≠ (usr_id user, R)) l) as Hfilter.
  { intros l. apply list_filter_iff. intros f. unfold overlayPair.
    split; intros Hne Heq; apply Hne; [by injection Heq|by destruct Heq as [-> ->]]. }
  unfold removeFavourite at 1. rewrite Huser, Hfilter.
  eexists. split; [reflexivity|]. rewrite getAllLocalFavourites_save.
  split_and!; [reflexivity| |].
  - intros (f & Heq & [Hne _]%list_elem_of_filter)%list_elem_of_fmap.
    congruence.
  - set (kept := filter (λ f, overlayPair f ≠ (usr_id user, R))
                   (getAllLocalFavourites ls)).
    assert (filter (λ f, overlayPair f ≠ (usr_id user, R)) kept = kept) as Hidem.
    { apply filter_all. by intros f [? _]%list_elem_of_filter. }
    unfold removeFavourite.
    change (getStoredUser (saveAllLocalFavourites ls kept)) with (getStoredUser ls).
    by rewrite Huser, getAllLocalFavourites_save, Hfilter, Hidem.
Qed.

Lemma FavouriteService_removeFavourite_removes_witness :
  ∃ ls',
    removeFavourite None oneLocalFavourite "rest-2" = (Ok (), ls')
    ∧ getAllLocalFavourites ls'
      = filter (λ f, overlayPair f ≠ (usr_id rakib, "rest-2"))
          (getAllLocalFavourites oneLocalFavourite)
    ∧ ((usr_id rakib, "rest-2") ∉ overlayPair <$> getAllLocalFavourites ls')
    ∧ removeFavourite None ls' "rest-2" = (Ok (), ls').
Proof.
  apply (FavouriteService_removeFavourite_removes oneLocalFavourite rakib "rest-2").
  reflexivity.
Defined.

(** X22.  The two fallback reads agree: [isFavourite] answers true for a
    restaurant exactly when [getMyFavourites] lists a favourite for it,
    signed in or not. *)
Theorem FavouriteService_isFavourite_iff_listed ls R :
  isFavourite None ls R = true
  ↔ ∃ f, f ∈ getMyFavourites None ls ∧ fav_restaurantId f = R.
Proof.
  unfold isFavourite, getMyFavourites.
  destruct (getStoredUser ls) as [user|].
  2:{ split; [done|]. by intros (f & ?%elem_of_nil & _). }
  unfold isDemoFavourite, getDemoFavouritesByUserId, getLocalFavouritesByUserId.
  setoid_rewrite sortDesc_Permutation. setoid_rewrite elem_of_app.
  setoid_rewrite list_elem_of_filter.
  destruct (some _ DEMO_FAVOURITES) eqn:Hdemo.
  - split; [intros _|done].
    apply some_true, Exists_exists in Hdemo as (f & Hf & Hu & Hr).
    exists f. split; [left|]; done.
  - apply some_false in Hdemo. rewrite Forall_forall in Hdemo.
    rewrite some_true, Exists_exists. split.
    + intros (f & Hf & Hu & Hr). exists f. split; [right|]; done.
    + intros (f & [[Hu Hf]|[Hu Hf]] & Hr).
      * exfalso. by apply (Hdemo f Hf).
      * by exists f.
Qed.

(** X23.  A favourite added on the fallback path is seen by
    [isFavourite], and adding the same restaurant again is refused with
    "Restaurant is already in your favourites" without touching
    localStorage. *)
Theorem FavouriteService_addFavourite_once ls tId tCreated tId' tCreated' R f ls' :
  addFavourite None ls tId tCreated R = (Ok f, ls') →
  isFavourite None ls' R = true
  ∧ addFavourite None ls' tId' tCreated' R
    = (Throw "Restaurant is already in your favourites", ls').
Proof.
  unfold addFavourite at 1.
  destruct (getStoredUser ls) as [user|] eqn:Huser; [|done].
  destruct (some _ (getAllLocalFavourites ls)) eqn:Halready; [done|].
  destruct (find _ DEMO_RESTAURANTS) as [restaurant|]; [|done].
  intros [= <- <-].
  assert (some (λ f, fav_userId f = usr_id user ∧ fav_restaurantId f = R)
            (getAllLocalFavourites (saveDemoFavourite ls
               {| fav_id := "fav-demo-" +:+ pretty tId;
                  fav_userId := usr_id user;
                  fav_restaurantId := R;
                  fav_createdAt := tCreated;
                  fav_restaurant := Some
                    {| fr_id := rst_id restaurant;
                       fr_name := rst_name restaurant;
                       fr_cuisine := rst_cuisine restaurant;
                       fr_image := rst_image restaurant;
                       fr_rating := rst_rating restaurant;
                       fr_location := rst_location restaurant;
                       fr_priceRange := rst_priceRange restaurant |} |})) = true)
    as Hnow.
  { unfold saveDemoFavourite. rewrite getAllLocalFavourites_save.
    by apply some_push. }
  unfold isFavourite, addFavourite, getStoredUser in *. simpl reservex_current_user.
  rewrite Huser, Hnow. split; [by destruct (isDemoFavourite _ _)|done].
Qed.

Lemma FavouriteService_addFavourite_once_witness :
  ∃ f,
    addFavourite None signedIn 1772000000000 1772000000000 "rest-2"
    = (Ok f, oneLocalFavourite)
    ∧ isFavourite None oneLocalFavourite "rest-2" = true
    ∧ addFavourite None oneLocalFavourite 1772000060000 1772000060000 "rest-2"
      = (Throw "Restaurant is already in your favourites", oneLocalFavourite).
Proof.
  eexists. split; [reflexivity|].
  eapply (FavouriteService_addFavourite_once signedIn 1772000000000 1772000000000).
  reflexivity.
Defined.

End FavouriteServiceReads.

(** * Products of doubles *)

Section Binary64.

Lemma roundHalfEven_bounds (y : Q) :
  Qfloor y ≤ roundHalfEven y ≤ Qfloor y + 1.
Proof.
  unfold roundHalfEven. cbv zeta.
  destruct (_ ?= _)%Q; [destruct (Z.even _)|..]; lia.
Qed.

Lemma roundHalfEven_below (y : Q) (n : Z) :
  (y + (1 # 2) < inject_Z n)%Q → roundHalfEven y ≤ n - 1.
Proof.
  intros Hy. unfold roundHalfEven. cbv zeta.
  pose proof (Qfloor_le y) as Hfl.
  assert (Qfloor y ≤ n - 1) as Hle.
  { assert (inject_Z (Qfloor y) < inject_Z n)%Q as Hlt by lra.
    rewrite <- Zlt_Qlt in Hlt. lia. }
  destruct (Z.eq_dec (Qfloor y) (n - 1)) as [Heq|Hne].
  - assert (y - inject_Z (Qfloor y) < 1 # 2)%Q as Hfrac.
    { rewrite Heq. replace n with (n - 1 + 1) in Hy by lia.
      rewrite inject_Z_plus in Hy. change (inject_Z 1) with 1%Q in Hy. lra. }
    rewrite Qlt_alt in Hfrac. rewrite Hfrac. lia.
  - destruct (_ ?= _)%Q; [destruct (Z.even _)|..]; lia.
Qed.


(** The form of [binary64 x] for a non-negative [x]: a whole number [m] of
    units [2 ^ E] on the scale of [2 ^ -1074]. *)
Lemma binary64_nonneg_form (x : Q) :
  (0 <= x)%Q →
  ∃ E m : Z,
    E = Z.max 0 (Z.log2 (Qfloor (x * inject_Z (2 ^ 1074))) - 52)
    ∧ m = roundHalfEven (x * inject_Z (2 ^ 1074) / inject_Z (2 ^ E))
    ∧ binary64 x = (inject_Z (m * 2 ^ E) / inject_Z (2 ^ 1074))%Q.
Proof.
  intros Hx. eexists _, _. split; [reflexivity|]. split; [reflexivity|].
  unfold binary64. cbv zeta.
  assert (Qabs x = x) as ->.
  { destruct x as [a b]. unfold Qabs. f_equal. apply Z.abs_eq.
    unfold Qle in Hx. simpl in Hx. lia. }
  destruct (Qlt_le_dec x 0) as [Hneg|_]; [lra|reflexivity].
Qed.

Lemma pow2_pos (e : Z) : 0 ≤ e → (0 < inject_Z (2 ^ e))%Q.
Proof.
  intros He. change 0%Q with (inject_Z 0). rewrite <- Zlt_Qlt.
  by apply Z.pow_pos_nonneg.
Qed.

Lemma Qfloor_nonneg (y : Q) : (0 <= y)%Q → 0 ≤ Qfloor y.
Proof. intros Hy. change 0 with (Qfloor 0). by apply Qfloor_resp_le. Qed.

Lemma binary64_nonneg (x : Q) : (0 <= x)%Q → (0 <= binary64 x)%Q.
Proof.
  intros Hx. destruct (binary64_nonneg_form x Hx) as (E & m & HE & Hm & ->).
  assert (0 ≤ E) as HE0 by lia.
  pose proof (pow2_pos E HE0) as HU. pose proof (pow2_pos 1074 ltac:(lia)) as HP.
  assert (0 ≤ m) as Hm0.
  { rewrite Hm. etrans; [|apply roundHalfEven_bounds].
    apply Qfloor_nonneg. apply Qle_shift_div_l; [done|].
    rewrite Qmult_0_l. apply Qmult_le_0_compat; lra. }
  apply Qle_shift_div_l; [done|]. rewrite Qmult_0_l.
  change 0%Q with (inject_Z 0). rewrite <- Zle_Qle.
  apply Z.mul_nonneg_nonneg; [done|]. apply Z.pow_nonneg. lia.
Qed.


Lemma inject_Z_pow53 : inject_Z (2 ^ 53) = 9007199254740992%Q.
Proof. reflexivity. Qed.

(** A non-negative value that stays a factor 1 - 2^-53 below the whole
    number [k] is rounded to a double below [k]. *)
Lemma binary64_below (y : Q) (k : Z) :
  (0 <= y)%Q → 1 ≤ k ≤ 2 ^ 52 →
  (y * inject_Z (2 ^ 53) <= inject_Z k * (inject_Z (2 ^ 53) - 1))%Q →
  (binary64 y < inject_Z k)%Q.
Proof.
  intros Hy Hk Hyk.
  destruct (binary64_nonneg_form y Hy) as (E & m & HE & Hm & ->).
  rewrite inject_Z_pow53 in Hyk.
  assert (0 ≤ E) as HE0 by lia.
  pose proof (pow2_pos E HE0) as HU. pose proof (pow2_pos 1074 ltac:(lia)) as HP.
  assert (1 <= inject_Z k)%Q as Hk1.
  { change 1%Q with (inject_Z 1). rewrite <- Zle_Qle. lia. }
  set (F := Qfloor (y * inject_Z (2 ^ 1074))) in *.
  assert (0 ≤ F) as HF0.
  { apply Qfloor_nonneg. apply Qmult_le_0_compat; lra. }
  assert (F < k * 2 ^ 1074) as HFlt.
  { rewrite Zlt_Qlt, inject_Z_mult.
    eapply Qle_lt_trans; [apply Qfloor_le|].
    nra. }
  assert (E ≤ 1073) as HE1.
  { destruct (decide (F = 0)) as [HF|HF].
    - rewrite HF in HE. simpl in HE. lia.
    - assert (Z.log2 F < 1126); [|lia].
      apply Z.log2_lt_pow2; [lia|].
      assert (k * 2 ^ 1074 ≤ 2 ^ 52 * 2 ^ 1074) by (apply Z.mul_le_mono_nonneg_r; lia).
      rewrite <- Z.pow_add_r in H by lia. simpl Z.add in H. lia. }
  set (U := 2 ^ E) in *. set (W := 2 ^ (1074 - E)).
  assert (0 < U) as HU0 by (apply Z.pow_pos_nonneg; lia).
  assert (0 < W) as HW0 by (apply Z.pow_pos_nonneg; lia).
  assert (2 ^ 1074 = U * W) as HPW.
  { unfold U, W. rewrite <- Z.pow_add_r by lia. f_equal. lia. }
  assert (2 ^ 53 < 2 * (k * W)) as HN.
  { destruct (decide (Z.log2 F - 52 ≤ 0)) as [Hsmall|Hlarge].
    - assert (E = 0) as HEz by lia.
      assert (W = 2 ^ 1074) as -> by (unfold W; rewrite HEz; reflexivity).
      assert (1 * 2 ^ 1074 ≤ k * 2 ^ 1074) by (apply Z.mul_le_mono_nonneg_r; lia).
      assert (2 ^ 53 < 2 ^ 1074) by (apply Z.pow_lt_mono_r; lia).
      lia.
    - assert (0 < F) as HFpos.
      { destruct (decide (F = 0)) as [HF|HF]; [|lia].
        rewrite HF in Hlarge. simpl in Hlarge. lia. }
      destruct (Z.log2_spec F HFpos) as [Hlow _].
      assert (Z.log2 F = 52 + E) as HL by lia.
      rewrite HL, Z.pow_add_r in Hlow by lia. fold U in Hlow.
      rewrite HPW in HFlt.
      assert (2 ^ 52 * U < k * W * U) by lia.
      assert (2 ^ 52 < k * W) by (apply (Z.mul_lt_mono_pos_r U); lia).
      change (2 ^ 53) with (2 * 2 ^ 52). lia. }
  assert (m ≤ k * W - 1) as Hmle.
  { rewrite Hm. apply roundHalfEven_below.
    assert (y * inject_Z (2 ^ 1074) / inject_Z U == y * inject_Z W)%Q as ->.
    { rewrite HPW, inject_Z_mult. field. lra. }
    assert (9007199254740992 < 2 * (inject_Z k * inject_Z W))%Q as HNq.
    { rewrite <- inject_Z_mult. change 2%Q with (inject_Z 2).
      rewrite <- inject_Z_mult. rewrite <- inject_Z_pow53, <- Zlt_Qlt. done. }
    assert (0 < inject_Z W)%Q as HWq.
    { change 0%Q with (inject_Z 0). by rewrite <- Zlt_Qlt. }
    rewrite inject_Z_mult. nra. }
  apply Qlt_shift_div_r; [done|].
  rewrite <- inject_Z_mult, <- Zlt_Qlt, HPW. nia.
Qed.

(** A double below 1 is at most 1 - 2^-53. *)
Lemma binary64_below_one (x : Q) :
  (0 <= x)%Q → (x < 1)%Q → (binary64 x == x)%Q →
  (x * inject_Z (2 ^ 53) <= inject_Z (2 ^ 53) - 1)%Q.
Proof.
  intros Hx Hx1 Hrep.
  destruct (binary64_nonneg_form x Hx) as (E & m & HE & Hm & Hb).
  rewrite Hb in Hrep. clear Hb Hm.
  pose proof (pow2_pos 1074 ltac:(lia)) as HP.
  assert (x * inject_Z (2 ^ 1074) == inject_Z (m * 2 ^ E))%Q as HX.
  { rewrite <- Hrep at 1. field. lra. }
  rewrite HX, Qfloor_Z in HE.
  set (F := m * 2 ^ E) in *.
  assert (0 ≤ F) as HF0.
  { rewrite Zle_Qle, <- HX. apply Qmult_le_0_compat; lra. }
  assert (F < 2 ^ 1074) as HFlt.
  { rewrite Zlt_Qlt, <- HX. nra. }
  assert (F * 2 ^ 53 ≤ (2 ^ 53 - 1) * 2 ^ 1074) as HZ.
  { destruct (decide (F = 0)) as [HF|HF]; [rewrite HF; lia|].
    assert (0 < F) as HFpos by lia.
    destruct (Z.log2_spec F HFpos) as [_ Hhigh].
    assert (Z.log2 F < 1074) as HL by (apply Z.log2_lt_pow2; lia).
    destruct (decide (Z.log2 F = 1073)) as [Htop|Hlower].
    - assert (E = 1021) as HEv by lia.
      unfold F in *. rewrite HEv in *.
      change (2 ^ 1074) with (2 ^ 53 * 2 ^ 1021) in *.
      assert (0 < 2 ^ 1021) by (apply Z.pow_pos_nonneg; lia).
      assert (m < 2 ^ 53) by nia.
      nia.
    - assert (2 ^ Z.succ (Z.log2 F) ≤ 2 ^ 1073) by (apply Z.pow_le_mono_r; lia).
      change (2 ^ 1074) with (2 * 2 ^ 1073).
      assert (0 < 2 ^ 1073) by (apply Z.pow_pos_nonneg; lia).
      nia. }
  rewrite Zle_Qle, !inject_Z_mult in HZ. rewrite <- HX in HZ.
  assert (inject_Z (2 ^ 53 - 1) == inject_Z (2 ^ 53) - 1)%Q as Hc by reflexivity.
  rewrite Hc in HZ. rewrite inject_Z_pow53 in *.
  nra.
Qed.

(** [Math.floor(Math.random() * k)] for a whole number [k]: a whole number
    from 0 to [k - 1]. *)
Lemma Math_floor_draw (random : Q) (k : Z) :
  (binary64 random == random)%Q → (0 <= random)%Q → (random < 1)%Q →
  1 ≤ k ≤ 2 ^ 52 →
  0 ≤ Math_floor (times random (inject_Z k)) ≤ k - 1.
Proof.
  intros Hrep H0 H1 Hk. unfold Math_floor, times.
  pose proof (binary64_below_one random H0 H1 Hrep) as Hgap.
  assert (1 <= inject_Z k)%Q as Hk1.
  { change 1%Q with (inject_Z 1). rewrite <- Zle_Qle. lia. }
  assert (0 <= random * inject_Z k)%Q as Hy by (apply Qmult_le_0_compat; lra).
  split.
  - apply Qfloor_nonneg. by apply binary64_nonneg.
  - assert (binary64 (random * inject_Z k) < inject_Z k)%Q as Hlt.
    { apply binary64_below; [done|done|]. rewrite inject_Z_pow53 in *. nra. }
    assert (inject_Z (Qfloor (binary64 (random * inject_Z k))) < inject_Z k)%Q as Hfl.
    { eapply Qle_lt_trans; [apply Qfloor_le|done]. }
    rewrite <- Zlt_Qlt in Hfl. lia.
Qed.

(** [times] agrees with the product of the Standard Library's
    specification of binary64 arithmetic on the products used here and on
    a subnormal, a tie and the largest draw; [literal (9 # 10)] is its
    quotient of 9 by 10. *)
Example times_agrees_with_SFmul :
  forallb sameProduct
    [ (S754_finite false 6004799503160661 (-54), S754_finite false 21 0);
      (S754_finite false 3431314001806092 (-52), S754_finite false 21 0);
      (S754_finite false 9007199254740991 (-53), S754_finite false 21 0);
      (S754_finite false 50 0, S754_finite false 8106479329266893 (-53));
      (S754_finite false 35 0, S754_finite false 8106479329266893 (-53));
      (S754_finite false 1 (-1074), S754_finite false 21 (-1));
      (S754_finite false 4503599627370497 0, S754_finite false 3 (-1));
      (S754_finite true 6004799503160661 (-54), S754_finite false 3 0) ]
  = true
  ∧ (SF2Q (SFdiv 53 1024 (S754_finite false 9 0) (S754_finite false 10 0))
     == literal (9 # 10))%Q.
Proof. split; vm_compute; reflexivity. Qed.

End Binary64.

(** * Further properties of the restaurant service's fallback *)

Section RestaurantServiceFallback.

Import Service DemoData Samples.

(** The bounds of the draw are the same whether the two products with
    [0.5] and [0.9] are taken in doubles or exactly, for each capacity among
    the seed restaurants. *)
Lemma seed_capacity_bounds (T : Z) :
  T ∈ rst_totalSeats <$> DEMO_RESTAURANTS →
  let lo := Math_floor (times (inject_Z T) (literal (5 # 10))) in
  let hi := Math_floor (times (inject_Z T) (literal (9 # 10))) in
  lo = Math_floor (inject_Z T * (5 # 10))
  ∧ hi = Math_floor (inject_Z T * (9 # 10))
  ∧ 0 ≤ lo ∧ lo ≤ hi ∧ hi ≤ T ∧ hi - lo + 1 ≤ 2 ^ 52.
Proof.
  intros HT. vm_compute in HT.
  repeat (apply elem_of_cons in HT as [->|HT]);
    [..|by apply elem_of_nil in HT];
    vm_compute; split_and!; (reflexivity || discriminate).
Qed.

(** X24.  The availability the restaurant service makes up on the
    fallback path is always plausible: for a seed restaurant and a draw of
    [Math.random()] that is a double in [0, 1), the answer lies between
    half and nine tenths of the capacity, both rounded down, and so between
    0 and the capacity.  The products are the language's products of
    doubles. *)
Theorem RestaurantService_availability_within_capacity random R D S r :
  find (λ x, rst_id x = R) DEMO_RESTAURANTS = Some r →
  (binary64 random == random)%Q →
  (0 <= random)%Q → (random < 1)%Q →
  ∃ n,
    RestaurantService.getAvailableSeats None random R D S = Ok n
    ∧ Math_floor (inject_Z (rst_totalSeats r) * (5 # 10)) ≤ n
    ∧ n ≤ Math_floor (inject_Z (rst_totalSeats r) * (9 # 10))
    ∧ 0 ≤ n ≤ rst_totalSeats r.
Proof.
  intros Hr Hdouble Hlo Hhi. unfold RestaurantService.getAvailableSeats.
  rewrite Hr. eexists. split; [reflexivity|].
  apply find_Some in Hr as [Hin _].
  assert (rst_totalSeats r ∈ rst_totalSeats <$> DEMO_RESTAURANTS) as HT
    by (by apply list_elem_of_fmap_2).
  destruct (seed_capacity_bounds _ HT) as (Hmin & Hmax & H0 & Hle & Hcap & Hk).
  set (lo := Math_floor (times (inject_Z (rst_totalSeats r)) (literal (5 # 10))))
    in *.
  set (hi := Math_floor (times (inject_Z (rst_totalSeats r)) (literal (9 # 10))))
    in *.
  assert (1 ≤ hi - lo + 1 ≤ 2 ^ 52) as Hrange by lia.
  pose proof (Math_floor_draw random (hi - lo + 1) Hdouble Hlo Hhi Hrange)
    as Hdraw.
  rewrite <- Hmin, <- Hmax. lia.
Qed.

Lemma RestaurantService_availability_within_capacity_witness :
  ∃ r n,
    find (λ x, rst_id x = "rest-1") DEMO_RESTAURANTS = Some r
    ∧ RestaurantService.getAvailableSeats None oneThird "rest-1" "2026-03-01"
        "7:00 PM" = Ok n
    ∧ Math_floor (inject_Z (rst_totalSeats r) * (5 # 10)) ≤ n
    ∧ n ≤ Math_floor (inject_Z (rst_totalSeats r) * (9 # 10))
    ∧ 0 ≤ n ≤ rst_totalSeats r.
Proof.
  eexists.
  assert (find (λ x, rst_id x = "rest-1") DEMO_RESTAURANTS = Some _) as Hr
    by reflexivity.
  destruct (RestaurantService_availability_within_capacity oneThird "rest-1"
              "2026-03-01" "7:00 PM" _ Hr) as (n & Hrest).
  - vm_compute. reflexivity.
  - unfold Qle. simpl. lia.
  - unfold Qlt. simpl. lia.
  - exists n. split; [exact Hr|exact Hrest].
Defined.

(** Aurora has fifty seats, so the draw is multiplied by 21.  The double
    nearest to 1/3 times 21 is 7 in doubles, although the exact product is
    below 7, and the answer is 32; likewise the double nearest to 16/21
    gives 41; the largest double below 1 gives 45. *)
Example RestaurantService_availability_at_rounded_draws :
  RestaurantService.getAvailableSeats None oneThird "rest-1" "2026-03-01" "7:00 PM"
  = Ok 32
  ∧ Math_floor (oneThird * 21) = 6
  ∧ RestaurantService.getAvailableSeats None sixteenOver21 "rest-1" "2026-03-01"
      "7:00 PM" = Ok 41
  ∧ RestaurantService.getAvailableSeats None
      (9007199254740991 # 9007199254740992) "rest-1" "2026-03-01" "7:00 PM"
    = Ok 45.
Proof. split_and!; vm_compute; reflexivity. Qed.

(** X25.  The services agree on which restaurants exist: on the fallback
    path a restaurant id is served by [getRestaurantById] exactly when
    [getAvailableSeats] answers for it, and exactly when a signed-in user's
    [createBooking] for it succeeds. *)
Theorem services_agree_on_known_restaurants ls user tId tCreated tUpdated data
    random D S :
  getStoredUser ls = Some user →
  ((∃ r, RestaurantService.getRestaurantById None (cb_restaurantId data) = Ok r)
   ↔ ∃ n, RestaurantService.getAvailableSeats None random (cb_restaurantId data) D S
          = Ok n)
  ∧ ((∃ r, RestaurantService.getRestaurantById None (cb_restaurantId data) = Ok r)
     ↔ ∃ b ls', BookingService.createBooking None ls tId tCreated tUpdated data
                = (Ok b, ls')).
Proof.
  intros Huser.
  unfold RestaurantService.getRestaurantById, RestaurantService.getAvailableSeats,
    BookingService.createBooking.
  rewrite Huser.
  destruct (find _ DEMO_RESTAURANTS) as [r|].
  - split; split; intros _; eauto.
  - split; split; [intros [? ?]|intros [? ?]|intros [? ?]|intros (? & ? & ?)];
      discriminate.
Qed.

Lemma services_agree_on_known_restaurants_witness :
  ((∃ r, RestaurantService.getRestaurantById None
           (cb_restaurantId (serviceRequest 2)) = Ok r)
   ↔ ∃ n, RestaurantService.getAvailableSeats None (1 # 3)
            (cb_restaurantId (serviceRequest 2)) "2026-03-01" "7:00 PM" = Ok n)
  ∧ ((∃ r, RestaurantService.getRestaurantById None
             (cb_restaurantId (serviceRequest 2)) = Ok r)
     ↔ ∃ b ls', BookingService.createBooking None signedIn 1772000000000
                  1772000000000 1772000000000 (serviceRequest 2) = (Ok b, ls')).
Proof.
  apply (services_agree_on_known_restaurants signedIn rakib). reflexivity.
Defined.

End RestaurantServiceFallback.

(** * The user and session methods of [Database] *)

Section Sessions.

Import DatabaseUsers Samples.

Variable toLowerCase : string → string.

(** X26.  [Database.login] signs in only a stored user whose password is
    the one given and whose e-mail address equals the given one up to
    letter case, and makes that user the current user; a failed login
    leaves the store as it was, so a user who was signed in stays signed
    in.  The user collection is never changed. *)
Theorem Database_login_session acc email password :
  match login toLowerCase acc email password with
  | (Some user, acc') =>
      user ∈ USERS acc
      ∧ usr_password user = password
      ∧ toLowerCase (usr_email user) = toLowerCase email
      ∧ getCurrentUser acc' = Some user
      ∧ USERS acc' = USERS acc
  | (None, acc') => acc' = acc
  end.
Proof.
  unfold login, getUserByEmail.
  destruct (find _ (getUsers acc)) as [user|] eqn:Hfind; [|done].
  case_decide as Hpw; [|done].
  apply find_Some in Hfind as [Hin Hmail]. by split_and!.
Qed.

(** X27.  A user created by [Database.createUser] can sign in with the
    e-mail address and password given at creation, provided no user stored
    before has the same address up to letter case; the user read back by
    [getUserByEmail] is the one created. *)
Theorem Database_createUser_then_login acc tId tCreated input :
  (∀ u, u ∈ USERS acc → toLowerCase (usr_email u) ≠ toLowerCase (ui_email input)) →
  let created := createUser acc tId tCreated input in
  getUserByEmail toLowerCase (snd created) (ui_email input) = Some (fst created)
  ∧ fst (login toLowerCase (snd created) (ui_email input) (ui_password input))
    = Some (fst created)
  ∧ getCurrentUser
      (snd (login toLowerCase (snd created) (ui_email input) (ui_password input)))
    = Some (fst created).
Proof.
  intros Hfresh created.
  assert (getUserByEmail toLowerCase (snd created) (ui_email input)
          = Some (fst created)) as Hfound.
  { unfold getUserByEmail, getUsers, created, createUser. simpl.
    by apply find_fresh_push. }
  split; [done|]. unfold login. rewrite Hfound.
  rewrite decide_True by done. done.
Qed.

(** X28.  [Database.createUser] does not check the address: when a user
    stored before has the same address up to letter case and another
    password, the new user is stored but can never sign in, because
    [getUserByEmail] keeps returning the earlier user. *)
Theorem Database_createUser_duplicate_email acc tId tCreated input earlier :
  getUserByEmail toLowerCase acc (ui_email input) = Some earlier →
  usr_password earlier ≠ ui_password input →
  let created := createUser acc tId tCreated input in
  fst created ∈ USERS (snd created)
  ∧ getUserByEmail toLowerCase (snd created) (ui_email input) = Some earlier
  ∧ login toLowerCase (snd created) (ui_email input) (ui_password input)
    = (None, snd created).
Proof.
  intros Hearlier Hpw created.
  assert (getUserByEmail toLowerCase (snd created) (ui_email input) = Some earlier)
    as Hstill.
  { unfold getUserByEmail, find, getUsers in *. unfold created, createUser. simpl.
    destruct (list_find _ (USERS acc)) as [[i x]|] eqn:Hf; [|done].
    simpl in Hearlier. injection Hearlier as ->.
    unfold push. by erewrite list_find_app_l. }
  split_and!; [|done|].
  - unfold created, createUser, push. simpl. apply elem_of_app. right.
    by apply list_elem_of_singleton.
  - unfold login. rewrite Hstill. by rewrite decide_False.
Qed.

End Sessions.

Section SessionWitnesses.

Import DatabaseUsers Samples.

Lemma Database_createUser_then_login_witness :
  let created := createUser seededAccounts 1772000000000 1772000000000 newcomer in
  getUserByEmail lowerLetters (snd created) (ui_email newcomer) = Some (fst created)
  ∧ fst (login lowerLetters (snd created) (ui_email newcomer) (ui_password newcomer))
    = Some (fst created)
  ∧ getCurrentUser
      (snd (login lowerLetters (snd created) (ui_email newcomer)
              (ui_password newcomer)))
    = Some (fst created).
Proof.
  apply (Database_createUser_then_login lowerLetters seededAccounts).
  intros u Hu.
  repeat (apply elem_of_cons in Hu as [->|Hu]; [vm_compute; discriminate|]).
  by apply elem_of_nil in Hu.
Defined.

Lemma Database_createUser_duplicate_email_witness :
  let created := createUser seededAccounts 1772000000000 1772000000000 impostor in
  fst created ∈ USERS (snd created)
  ∧ getUserByEmail lowerLetters (snd created) (ui_email impostor)
    = USERS seededAccounts !! 1%nat
  ∧ login lowerLetters (snd created) (ui_email impostor) (ui_password impostor)
    = (None, snd created).
Proof.
  eapply (Database_createUser_duplicate_email lowerLetters seededAccounts).
  - reflexivity.
  - discriminate.
Defined.

End SessionWitnesses.

Section ToggleOutsideSeedWitness.

Import Service DemoData FavouriteService Samples.

(** Two toggles of Helium, which is not a seed favourite of the demo
    customer: true, then false, and not a favourite afterwards. *)
Lemma toggleFavourite_twice_outside_seed_witness :
  ∃ ls1 ls2,
    toggleFavourite unreachable signedIn 1772000000000 1772000000000 "rest-2"
    = (Ok (negb (isFavourite None signedIn "rest-2")), ls1)
    ∧ toggleFavourite unreachable ls1 1772000060000 1772000060000 "rest-2"
      = (Ok (isFavourite None signedIn "rest-2"), ls2)
    ∧ isFavourite None ls2 "rest-2" = isFavourite None signedIn "rest-2".
Proof.
  eapply (toggleFavourite_twice_outside_seed signedIn rakib _ "rest-2").
  - reflexivity.
  - reflexivity.
  - reflexivity.
Defined.

End ToggleOutsideSeedWitness.
